(** * Session authentication and rate limiting of the YouTube viral analyzer

    A shallow embedding of the authentication and rate-limiting layer of the
    application: the signed session token codec (HMAC-SHA256 over a random
    nonce), the in-memory fixed-window rate limiters, the login route, the
    request middleware, the login page's return-target check and the route
    handlers that sit behind them.

    Conventions.
    - A JavaScript string is the Rocq [string] of its UTF-8 encoding, the
      bytes that [Buffer.from(s)] and [update(s)] read. [s.length] counts
      UTF-16 code units and is [Str.length]; [s.trim()] removes the white
      space of the language, of one, two or three bytes, and is [trim]. An
      unpaired surrogate has no UTF-8 encoding ([Buffer.from] writes U+FFFD
      for it), so two strings are told apart here when their encodings
      differ.
    - A Node [Buffer] is a [list ascii].
    - A JavaScript number that holds a counter or a millisecond timestamp is
      a [Z].
    - A [Map<string, record>] is a [gmap string record]. *)

From Stdlib Require Import ZArith NArith List Ascii String Lia Bool.
From stdpp Require Import gmap strings list fin_maps pretty.

Local Open Scope string_scope.
Local Open Scope list_scope.

(** ** Node's [crypto]: SHA-256 and HMAC (FIPS 180-4, RFC 2104)

    [createHmac("sha256", key).update(data).digest("hex")] and the Web Crypto
    [crypto.subtle.sign("HMAC", ...)] of the middleware compute the same
    function; it is written out here so that tokens can be evaluated. *)

Module SHA256.
Local Open Scope Z_scope.

Definition mask32 : Z := 0xffffffff.

Definition add32 (x y : Z) : Z := Z.land (x + y) mask32.

Definition rotr (n x : Z) : Z :=
  Z.lor (Z.shiftr x n) (Z.land (Z.shiftl x (32 - n)) mask32).

Definition shr (n x : Z) : Z := Z.shiftr x n.

Definition Ch (x y z : Z) : Z :=
  Z.lxor (Z.land x y) (Z.land (Z.lxor x mask32) z).

Definition Maj (x y z : Z) : Z :=
  Z.lxor (Z.lxor (Z.land x y) (Z.land x z)) (Z.land y z).

Definition Sigma0 (x : Z) : Z := Z.lxor (Z.lxor (rotr 2 x) (rotr 13 x)) (rotr 22 x).
Definition Sigma1 (x : Z) : Z := Z.lxor (Z.lxor (rotr 6 x) (rotr 11 x)) (rotr 25 x).
Definition sigma0 (x : Z) : Z := Z.lxor (Z.lxor (rotr 7 x) (rotr 18 x)) (shr 3 x).
Definition sigma1 (x : Z) : Z := Z.lxor (Z.lxor (rotr 17 x) (rotr 19 x)) (shr 10 x).

(** Integer cube root by bisection on the bits of the result:
    the largest [r] below [2^i] above the start with [r^3 <= n]. *)
Fixpoint icbrt (i : nat) (n r : Z) : Z :=
  match i with
  | O => r
  | S j =>
      let c := r + 2 ^ Z.of_nat j in
      icbrt j n (if c ^ 3 <=? n then c else r)
  end.

Definition primes : list Z :=
  [ 2; 3; 5; 7; 11; 13; 17; 19; 23; 29; 31; 37; 41; 43; 47; 53; 59; 61; 67;
    71; 73; 79; 83; 89; 97; 101; 103; 107; 109; 113; 127; 131; 137; 139;
    149; 151; 157; 163; 167; 173; 179; 181; 191; 193; 197; 199; 211; 223;
    227; 229; 233; 239; 241; 251; 257; 263; 269; 271; 277; 281; 283; 293;
    307; 311 ].

(** The round constants: the first 32 bits of the fractional parts of the
    cube roots of the first 64 primes. *)
Definition K : list Z :=
  Eval vm_compute in
    map (fun p => Z.land (icbrt 36 (p * 2 ^ 96) 0) mask32) primes.

(** The eight working variables a..h. *)
Record State := mkState {
  sa : Z; sb : Z; sc : Z; sd : Z; se : Z; sf : Z; sg : Z; sh : Z
}.

(** The initial hash value: the first 32 bits of the fractional parts of
    the square roots of the first 8 primes. *)
Definition frac_sqrt (p : Z) : Z := Z.land (Z.sqrt (p * 2 ^ 64)) mask32.

Definition H0 : State :=
  Eval vm_compute in
    mkState (frac_sqrt 2) (frac_sqrt 3) (frac_sqrt 5) (frac_sqrt 7)
            (frac_sqrt 11) (frac_sqrt 13) (frac_sqrt 17) (frac_sqrt 19).

Definition round (st : State) (k w : Z) : State :=
  let t1 := add32 (add32 (add32 (sh st) (Sigma1 (se st)))
                         (add32 (Ch (se st) (sf st) (sg st)) k)) w in
  let t2 := add32 (Sigma0 (sa st)) (Maj (sa st) (sb st) (sc st)) in
  mkState (add32 t1 t2) (sa st) (sb st) (sc st)
          (add32 (sd st) t1) (se st) (sf st) (sg st).

(** The 64 rounds of one block. [w] is the sliding window of the last
    sixteen schedule words, oldest first. *)
Fixpoint rounds (ks : list Z) (w : list Z) (st : State) : State :=
  match ks with
  | [] => st
  | k :: ks' =>
      let st' := round st k (nth 0 w 0) in
      let next := add32 (add32 (sigma1 (nth 14 w 0)) (nth 9 w 0))
                        (add32 (sigma0 (nth 1 w 0)) (nth 0 w 0)) in
      rounds ks' (tl w ++ [next]) st'
  end.

Definition compress (st : State) (block : list Z) : State :=
  let r := rounds K block st in
  mkState (add32 (sa st) (sa r)) (add32 (sb st) (sb r))
          (add32 (sc st) (sc r)) (add32 (sd st) (sd r))
          (add32 (se st) (se r)) (add32 (sf st) (sf r))
          (add32 (sg st) (sg r)) (add32 (sh st) (sh r)).

(** Big-endian packing of bytes into 32-bit words. *)
Fixpoint words_of_bytes (bs : list Z) : list Z :=
  match bs with
  | b0 :: b1 :: b2 :: b3 :: rest =>
      (((b0 * 256 + b1) * 256 + b2) * 256 + b3) :: words_of_bytes rest
  | _ => []
  end.

Definition bytes_of_word (w : Z) : list Z :=
  [ Z.land (Z.shiftr w 24) 255; Z.land (Z.shiftr w 16) 255;
    Z.land (Z.shiftr w 8) 255; Z.land w 255 ].

Definition be64 (n : Z) : list Z :=
  bytes_of_word (Z.shiftr n 32) ++ bytes_of_word (Z.land n mask32).

(** Padding: a one bit, zeros up to 56 mod 64, then the bit length. *)
Definition pad (msg : list Z) : list Z :=
  let len := Z.of_nat (length msg) in
  msg ++ [128] ++ repeat 0 (Z.to_nat ((55 - len) mod 64)) ++ be64 (8 * len).

Fixpoint blocks (n : nat) (bs : list Z) (st : State) : State :=
  match n with
  | O => st
  | S n' => blocks n' (skipn 64 bs) (compress st (words_of_bytes (firstn 64 bs)))
  end.

Definition digest_bytes (st : State) : list Z :=
  bytes_of_word (sa st) ++ bytes_of_word (sb st) ++ bytes_of_word (sc st) ++
  bytes_of_word (sd st) ++ bytes_of_word (se st) ++ bytes_of_word (sf st) ++
  bytes_of_word (sg st) ++ bytes_of_word (sh st).

Definition Z_of_byte (c : ascii) : Z := Z.of_N (N_of_ascii c).
Definition byte_of_Z (z : Z) : ascii := ascii_of_N (Z.to_N z).

Definition sha256 (msg : list ascii) : list ascii :=
  let p := pad (map Z_of_byte msg) in
  map byte_of_Z (digest_bytes (blocks (length p / 64) p H0)).

Definition xor_byte (x : N) (c : ascii) : ascii :=
  ascii_of_N (N.lxor (N_of_ascii c) x).

Definition hmac (key msg : list ascii) : list ascii :=
  let k0 := if (64 <? length key)%nat then sha256 key else key in
  let k := k0 ++ repeat zero (64 - length k0)%nat in
  sha256 (map (xor_byte 0x5c) k ++ sha256 (map (xor_byte 0x36) k ++ msg)).

End SHA256.

(** ** Hexadecimal encoding of buffers *)

Module Hex.

Definition digit (n : N) : ascii :=
  match n with
  | 0 => "0" | 1 => "1" | 2 => "2" | 3 => "3" | 4 => "4" | 5 => "5"
  | 6 => "6" | 7 => "7" | 8 => "8" | 9 => "9" | 10 => "a" | 11 => "b"
  | 12 => "c" | 13 => "d" | 14 => "e" | _ => "f"
  end%N%char.

(** [buf.toString("hex")] and [digest("hex")]: two lower-case digits a byte. *)
Fixpoint encode (bs : list ascii) : string :=
  match bs with
  | [] => EmptyString
  | b :: rest =>
      String (digit (N_of_ascii b / 16)) (String (digit (N_of_ascii b mod 16)) (encode rest))
  end.

(** Value of a hexadecimal digit; both cases are accepted, as in Node. *)
Definition unhex (c : ascii) : option N :=
  let n := N_of_ascii c in
  if ((48 <=? n) && (n <=? 57))%N then Some (n - 48)%N
  else if ((97 <=? n) && (n <=? 102))%N then Some (n - 87)%N
  else if ((65 <=? n) && (n <=? 70))%N then Some (n - 55)%N
  else None.

(** [Buffer.from(s, "hex")]: decoding stops at the first pair that is not two
    hexadecimal digits, and a trailing single digit is dropped. A byte of a
    character of several bytes is no digit here; Node reads the low byte of
    the code unit of such a character and may find a digit in it, so that
    its result starts with the result of [decode] and can only be longer. *)
Fixpoint decode (s : string) : list ascii :=
  match s with
  | String c1 (String c2 rest) =>
      match unhex c1, unhex c2 with
      | Some a, Some b => ascii_of_N (a * 16 + b) :: decode rest
      | _, _ => []
      end
  | _ => []
  end.

End Hex.

Definition utf8 (s : string) : list ascii := list_ascii_of_string s.

(** [createHmac("sha256", key).update(data).digest("hex")] *)
Definition hmacSHA256 (key data : string) : string :=
  Hex.encode (SHA256.hmac (utf8 key) (utf8 data)).


(** ** JavaScript string operations used by the source *)

Module Str.

(** [!s] on a string: only the empty string is falsy. *)
Definition falsy (s : string) : bool :=
  match s with EmptyString => true | _ => false end.

(** [s.split(sep)] for a one-character separator. *)
Fixpoint split (sep : ascii) (s : string) : list string :=
  match s with
  | EmptyString => [EmptyString]
  | String c rest =>
      if Ascii.eqb c sep then EmptyString :: split sep rest
      else match split sep rest with
           | h :: t => String c h :: t
           | [] => [String c EmptyString]
           end
  end.

(** [s.startsWith(p)] *)
Definition startsWith (s p : string) : bool := String.prefix p s.

(** [s.includes(sub)] *)
Fixpoint includes (s sub : string) : bool :=
  String.prefix sub s ||
  match s with
  | EmptyString => false
  | String _ rest => includes rest sub
  end.

(** A byte [10xxxxxx], which continues a character of several bytes. *)
Definition continuation (b : ascii) : bool :=
  let n := N_of_ascii b in ((128 <=? n) && (n <? 192))%N.

(** The code units of a string read off its bytes. [need] is the number of
    continuation bytes the character at hand still expects and [pair] says
    that it is a character of four bytes, which UTF-16 writes as a surrogate
    pair: its first byte counts one unit and its second byte the other. A
    character of one to three bytes counts one unit at its first byte. A
    continuation byte that continues nothing is read as the replacement
    character, one unit. *)
Fixpoint units (need : nat) (pair : bool) (s : string) : nat :=
  match s with
  | EmptyString => 0
  | String b rest =>
      let n := N_of_ascii b in
      if continuation b then
        match need with
        | O => 1 + units 0 false rest
        | S need' => (if pair then 1 else 0) + units need' false rest
        end
      else if (n <? 128)%N then 1 + units 0 false rest
      else if (n <? 224)%N then 1 + units 1 false rest
      else if (n <? 240)%N then 1 + units 2 false rest
      else 1 + units 3 true rest
  end.

(** [s.length]: the number of UTF-16 code units of the string. *)
Definition length (s : string) : nat := units 0 false s.

(** [s.padEnd(n, c)] for a one-character filler of one byte. *)
Definition padEnd (s : string) (n : nat) (c : ascii) : string :=
  s +:+ string_of_list_ascii (repeat c (n - length s)).

(** Occurrence of a character, used to reason about [split]. *)
Fixpoint has_char (c : ascii) (s : string) : bool :=
  match s with
  | EmptyString => false
  | String d rest => Ascii.eqb d c || has_char c rest
  end.

(** The string with the character at index [i] replaced by [c]. *)
Fixpoint set_char (i : nat) (c : ascii) (s : string) : string :=
  match s, i with
  | EmptyString, _ => EmptyString
  | String _ rest, O => String c rest
  | String d rest, S j => String d (set_char j c rest)
  end.

End Str.

(** [a || b] where [a] is a string or undefined. *)
Definition or_default (a : option string) (b : string) : string :=
  match a with
  | Some s => if Str.falsy s then b else s
  | None => b
  end.

(** [!a] where [a] is a string or undefined. *)
Definition unset (a : option string) : bool :=
  match a with
  | Some s => Str.falsy s
  | None => true
  end.

(** [crypto.timingSafeEqual(a, b)]: throws a RangeError ([None]) when the
    byte lengths differ. *)
Definition timingSafeEqual (a b : list ascii) : option bool :=
  if (length a =? length b)%nat then Some (bool_decide (a = b)) else None.

(** ** The token codec of the login route (src/unnamed/part_003) *)

Module AuthToken.
Section Env.
(** [process.env.APP_PASSWORD], read when the module is loaded. *)
Variable APP_PASSWORD : option string.

Definition getSessionSecret : string :=
  hmacSHA256 (or_default APP_PASSWORD "fallback") "yva-session-secret".

(** [random] is the result of [randomBytes(32)]. *)
Definition generateSessionToken (random : list ascii) : string :=
  let nonce := Hex.encode random in
  let signature := hmacSHA256 getSessionSecret nonce in
  nonce +:+ "." +:+ signature.

Definition verifySessionToken (token : string) : bool :=
  match Str.split "." token with
  | [nonce; signature] =>
      if Str.falsy nonce || Str.falsy signature then false
      else
        let expected := hmacSHA256 getSessionSecret nonce in
        match timingSafeEqual (Hex.decode signature) (Hex.decode expected) with
        | Some b => b
        | None => false (* catch *)
        end
  | _ => false
  end.
End Env.
End AuthToken.

(** ** Requests, responses and JSON values *)

(** A value produced by [JSON.parse] / [request.json()]. *)
#[local] Unset Elimination Schemes.
Inductive Json : Type :=
| JNull
| JBool (b : bool)
| JNum (z : Z)
| JStr (s : string)
| JArr (items : list Json)
| JObj (fields : list (string * Json)).
#[local] Set Elimination Schemes.

(** What a [try] block can throw. *)
Inductive Exn : Type :=
| APIError (status : option Z) (message : option string) (* OpenAI.APIError *)
| SyntaxError
| OtherError.

Inductive Result (A : Type) : Type :=
| Ok (a : A)
| Throw (e : Exn).
Arguments Ok {A} a.
Arguments Throw {A} e.

(** Sequencing of statements that may throw: [x ← c; k]. *)
#[global] Instance Result_bind : MBind Result := fun A B k c =>
  match c with
  | Ok a => k a
  | Throw e => Throw e
  end.

(** Last binding of a key: [JSON.parse] keeps the last duplicate. *)
Fixpoint lookup_last (name : string) (fields : list (string * Json)) : option Json :=
  match fields with
  | [] => None
  | (k, v) :: rest =>
      match lookup_last name rest with
      | Some w => Some w
      | None => if String.eqb k name then Some v else None
      end
  end.

(** [const { name } = body]: throws on null, gives undefined ([None]) when
    the property is missing or the body is not an object. *)
Definition property (name : string) (body : Json) : Result (option Json) :=
  match body with
  | JNull => Throw OtherError
  | JObj fields => Ok (lookup_last name fields)
  | _ => Ok None
  end.

(** [!!v] for a value that may be undefined. *)
Definition truthy (v : option Json) : bool :=
  match v with
  | None | Some JNull => false
  | Some (JBool b) => b
  | Some (JNum z) => negb (z =? 0)%Z
  | Some (JStr s) => negb (Str.falsy s)
  | Some (JArr _) | Some (JObj _) => true
  end.

(** [v && typeof v === "string"]: the non-empty strings. *)
Definition nonempty_string (v : option Json) : option string :=
  match v with
  | Some (JStr s) => if Str.falsy s then None else Some s
  | _ => None
  end.

Record Response := mkResponse { status : Z; body : Json }.

(** [NextResponse.json({ success: false, error }, { status })] *)
Definition failure (error : string) (status : Z) : Response :=
  mkResponse status (JObj [("success", JBool false); ("error", JStr error)]).

(** The parts of a [NextRequest] the handlers read. *)
Record Request := mkRequest {
  session : option string;          (* value of the yva_session cookie *)
  x_real_ip : option string;
  x_forwarded_for : option string;
  json : Result Json                (* request.json() *)
}.

(** The white space and line terminators of the language, by their UTF-8
    bytes. One byte: U+0009 to U+000D and U+0020. *)
Definition is_space (c : ascii) : bool :=
  let n := N_of_ascii c in ((9 <=? n) && (n <=? 13) || (n =? 32))%N.

(** Two bytes: U+00A0. *)
Definition is_space2 (a b : ascii) : bool :=
  ((N_of_ascii a =? 194) && (N_of_ascii b =? 160))%N.

(** Three bytes: U+1680, U+2000 to U+200A, U+2028, U+2029, U+202F, U+205F,
    U+3000 and U+FEFF. *)
Definition is_space3 (a b c : ascii) : bool :=
  let x := N_of_ascii a in
  let y := N_of_ascii b in
  let z := N_of_ascii c in
  ((x =? 225) && (y =? 154) && (z =? 128)
   || (x =? 226) && (y =? 128)
      && ((128 <=? z) && (z <=? 138) || (z =? 168) || (z =? 169) || (z =? 175))
   || (x =? 226) && (y =? 129) && (z =? 159)
   || (x =? 227) && (y =? 128) && (z =? 128)
   || (x =? 239) && (y =? 187) && (z =? 191))%N.

(** [s.trimStart()] *)
Fixpoint trimStart (s : string) : string :=
  match s with
  | EmptyString => EmptyString
  | String a rest =>
      if is_space a then trimStart rest
      else
        match rest with
        | EmptyString => s
        | String b rest2 =>
            if is_space2 a b then trimStart rest2
            else
              match rest2 with
              | EmptyString => s
              | String c rest3 =>
                  if is_space3 a b c then trimStart rest3 else s
              end
        end
  end.

(** [s.trimEnd()]: the string is cut where nothing but white space follows.
    No white space character starts with a continuation byte, so the cut
    never falls inside a character. *)
Fixpoint trimEnd (s : string) : string :=
  match s with
  | EmptyString => EmptyString
  | String a rest =>
      if Str.falsy (trimStart s) then EmptyString else String a (trimEnd rest)
  end.

(** [s.trim()] *)
Definition trim (s : string) : string := trimEnd (trimStart s).

(** [getClientIP], shared by the login, analyze, analyze-style and
    thumbnail routes. *)
Definition getClientIP (request : Request) : string :=
  or_default (x_real_ip request)
    (or_default
       (match x_forwarded_for request with
        | Some v => match Str.split "," v with
                    | first :: _ => Some (trim first)
                    | [] => None
                    end
        | None => None
        end)
       "unknown").

(** ** The token check of the middleware and the middleware itself
    (src/middleware.ts) *)

Module Middleware.

Definition publicRoutes : list string := ["/login"; "/api/auth"].

Record URL := mkURL {
  origin : string;
  pathname : string;
  searchParams : list (string * string)
}.

Inductive NextResponse : Type :=
| next
| redirect (url : URL).

Section Env.
Variable APP_PASSWORD : option string.

Definition verifySessionToken (token : string) : bool :=
  match APP_PASSWORD with
  | None => false
  | Some password =>
      if Str.falsy password then false
      else
        match Str.split "." token with
        | [nonce; signature] =>
            if Str.falsy nonce || Str.falsy signature then false
            else
              let secret := hmacSHA256 password "yva-session-secret" in
              let expected := hmacSHA256 secret nonce in
              String.eqb signature expected
        | _ => false
        end
  end.

(** The paths the middleware lets through without a session: the public
    routes and what it takes for framework files and static assets. *)
Definition public_path (path : string) : Prop :=
  (exists route, In route publicRoutes /\ Str.startsWith path route = true) \/
  Str.startsWith path "/_next" = true \/
  Str.startsWith path "/favicon" = true \/
  Str.includes path "." = true.

(** [request_origin] is the origin of [request.url], [path] is
    [request.nextUrl.pathname] and [cookie] the value of the session cookie. *)
Definition middleware (request_origin path : string) (cookie : option string)
  : NextResponse :=
  if existsb (fun route => Str.startsWith path route) publicRoutes then next
  else if Str.startsWith path "/_next" || Str.startsWith path "/favicon"
          || Str.includes path "." then next
  else
    let loginUrl := mkURL request_origin "/login" [("from", path)] in
    match cookie with
    | None => redirect loginUrl
    | Some value =>
        if Str.falsy value || negb (verifySessionToken value)
        then redirect loginUrl
        else next
    end.
End Env.
End Middleware.

(** ** The return target of the login page (src/app/login/page.tsx) *)

Module LoginPage.

(** [searchParams.get(name)]: the first value of the parameter. *)
Fixpoint get (name : string) (searchParams : list (string * string)) : option string :=
  match searchParams with
  | [] => None
  | (k, v) :: rest => if String.eqb k name then Some v else get name rest
  end.

Definition rawFrom (searchParams : list (string * string)) : string :=
  or_default (get "from" searchParams) "/".

Definition from (searchParams : list (string * string)) : string :=
  let rawFrom := rawFrom searchParams in
  if Str.startsWith rawFrom "/" && negb (Str.startsWith rawFrom "//")
  then rawFrom else "/".

(** The test of [from] as a predicate on the text of the value: it begins
    with one slash and that slash is not followed by a second one. *)
Definition same_origin_relative (target : string) : Prop :=
  exists rest, target = String "/" rest /\ forall rest', rest <> String "/" rest'.

(** [handleSubmit]: where the router is pushed once the login call answers;
    [None] when the page stays. *)
Definition handleSubmit (searchParams : list (string * string)) (success : bool)
  : option string :=
  if success then Some (from searchParams) else None.

End LoginPage.

(** ** The return target in the words of the specification

    The specification asks that the return target be "a same-origin relative
    path", so that the login page cannot be used as an open redirect. What a
    value is in that sense is decided by the way a browser resolves it
    against the address of the page (URL Standard, basic URL parser with an
    http or https base): C0 control characters and spaces at both ends are
    dropped, tabs and newlines are taken out wherever they stand, and of a
    value that then starts with a slash the next character decides. A second
    slash, which the parser also reads in a backslash, starts an authority,
    that is, the name of another host; anything else continues a path on the
    host of the page. *)

Module ReturnTarget.

Definition c0_or_space (c : ascii) : bool := (N_of_ascii c <=? 32)%N.

Definition tab_or_newline (c : ascii) : bool :=
  let n := N_of_ascii c in ((n =? 9) || (n =? 10) || (n =? 13))%N.

(** A slash as the parser reads it under an http or https base. *)
Definition slash (c : ascii) : bool := Ascii.eqb c "/" || Ascii.eqb c "\".

Fixpoint strip_start (s : string) : string :=
  match s with
  | EmptyString => EmptyString
  | String c rest => if c0_or_space c then strip_start rest else s
  end.

Fixpoint remove_tab_newline (s : string) : string :=
  match s with
  | EmptyString => EmptyString
  | String c rest =>
      if tab_or_newline c then remove_tab_newline rest
      else String c (remove_tab_newline rest)
  end.

(** The value as the parser starts to read it. What is dropped at the end
    of the value decides nothing here: a character that is dropped there is
    not a slash. *)
Definition parser_input (value : string) : string :=
  remove_tab_newline (strip_start value).

Definition same_origin_relative_path (value : string) : bool :=
  match parser_input value with
  | String a EmptyString => Ascii.eqb a "/"
  | String a (String b _) => Ascii.eqb a "/" && negb (slash b)
  | EmptyString => false
  end.

End ReturnTarget.

(** ** The token check of the API routes
    (the analyze, analyze-style, thumbnail and upload routes share it) *)

Module ApiToken.
Section Env.
Variable APP_PASSWORD : option string.

Definition verifySessionToken (token : string) : bool :=
  let secret :=
    hmacSHA256 (or_default APP_PASSWORD "fallback") "yva-session-secret" in
  match Str.split "." token with
  | [nonce; signature] =>
      if Str.falsy nonce || Str.falsy signature then false
      else
        let expected := hmacSHA256 secret nonce in
        String.eqb signature expected
  | _ => false
  end.

(** [!session?.value || !verifySessionToken(session.value)] *)
Definition unauthenticated (request : Request) : bool :=
  match session request with
  | None => true
  | Some value => Str.falsy value || negb (verifySessionToken value)
  end.
End Env.
End ApiToken.

(** ** Fixed-window rate limiter
    ([checkAnalyzeRateLimit] and the two [checkRateLimit] functions have the
    same text up to the names of the window and the maximum) *)

Module Limiter.

Record RateRecord := mkRate { count : Z; windowStart : Z }.

Section Policy.
Variables WINDOW MAX : Z.

(** [now] is the reading of [Date.now()]. The result is the returned flag
    and the map after the call. *)
Definition check (now : Z) (ip : string) (m : gmap string RateRecord)
  : bool * gmap string RateRecord :=
  match m !! ip with
  | None => (true, <[ip := mkRate 1 now]> m)
  | Some record =>
      if (now - windowStart record >? WINDOW)%Z
      then (true, <[ip := mkRate 1 now]> m)
      else if (count record >=? MAX)%Z then (false, m)
      else (true, <[ip := mkRate (count record + 1) (windowStart record)]> m)
  end.

(** No record, or a record whose window has expired at [now]. *)
Definition stale (now : Z) (m : gmap string RateRecord) (ip : string) : Prop :=
  m !! ip = None \/ exists r, m !! ip = Some r /\ (now - windowStart r > WINDOW)%Z.

(** Successive calls for one key at the given clock readings. *)
Fixpoint calls (nows : list Z) (ip : string) (m : gmap string RateRecord)
  : list bool * gmap string RateRecord :=
  match nows with
  | [] => ([], m)
  | now :: rest =>
      let '(allowed, m1) := check now ip m in
      let '(flags, m2) := calls rest ip m1 in
      (allowed :: flags, m2)
  end.
End Policy.
End Limiter.

(** ** The login route (src/unnamed/part_003) *)

(** A record of the [attempts] maps of the two login routes. *)
Record Attempt := mkAttempt { count : Z; firstAttempt : Z }.

(** What a handler does to the cookie store. *)
Inductive CookieOp : Type :=
| cookie_set (name value : string) (httpOnly secure : bool)
             (sameSite : string) (maxAge : Z) (path : string)
| cookie_delete (name : string).

(** The outcome of a login handler: the response, the cookie operation it
    performed, and the delay it awaited with [setTimeout], if any. *)
Record Reply := mkReply {
  response : Response;
  cookie : option CookieOp;
  slept : option Z
}.

(** The readings of [Date.now()] of one request, by the place that reads. *)
Record Clock := mkClock {
  at_limit_check : Z;   (* getAttemptCount, called from POST *)
  at_lockout : Z;       (* Date.now() in the lockout condition of POST *)
  at_record : Z;        (* recordAttempt *)
  at_delay : Z          (* getAttemptCount, called from getDelay *)
}.

Module AuthRoute.
Local Open Scope Z_scope.

Definition SESSION_COOKIE_NAME : string := "yva_session".
Definition SESSION_MAX_AGE : Z := 60 * 60 * 24 * 7.
Definition RATE_LIMIT_WINDOW : Z := 15 * 60 * 1000.
Definition RATE_LIMIT_MAX : Z := 5.

(** [Ok] of the comparison, or the exception of [timingSafeEqual]. *)
Definition verifyPassword (input expected : string) : Result bool :=
  let inputBuf := utf8 (Str.padEnd input 256 zero) in
  let expectedBuf := utf8 (Str.padEnd expected 256 zero) in
  if (length inputBuf =? length expectedBuf)%nat
  then match timingSafeEqual inputBuf expectedBuf with
       | Some b => Ok b
       | None => Throw OtherError
       end
  else Ok false.

Definition getAttemptCount (now : Z) (ip : string) (attempts : gmap string Attempt) : Z :=
  match attempts !! ip with
  | None => 0
  | Some record =>
      if now - firstAttempt record >? RATE_LIMIT_WINDOW then 0 else count record
  end.

Definition recordAttempt (now : Z) (ip : string) (attempts : gmap string Attempt)
  : gmap string Attempt :=
  match attempts !! ip with
  | None => <[ip := mkAttempt 1 now]> attempts
  | Some record =>
      if now - firstAttempt record >? RATE_LIMIT_WINDOW
      then <[ip := mkAttempt 1 now]> attempts
      else <[ip := mkAttempt (count record + 1) (firstAttempt record)]> attempts
  end.

Definition getDelay (now : Z) (ip : string) (attempts : gmap string Attempt) : Z :=
  let count := getAttemptCount now ip attempts in
  if count <=? 1 then 0 else Z.min (1000 * 2 ^ (count - 1)) 8000.

Section Env.
Variable APP_PASSWORD : option string.
Variable NODE_ENV : option string.

Definition session_cookie (value : string) : CookieOp :=
  cookie_set SESSION_COOKIE_NAME value true
    (bool_decide (NODE_ENV = Some "production")) "strict" SESSION_MAX_AGE "/".

(** The lockout condition at the head of [POST]. *)
Definition locked (clock : Clock) (ip : string) (attempts : gmap string Attempt) : bool :=
  (getAttemptCount (at_limit_check clock) ip attempts >=? RATE_LIMIT_MAX) &&
  match attempts !! ip with
  | Some record => at_lockout clock - firstAttempt record <? RATE_LIMIT_WINDOW
  | None => false
  end.

(** The [try] block of [POST]; [password] is the configured password and
    [random] the bytes [randomBytes(32)] returns. *)
Definition attempt (password : string) (request : Request) (clock : Clock)
    (random : list ascii) (ip : string) (attempts : gmap string Attempt)
  : Result (Reply * gmap string Attempt) :=
  body ← json request;
  given ← property "password" body;
  match given with
  | Some (JStr given) =>
      if (Str.length given =? 0)%nat || (256 <? Str.length given)%nat
      then Ok (mkReply (failure "Invalid credentials" 401) None None, attempts)
      else
        matched ← verifyPassword given password;
        if matched : bool then
          let attempts := delete ip attempts in
          let token := AuthToken.generateSessionToken APP_PASSWORD random in
          Ok (mkReply (mkResponse 200 (JObj [("success", JBool true)]))
                      (Some (session_cookie token)) None,
              attempts)
        else
          let attempts := recordAttempt (at_record clock) ip attempts in
          let delay := getDelay (at_delay clock) ip attempts in
          Ok (mkReply (failure "Invalid credentials" 401) None
                      (if delay >? 0 then Some delay else None),
              attempts)
  | _ => Ok (mkReply (failure "Invalid credentials" 401) None None, attempts)
  end.

Definition POST (request : Request) (clock : Clock) (random : list ascii)
    (attempts : gmap string Attempt) : Reply * gmap string Attempt :=
  match APP_PASSWORD with
  | None =>
      (mkReply (failure "Authentication not configured" 500) None None, attempts)
  | Some password =>
      if Str.falsy password
      then (mkReply (failure "Authentication not configured" 500) None None,
            attempts)
      else
        let ip := getClientIP request in
        if locked clock ip attempts
        then (mkReply (failure "Too many attempts. Try again later." 429)
                      None (Some 4000),
              attempts)
        else
          match attempt password request clock random ip attempts with
          | Ok result => result
          | Throw _ =>
              (mkReply (failure "Invalid request" 400) None None, attempts)
          end
  end.

Definition GET (request : Request) : Response :=
  mkResponse 200
    (JObj [("authenticated",
            JBool (match session request with
                   | Some value =>
                       negb (Str.falsy value) &&
                       AuthToken.verifySessionToken APP_PASSWORD value
                   | None => false
                   end))]).

Definition DELETE : Reply :=
  mkReply (mkResponse 200 (JObj [("success", JBool true)]))
          (Some (cookie_delete SESSION_COOKIE_NAME)) None.
End Env.
End AuthRoute.

(** ** The earlier login route (src/app/api/auth/route.ts), which stores the
    plain word "authenticated" in the cookie *)

Module PlainAuthRoute.
Local Open Scope Z_scope.

Definition SESSION_COOKIE_NAME : string := "yva_session".
Definition SESSION_MAX_AGE : Z := 60 * 60 * 24 * 7.
Definition RATE_LIMIT_WINDOW : Z := 60 * 60 * 1000.
Definition RATE_LIMIT_MAX : Z := 3.

Definition getAttemptCount (now : Z) (ip : string) (attempts : gmap string Attempt) : Z :=
  match attempts !! ip with
  | None => 0
  | Some record =>
      if now - firstAttempt record >? RATE_LIMIT_WINDOW then 0 else count record
  end.

(** The map after the call and the returned flag. *)
Definition recordAttempt (now : Z) (ip : string) (attempts : gmap string Attempt)
  : bool * gmap string Attempt :=
  match attempts !! ip with
  | None => (false, <[ip := mkAttempt 1 now]> attempts)
  | Some record =>
      if now - firstAttempt record >? RATE_LIMIT_WINDOW
      then (false, <[ip := mkAttempt 1 now]> attempts)
      else (count record + 1 >? RATE_LIMIT_MAX,
            <[ip := mkAttempt (count record + 1) (firstAttempt record)]> attempts)
  end.

Definition getDelay (now : Z) (ip : string) (attempts : gmap string Attempt) : Z :=
  let count := getAttemptCount now ip attempts in
  if count <=? 1 then 0 else Z.min (1000 * 2 ^ (count - 1)) 8000.

Section Env.
Variable APP_PASSWORD : option string.
Variable NODE_ENV : option string.

Definition locked (clock : Clock) (ip : string) (attempts : gmap string Attempt) : bool :=
  (getAttemptCount (at_limit_check clock) ip attempts >=? RATE_LIMIT_MAX) &&
  match attempts !! ip with
  | Some record => at_lockout clock - firstAttempt record <? RATE_LIMIT_WINDOW
  | None => false
  end.

Definition attempt (password : string) (request : Request) (clock : Clock)
    (ip : string) (attempts : gmap string Attempt)
  : Result (Reply * gmap string Attempt) :=
  body ← json request;
  given ← property "password" body;
  if match given with
     | Some (JStr given) => String.eqb given password
     | _ => false
     end
  then
    let attempts := delete ip attempts in
    Ok (mkReply (mkResponse 200 (JObj [("success", JBool true)]))
                (Some (cookie_set SESSION_COOKIE_NAME "authenticated" true
                         (bool_decide (NODE_ENV = Some "production"))
                         "strict" SESSION_MAX_AGE "/"))
                None,
        attempts)
  else
    let attempts := (recordAttempt (at_record clock) ip attempts).2 in
    let delay := getDelay (at_delay clock) ip attempts in
    Ok (mkReply (failure "Invalid credentials" 401) None
                (if delay >? 0 then Some delay else None),
        attempts).

Definition POST (request : Request) (clock : Clock)
    (attempts : gmap string Attempt) : Reply * gmap string Attempt :=
  match APP_PASSWORD with
  | None =>
      (mkReply (failure "Authentication not configured" 500) None None, attempts)
  | Some password =>
      if Str.falsy password
      then (mkReply (failure "Authentication not configured" 500) None None,
            attempts)
      else
        let ip := or_default (x_forwarded_for request) "unknown" in
        if locked clock ip attempts
        then (mkReply (failure "Invalid credentials" 401) None (Some 4000),
              attempts)
        else
          match attempt password request clock ip attempts with
          | Ok result => result
          | Throw _ =>
              (mkReply (failure "Invalid request" 400) None None, attempts)
          end
  end.
End Env.
End PlainAuthRoute.

(** ** The transcript analysis route (src/app/api/analyze/route.ts) *)

Module AnalyzeRoute.
Local Open Scope Z_scope.

Definition ANALYZE_RATE_WINDOW : Z := 60 * 1000.
Definition ANALYZE_RATE_MAX : Z := 10.

Definition checkAnalyzeRateLimit
  : Z -> string -> gmap string Limiter.RateRecord ->
    bool * gmap string Limiter.RateRecord :=
  Limiter.check ANALYZE_RATE_WINDOW ANALYZE_RATE_MAX.

Section Env.
Variable APP_PASSWORD : option string.
Variable OPENAI_API_KEY : option string.
(** The [try]/[catch] statement of [POST]: validation of the body, the call
    of the chat model and the response built from its answer. It does not
    touch [analyzeAttempts]. *)
Variable analysis : Request -> Response.

Definition POST (request : Request) (now : Z)
    (analyzeAttempts : gmap string Limiter.RateRecord)
  : Response * gmap string Limiter.RateRecord :=
  if ApiToken.unauthenticated APP_PASSWORD request
  then (failure "Not authenticated" 401, analyzeAttempts)
  else if unset OPENAI_API_KEY
  then (failure "AI service not configured" 500, analyzeAttempts)
  else
    let ip := getClientIP request in
    let '(allowed, analyzeAttempts) := checkAnalyzeRateLimit now ip analyzeAttempts in
    if negb allowed
    then (failure "Too many requests. Wait a minute and try again." 429,
          analyzeAttempts)
    else (analysis request, analyzeAttempts).
End Env.
End AnalyzeRoute.

(** ** The style analysis route (src/app/api/analyze-style/route.ts) *)

Module StyleRoute.
Local Open Scope Z_scope.

Definition RATE_WINDOW : Z := 60 * 1000.
Definition RATE_MAX : Z := 5.

Definition checkRateLimit
  : Z -> string -> gmap string Limiter.RateRecord ->
    bool * gmap string Limiter.RateRecord :=
  Limiter.check RATE_WINDOW RATE_MAX.

Section Env.
Variable APP_PASSWORD : option string.
Variable OPENAI_API_KEY : option string.
(** The [try]/[catch] statement of [POST]; it does not touch [rateLimiter]. *)
Variable analysis : Request -> Response.

Definition POST (request : Request) (now : Z)
    (rateLimiter : gmap string Limiter.RateRecord)
  : Response * gmap string Limiter.RateRecord :=
  if ApiToken.unauthenticated APP_PASSWORD request
  then (failure "Not authenticated" 401, rateLimiter)
  else if unset OPENAI_API_KEY
  then (failure "AI service not configured" 500, rateLimiter)
  else
    let ip := getClientIP request in
    let '(allowed, rateLimiter) := checkRateLimit now ip rateLimiter in
    if negb allowed
    then (failure "Too many requests. Wait a minute." 429, rateLimiter)
    else (analysis request, rateLimiter).
End Env.
End StyleRoute.

(** ** The thumbnail generation route
    (the second file held in src/lib/prompts.ts) *)

(** The part of a [fetch] response the route reads. *)
Record HttpResponse := mkHttp {
  ok : bool;
  http_status : Z;
  arrayBuffer : Result (list ascii)
}.

Module ThumbnailRoute.
Local Open Scope Z_scope.

Definition YOUTUBE_WIDTH : Z := 1280.
Definition YOUTUBE_HEIGHT : Z := 720.
Definition RATE_WINDOW : Z := 60 * 1000.
Definition RATE_MAX : Z := 10.

Definition checkRateLimit
  : Z -> string -> gmap string Limiter.RateRecord ->
    bool * gmap string Limiter.RateRecord :=
  Limiter.check RATE_WINDOW RATE_MAX.

Section Env.
Variable APP_PASSWORD : option string.
Variable OPENAI_API_KEY : option string.
Variable BUNNY_STORAGE_ZONE : option string.
Variable BUNNY_ACCESS_KEY : option string.
Variable BUNNY_CDN_HOST : option string.

(** The channel table and the prompt builders of the lib modules. *)
Variable ChannelConfig : Type.
Variable getChannel : string -> option ChannelConfig.
Variable buildDallePrompt :
  string -> ChannelConfig -> option string -> string -> bool -> string.
Variable buildPromptCrafterSystem : string.
(** The user message of the prompt crafter, from the concept, the overlay,
    the emotion, the channel, the video title and the base prompt. *)
Variable crafterMessage :
  string -> string -> option Json -> ChannelConfig -> option Json -> string -> string.

(** The collaborators behind the network and the image library. *)
(** [openai.chat.completions.create]: [choices[0]?.message?.content]. *)
Variable chat_create : string -> string -> Result (option string).
(** [openai.images.generate]: [data?.[0]?.url]. *)
Variable images_generate : string -> Result (option string).
(** [fetch(url)] *)
Variable fetch_get : string -> Result HttpResponse.
(** [fetch(url, { method: "PUT", headers: { AccessKey }, body })] *)
Variable fetch_put : string -> string -> list ascii -> Result HttpResponse.
(** [sharp(b).resize(w, h, { fit: "cover" }).png().toBuffer()] *)
Variable sharp_resize_cover : list ascii -> Z -> Z -> Result (list ascii).
(** [sharp(b).resize(w, null, { fit: "inside" }).toBuffer()] *)
Variable sharp_resize_inside : list ascii -> Z -> Result (list ascii).
(** [(await sharp(b).metadata()).height] *)
Variable sharp_height : list ascii -> Result (option Z).
(** [sharp(base).composite([{ input, left, top }]).toBuffer()] *)
Variable sharp_composite : list ascii -> list ascii -> Z -> Z -> Result (list ascii).

Definition uploadToBunnyCDN (imageBuffer : list ascii) (filename : string)
  : Result string :=
  let storageZone := trim <$> BUNNY_STORAGE_ZONE in
  let accessKey := trim <$> BUNNY_ACCESS_KEY in
  let cdnHost := trim <$> BUNNY_CDN_HOST in
  match storageZone, accessKey, cdnHost with
  | Some storageZone, Some accessKey, Some cdnHost =>
      if Str.falsy storageZone || Str.falsy accessKey || Str.falsy cdnHost
      then Throw OtherError
      else
        let uploadUrl :=
          "https://la.storage.bunnycdn.com/" +:+ storageZone +:+ "/" +:+ filename in
        response ← fetch_put uploadUrl accessKey imageBuffer;
        if negb (ok response) then Throw OtherError
        else Ok ("https://" +:+ cdnHost +:+ "/" +:+ filename)
  | _, _, _ => Throw OtherError
  end.

Definition compositeHeadshot (baseImage : list ascii) (headshotUrl : string)
  : Result (list ascii) :=
  headshotResponse ← fetch_get headshotUrl;
  if negb (ok headshotResponse) then Throw OtherError
  else
    headshotBuffer ← arrayBuffer headshotResponse;
    (* Math.round(1280 * 0.3) *)
    let headshotWidth := 384 in
    resizedHeadshot ← sharp_resize_inside headshotBuffer headshotWidth;
    height ← sharp_height resizedHeadshot;
    let hHeight := match height with
                   | Some h => if h =? 0 then headshotWidth else h
                   | None => headshotWidth
                   end in
    (* Math.round(1280 * 0.65) *)
    let left := 832 in
    (* Math.round(n / 2) is the floor of (n + 1) / 2 *)
    let top := (YOUTUBE_HEIGHT - hHeight + 1) / 2 in
    sharp_composite baseImage resizedHeadshot (Z.max 0 left) (Z.max 0 top).

(** The [try] block of [POST]. [stamp] is the text of [Date.now()] and
    [rand] that of [Math.random().toString(36).substring(2, 8)]. *)
Definition generate (request : Request) (stamp rand : string) : Result Response :=
  body ← json request;
  concept ← property "concept" body;
  text_overlay ← property "text_overlay" body;
  emotion ← property "emotion" body;
  channelId ← property "channel" body;
  style_guide ← property "style_guide" body;
  headshot_url ← property "headshot_url" body;
  video_title ← property "video_title" body;
  match nonempty_string concept with
  | None => Ok (failure "Concept is required" 400)
  | Some concept =>
  match nonempty_string channelId with
  | None => Ok (failure "Channel is required" 400)
  | Some channelId =>
  match getChannel channelId with
  | None => Ok (failure "Unknown channel" 400)
  | Some channel =>
      let overlay := match text_overlay with Some (JStr s) => s | _ => "" end in
      let includeHeadshot := truthy headshot_url in
      let baseDallePrompt :=
        buildDallePrompt concept channel
          (match style_guide with Some (JStr s) => Some s | _ => None end)
          overlay includeHeadshot in
      content ← chat_create buildPromptCrafterSystem
                  (crafterMessage concept overlay emotion channel video_title
                     baseDallePrompt);
      let optimizedPrompt := or_default content baseDallePrompt in
      generated ← images_generate optimizedPrompt;
      match generated with
      | None => Ok (failure "Image generation failed" 500)
      | Some imageUrl =>
      if Str.falsy imageUrl then Ok (failure "Image generation failed" 500)
      else
        imageDownload ← fetch_get imageUrl;
        if negb (ok imageDownload)
        then Ok (failure "Failed to download generated image" 500)
        else
          downloadedBytes ← arrayBuffer imageDownload;
          resized ← sharp_resize_cover downloadedBytes YOUTUBE_WIDTH YOUTUBE_HEIGHT;
          let imageBuffer :=
            match nonempty_string headshot_url with
            | Some headshot_url =>
                match compositeHeadshot resized headshot_url with
                | Ok composed => composed
                | Throw _ => resized
                end
            | None => resized
            end in
          let filename := "thumb-" +:+ stamp +:+ "-" +:+ rand +:+ ".png" in
          let finalUrl :=
            match uploadToBunnyCDN imageBuffer filename with
            | Ok url => url
            | Throw _ => imageUrl
            end in
          Ok (mkResponse 200
                (JObj [("success", JBool true); ("url", JStr finalUrl);
                       ("prompt_used", JStr optimizedPrompt);
                       ("text_overlay", JStr overlay)]))
      end
  end end end.

(** The [catch] block of [POST]. *)
Definition rescue (error : Exn) : Response :=
  match error with
  | APIError status message =>
      if bool_decide (status = Some 400) &&
         match message with
         | Some text => Str.includes text "content_policy"
         | None => false
         end
      then failure
             "Image generation was blocked by content policy. Try a different concept."
             400
      else if bool_decide (status = Some 429)
      then failure "AI rate limit exceeded. Wait a moment and try again." 429
      else failure "Thumbnail generation failed. Try again." 500
  | _ => failure "Thumbnail generation failed. Try again." 500
  end.

Definition POST (request : Request) (now : Z) (stamp rand : string)
    (rateLimiter : gmap string Limiter.RateRecord)
  : Response * gmap string Limiter.RateRecord :=
  if ApiToken.unauthenticated APP_PASSWORD request
  then (failure "Not authenticated" 401, rateLimiter)
  else if unset OPENAI_API_KEY
  then (failure "AI service not configured" 500, rateLimiter)
  else
    let ip := getClientIP request in
    let '(allowed, rateLimiter) := checkRateLimit now ip rateLimiter in
    if negb allowed
    then (failure "Too many requests. Wait a minute." 429, rateLimiter)
    else
      match generate request stamp rand with
      | Ok response => (response, rateLimiter)
      | Throw error => (rescue error, rateLimiter)
      end.
End Env.
End ThumbnailRoute.

(** ** What a request does to a record that it keeps

    A record of a login attempts map that a request does not remove is left
    as it is, or counts one more attempt in its window, or starts a new
    window at [now] with one attempt when [now] lies past the old window. *)
Definition attempt_kept (WINDOW now : Z) (before : Attempt)
    (after : option Attempt) : Prop :=
  after = Some before \/
  ((now - firstAttempt before <= WINDOW)%Z /\
   after = Some (mkAttempt (count before + 1) (firstAttempt before))) \/
  ((now - firstAttempt before > WINDOW)%Z /\
   after = Some (mkAttempt 1 now)).

(** The same for a record of the limiter of an API route. *)
Definition rate_kept (WINDOW now : Z) (before : Limiter.RateRecord)
    (after : option Limiter.RateRecord) : Prop :=
  after = Some before \/
  ((now - Limiter.windowStart before <= WINDOW)%Z /\
   after = Some (Limiter.mkRate (Limiter.count before + 1)
                   (Limiter.windowStart before))) \/
  ((now - Limiter.windowStart before > WINDOW)%Z /\
   after = Some (Limiter.mkRate 1 now)).

(** ** Sample data *)

(** Characters of more than one byte: U+00E9 (two bytes), U+00A0 and U+3000
    (white space of two and three bytes) and U+1F600 (four bytes, a
    surrogate pair in UTF-16). *)
Definition e_acute : string := String "195" (String "169" "").
Definition no_break_space : string := String "194" (String "160" "").
Definition ideographic_space : string :=
  String "227" (String "128" (String "128" "")).
Definition grinning_face : string :=
  String "240" (String "159" (String "152" (String "128" ""))).

(** [s.repeat(n)] *)
Fixpoint repeat_string (s : string) (n : nat) : string :=
  match n with
  | O => ""
  | S n' => s +:+ repeat_string s n'
  end.

(** The 32 bytes 0, 1, ..., 31 in the place of [randomBytes(32)]. *)
Definition sample_random : list ascii :=
  map (fun n => ascii_of_nat n) (seq 0 32).

(** A concrete deployment: password, nonce and the signature the codec
    computes for them. *)
Definition sample_password : option string := Some "hunter2".
Definition sample_nonce : string :=
  "000102030405060708090a0b0c0d0e0f101112131415161718191a1b1c1d1e1f".
Definition sample_signature : string :=
  "4c69f92aaf6a420bea55a4144c53bcf175463db86392d23bae22d0316fb04772".

Definition sample_ip : string := "203.0.113.7".

(** A login request from [sample_ip] that offers the password "hunter2". *)
Definition sample_login : Request :=
  mkRequest None (Some sample_ip) None
    (Ok (JObj [("password", JStr "hunter2")])).

Definition sample_clock : Clock := mkClock 1000 1000 1000 1000.

(** A failed login from [sample_ip]. *)
Definition sample_failed_login : Request :=
  mkRequest None (Some sample_ip) None
    (Ok (JObj [("password", JStr "letmein")])).

(** A request with no session cookie, as an API route sees it. *)
Definition sample_anonymous : Request :=
  mkRequest None (Some sample_ip) None (Ok (JObj [])).

(** A thumbnail request that carries the token minted for
    [sample_password] from [sample_random]. *)
Definition sample_thumbnail_request : Request :=
  mkRequest (Some (sample_nonce +:+ "." +:+ sample_signature))
    (Some sample_ip) None
    (Ok (JObj [("concept", JStr "a robot reading the news");
               ("text_overlay", JStr "AI NEWS");
               ("channel", JStr "techtony")])).

(** Collaborators that all answer, except the CDN, which answers 503. *)
Definition sample_getChannel (id : string) : option unit :=
  if String.eqb id "techtony" then Some tt else None.

Definition sample_fetch_get (url : string) : Result HttpResponse :=
  Ok (mkHttp true 200 (Ok [])).

Definition sample_fetch_put (url key : string) (payload : list ascii)
  : Result HttpResponse :=
  Ok (mkHttp false 503 (Ok [])).

(** ** Vocabulary of the further properties *)

(** The request's JSON body carries the string [given] as its password. *)
Definition offers (request : Request) (given : string) : Prop :=
  exists body, json request = Ok body /\
               property "password" body = Ok (Some (JStr given)).

(** Login POSTs handled one after the other by one process; each comes with
    its clock readings and its random bytes. *)
Fixpoint logins (APP_PASSWORD NODE_ENV : option string)
    (posts : list (Request * Clock * list ascii))
    (attempts : gmap string Attempt) : list Reply * gmap string Attempt :=
  match posts with
  | [] => ([], attempts)
  | (request, clock, random) :: rest =>
      let '(reply, attempts1) :=
        AuthRoute.POST APP_PASSWORD NODE_ENV request clock random attempts in
      let '(replies, attempts2) := logins APP_PASSWORD NODE_ENV rest attempts1 in
      (reply :: replies, attempts2)
  end.

(** All four clock readings of a request fall in the window opened at [t0]. *)
Definition within (t0 : Z) (clock : Clock) : Prop :=
  (at_limit_check clock - t0 <= AuthRoute.RATE_LIMIT_WINDOW /\
   at_lockout clock - t0 < AuthRoute.RATE_LIMIT_WINDOW /\
   at_record clock - t0 <= AuthRoute.RATE_LIMIT_WINDOW /\
   at_delay clock - t0 <= AuthRoute.RATE_LIMIT_WINDOW)%Z.

(** The request carries a password of admissible length that the
    comparison rejects. *)
Definition wrong_password (password : string) (request : Request) : Prop :=
  exists given, offers request given /\
                (1 <= Str.length given <= 256)%nat /\
                AuthRoute.verifyPassword given password = Ok false.

(** Calls of one limiter for any keys, in order: each is a key and a clock
    reading; the log pairs each key with the flag its call returned. *)
Fixpoint limiter_run (WINDOW MAX : Z) (ops : list (string * Z))
    (m : gmap string Limiter.RateRecord)
  : list (string * bool) * gmap string Limiter.RateRecord :=
  match ops with
  | [] => ([], m)
  | (ip, now) :: rest =>
      let '(allowed, m1) := Limiter.check WINDOW MAX now ip m in
      let '(log, m2) := limiter_run WINDOW MAX rest m1 in
      ((ip, allowed) :: log, m2)
  end.

(** Every record counts at least one and at most [MAX] calls. *)
Definition counts_bounded (MAX : Z) (m : gmap string Limiter.RateRecord) : Prop :=
  forall ip record, m !! ip = Some record ->
                    (1 <= Limiter.count record <= MAX)%Z.

Section ThumbnailVocabulary.
Variable ChannelConfig : Type.
Variable getChannel : string -> option ChannelConfig.
Variable buildDallePrompt :
  string -> ChannelConfig -> option string -> string -> bool -> string.
Variable buildPromptCrafterSystem : string.
Variable crafterMessage :
  string -> string -> option Json -> ChannelConfig -> option Json -> string -> string.
Variable chat_create : string -> string -> Result (option string).
Variable images_generate : string -> Result (option string).
Variable fetch_get : string -> Result HttpResponse.
Variable sharp_resize_cover : list ascii -> Z -> Z -> Result (list ascii).

(** The overlay text the thumbnail route takes from the body. *)
Definition overlay_of (fields : list (string * Json)) : string :=
  match lookup_last "text_overlay" fields with Some (JStr s) => s | _ => "" end.

(** The body [fields] is valid and every step of the thumbnail route up to
    the resize succeeds: the prompt crafter's answer gives [optimizedPrompt],
    the image model returns [imageUrl], and the downloaded image is resized
    to [resized]. *)
Definition generated (request : Request) (fields : list (string * Json))
    (optimizedPrompt imageUrl : string) (resized : list ascii) : Prop :=
  exists concept channelId channel content imageDownload downloadedBytes,
    let baseDallePrompt :=
      buildDallePrompt concept channel
        (match lookup_last "style_guide" fields with
         | Some (JStr s) => Some s
         | _ => None
         end)
        (overlay_of fields) (truthy (lookup_last "headshot_url" fields)) in
    json request = Ok (JObj fields) /\
    nonempty_string (lookup_last "concept" fields) = Some concept /\
    nonempty_string (lookup_last "channel" fields) = Some channelId /\
    getChannel channelId = Some channel /\
    chat_create buildPromptCrafterSystem
      (crafterMessage concept (overlay_of fields) (lookup_last "emotion" fields)
         channel (lookup_last "video_title" fields) baseDallePrompt)
    = Ok content /\
    optimizedPrompt = or_default content baseDallePrompt /\
    images_generate optimizedPrompt = Ok (Some imageUrl) /\
    Str.falsy imageUrl = false /\
    fetch_get imageUrl = Ok imageDownload /\
    ok imageDownload = true /\
    arrayBuffer imageDownload = Ok downloadedBytes /\
    sharp_resize_cover downloadedBytes ThumbnailRoute.YOUTUBE_WIDTH
      ThumbnailRoute.YOUTUBE_HEIGHT = Ok resized.
End ThumbnailVocabulary.

(** [body.name] for a body that is not null. *)
Definition field (name : string) (body : Json) : option Json :=
  match property name body with
  | Ok v => v
  | Throw _ => None
  end.

(** Every failure response the thumbnail route spells out. *)
Definition thumbnail_failures : list Response :=
  [ failure "Not authenticated" 401;
    failure "AI service not configured" 500;
    failure "Too many requests. Wait a minute." 429;
    failure "Concept is required" 400;
    failure "Channel is required" 400;
    failure "Unknown channel" 400;
    failure "Image generation failed" 500;
    failure "Failed to download generated image" 500;
    failure "Image generation was blocked by content policy. Try a different concept." 400;
    failure "AI rate limit exceeded. Wait a moment and try again." 429;
    failure "Thumbnail generation failed. Try again." 500 ].

(** The success response of the thumbnail route. *)
Definition thumbnail_success (url prompt_used text_overlay : string) : Response :=
  mkResponse 200
    (JObj [("success", JBool true); ("url", JStr url);
           ("prompt_used", JStr prompt_used);
           ("text_overlay", JStr text_overlay)]).

(** A thumbnail request with a headshot, and collaborators of which the
    image host answers and every other host answers 404. *)
Definition sample_headshot_request : Request :=
  mkRequest (Some (sample_nonce +:+ "." +:+ sample_signature))
    (Some sample_ip) None
    (Ok (JObj [("concept", JStr "a robot reading the news");
               ("text_overlay", JStr "AI NEWS");
               ("channel", JStr "techtony");
               ("headshot_url", JStr "https://cdn.example/me.png")])).



(** The thumbnail route of a sample deployment, open in the two [fetch]
    collaborators. *)
Definition sample_thumbnail_POST
    (fetch_get : string -> Result HttpResponse)
    (fetch_put : string -> string -> list ascii -> Result HttpResponse) :=
  ThumbnailRoute.POST sample_password (Some "sk-test")
    (Some "zone") (Some "key") (Some " cdn.example ")
    unit sample_getChannel (fun concept _ _ _ _ => concept) "system"
    (fun _ _ _ _ _ base => base)
    (fun _ _ => Ok (Some "a robot, bold colours"))
    (fun _ => Ok (Some "https://images.example/t.png"))
    fetch_get fetch_put
    (fun b _ _ => Ok b) (fun b _ => Ok b) (fun _ => Ok None)
    (fun b _ _ _ => Ok b).

(** An authenticated request whose body is an empty array. *)
Definition sample_array_request : Request :=
  mkRequest (Some (sample_nonce +:+ "." +:+ sample_signature))
    (Some sample_ip) None (Ok (JArr [])).

(** ** The try blocks of the analyze and analyze-style routes, the upload
    route and the two upload components *)

(** [array.join(", ")] *)
Fixpoint join (sep : string) (items : list string) : string :=
  match items with
  | [] => ""
  | [item] => item
  | item :: rest => item +:+ sep +:+ join sep rest
  end.

(** [data[k]] for a parsed value: throws on null, undefined on what is not
    an object. *)
Definition index (data : Json) (k : string) : Result (option Json) :=
  property k data.

Module AnalyzeBody.
Local Open Scope Z_scope.

Definition MAX_TRANSCRIPT_LENGTH : Z := 100000.

(** [buildUserMessage] of src/lib/prompts.ts. *)
Definition buildUserMessage (transcript : string)
    (visualContext videoDuration : option string) : string :=
  let message :=
    "Analyze this video transcript and generate viral-optimized metadata:"
    +:+ String "010" (String "010" transcript) in
  let message :=
    match visualContext with
    | Some text =>
        if Str.falsy text then message
        else message +:+ String "010" (String "010" ("VISUAL CONTEXT: " +:+ text))
    | None => message
    end in
  match videoDuration with
  | Some text =>
      if Str.falsy text then message
      else message +:+ String "010" (String "010" ("VIDEO DURATION: " +:+ text))
  | None => message
  end.

(** [sanitizeError] *)
Definition sanitizeError (error : Exn) : string :=
  match error with
  | APIError status _ =>
      if bool_decide (status = Some 401)
      then "AI service authentication failed. Contact admin."
      else if bool_decide (status = Some 429)
      then "AI service rate limit exceeded. Try again in a minute."
      else if bool_decide (status = Some 500)
      then "AI service temporarily unavailable. Try again."
      else "AI service error. Try again."
  | SyntaxError => "Failed to parse AI response. Try again."
  | OtherError => "Analysis failed. Try again."
  end.

Definition required : list string :=
  ["titles"; "description"; "thumbnail_concepts"; "tags"; "timeline"].

(** [required.filter((k) => !data[k])] *)
Fixpoint missing_of (data : Json) (keys : list string) : Result (list string) :=
  match keys with
  | [] => Ok []
  | k :: rest =>
      v ← index data k;
      others ← missing_of data rest;
      Ok (if truthy v then others else k :: others)
  end.

(** [v] where the code has checked [v && typeof v !== "string"] to be
    false: a string, or a falsy value that [buildUserMessage] skips. *)
Definition optional_text (v : option Json) : option string :=
  match v with
  | Some (JStr s) => Some s
  | _ => None
  end.

Section Env.
Variable ChannelConfig : Type.
Variable getChannel : string -> option ChannelConfig.
Variable buildSystemPrompt : ChannelConfig -> string.
(** [openai.chat.completions.create]: [choices[0]?.message?.content]. *)
Variable chat_create : string -> string -> Result (option string).
(** [JSON.parse]; it throws a SyntaxError on what is not JSON. *)
Variable JSON_parse : string -> Result Json.
(** [n.toLocaleString()] *)
Variable toLocaleString : Z -> string.

(** The [try] block of POST. *)
Definition analyse (request : Request) : Result Response :=
  body ← json request;
  transcript ← property "transcript" body;
  channel ← property "channel" body;
  visual_context ← property "visual_context" body;
  video_duration ← property "video_duration" body;
  match nonempty_string transcript with
  | None => Ok (failure "Transcript is required" 400)
  | Some transcript =>
  if (Str.length (trim transcript) =? 0)%nat
  then Ok (failure "Transcript is required" 400)
  else if Z.of_nat (Str.length transcript) >? MAX_TRANSCRIPT_LENGTH
  then Ok (failure ("Transcript exceeds " +:+ toLocaleString MAX_TRANSCRIPT_LENGTH
                    +:+ " character limit") 400)
  else
  match nonempty_string channel with
  | None => Ok (failure "Channel is required" 400)
  | Some channel =>
  match getChannel channel with
  | None => Ok (failure "Unknown channel" 400)
  | Some channelConfig =>
  if truthy visual_context && negb (match visual_context with
                                    | Some (JStr _) => true
                                    | _ => false
                                    end)
  then Ok (failure "Invalid visual context" 400)
  else if truthy video_duration && negb (match video_duration with
                                         | Some (JStr _) => true
                                         | _ => false
                                         end)
  then Ok (failure "Invalid video duration" 400)
  else
    let systemPrompt := buildSystemPrompt channelConfig in
    let userMessage :=
      buildUserMessage transcript (optional_text visual_context)
        (optional_text video_duration) in
    content ← chat_create systemPrompt userMessage;
    match content with
    | None => Ok (failure "No response from AI" 500)
    | Some content =>
    if Str.falsy content then Ok (failure "No response from AI" 500)
    else
      data ← JSON_parse content;
      missing ← missing_of data required;
      if (0 <? length missing)%nat
      then Ok (failure ("AI response incomplete. Missing: " +:+ join ", " missing)
                 500)
      else Ok (mkResponse 200
                 (JObj [("success", JBool true); ("channel", JStr channel);
                        ("data", data)]))
    end
  end end end.

(** The [try]/[catch] statement of POST. *)
Definition analysis (request : Request) : Response :=
  match analyse request with
  | Ok response => response
  | Throw error => failure (sanitizeError error) 500
  end.
End Env.
End AnalyzeBody.

Module StyleBody.

(** [images.map((img) => ...)]: each element must have [startsWith], that
    is, be a string; both branches of the callback give the same part. *)
Fixpoint urls_of (images : list Json) : Result (list string) :=
  match images with
  | [] => Ok []
  | JStr img :: rest => rest' ← urls_of rest; Ok (img :: rest')
  | _ :: _ => Throw OtherError
  end.

Section Env.
Variable buildStyleAnalysisPrompt : string.
(** The vision call: system prompt, text part, image URLs. *)
Variable chat_create : string -> string -> list string -> Result (option string).

(** The [try] block of POST. *)
Definition analyse (request : Request) : Result Response :=
  body ← json request;
  images ← property "images" body;
  match images with
  | Some (JArr images) =>
      if (length images =? 0)%nat || (5 <? length images)%nat
      then Ok (failure "Provide 1-5 sample images" 400)
      else
        imageContent ← urls_of images;
        styleGuide ← chat_create buildStyleAnalysisPrompt
          "Analyze these YouTube thumbnail samples and describe the unified visual style:"
          imageContent;
        match styleGuide with
        | None => Ok (failure "No response from AI" 500)
        | Some styleGuide =>
            if Str.falsy styleGuide then Ok (failure "No response from AI" 500)
            else Ok (mkResponse 200
                       (JObj [("success", JBool true);
                              ("style_guide", JStr (trim styleGuide))]))
        end
  | _ => Ok (failure "Provide 1-5 sample images" 400)
  end.

(** The [try]/[catch] statement of POST. *)
Definition analysis (request : Request) : Response :=
  match analyse request with
  | Ok response => response
  | Throw _ => failure "Style analysis failed. Try again." 500
  end.
End Env.
End StyleBody.

(** A [File] of a form or of a file input. *)
Record File := mkFile {
  file_name : string;
  file_size : Z;
  file_type : string;
  file_arrayBuffer : Result (list ascii)
}.

(** [formData.get("file")]: nothing, a text field or a file. *)
Inductive FormEntry : Type :=
| no_entry
| text_entry (value : string)
| file_entry (file : File).

(** ** The headshot upload route (src/unnamed/part_004) *)

Module UploadRoute.
Local Open Scope Z_scope.

Definition MAX_FILE_SIZE : Z := 4 * 1024 * 1024.

Section Env.
Variable APP_PASSWORD : option string.
Variable BUNNY_STORAGE_ZONE : option string.
Variable BUNNY_ACCESS_KEY : option string.
Variable BUNNY_CDN_HOST : option string.
(** [fetch(url, { method: "PUT", headers: { AccessKey, "Content-Type" }, body })] *)
Variable fetch_put : string -> string -> string -> list ascii -> Result HttpResponse.

(** The [try] block of POST; [formData] is [request.formData()] followed by
    [get("file")], [stamp] and [rand] are the texts of [Date.now()] and of
    [Math.random().toString(36).substring(2, 8)]. *)
Definition upload (storageZone accessKey cdnHost : string)
    (formData : Result FormEntry) (stamp rand : string) : Result Response :=
  entry ← formData;
  match entry with
  | no_entry => Ok (failure "No file provided" 400)
  | text_entry value =>
      if Str.falsy value then Ok (failure "No file provided" 400)
      else Throw OtherError (* a string has no [type] to call startsWith on *)
  | file_entry file =>
      if file_size file >? MAX_FILE_SIZE
      then Ok (failure "File exceeds 4MB limit" 400)
      else if negb (Str.startsWith (file_type file) "image/")
      then Ok (failure "Must be an image file" 400)
      else
        bytes ← file_arrayBuffer file;
        let ext := if String.eqb (file_type file) "image/png" then "png" else "webp" in
        let filename := "headshot-" +:+ stamp +:+ "-" +:+ rand +:+ "." +:+ ext in
        let uploadUrl :=
          "https://la.storage.bunnycdn.com/" +:+ storageZone +:+ "/" +:+ filename in
        uploadResponse ← fetch_put uploadUrl accessKey (file_type file) bytes;
        if negb (ok uploadResponse) then Ok (failure "CDN upload failed" 500)
        else Ok (mkResponse 200
                   (JObj [("success", JBool true);
                          ("url", JStr ("https://" +:+ cdnHost +:+ "/" +:+ filename))]))
  end.

Definition POST (request : Request) (formData : Result FormEntry)
    (stamp rand : string) : Response :=
  if ApiToken.unauthenticated APP_PASSWORD request
  then failure "Not authenticated" 401
  else
    match trim <$> BUNNY_STORAGE_ZONE, trim <$> BUNNY_ACCESS_KEY,
          trim <$> BUNNY_CDN_HOST with
    | Some storageZone, Some accessKey, Some cdnHost =>
        if Str.falsy storageZone || Str.falsy accessKey || Str.falsy cdnHost
        then failure "CDN storage not configured" 500
        else
          match upload storageZone accessKey cdnHost formData stamp rand with
          | Ok response => response
          | Throw _ => failure "Upload failed" 500
          end
    | _, _, _ => failure "CDN storage not configured" 500
    end.
End Env.
End UploadRoute.

(** ** The headshot upload component (second file of
    src/components/CopyButton.tsx): the checks of [handleFileSelect] *)

Module HeadshotUpload.
Local Open Scope Z_scope.

Definition MAX_FILE_SIZE : Z := 4 * 1024 * 1024.

(** The error [handleFileSelect] sets before any upload, if any. *)
Definition rejects (file : File) : option string :=
  if file_size file >? MAX_FILE_SIZE then Some "File exceeds 4MB limit"
  else if negb (Str.startsWith (file_type file) "image/")
  then Some "Must be an image file (PNG recommended for transparent background)"
  else None.

End HeadshotUpload.

(** ** The style references component (src/unnamed/part_000) *)

Module StyleReferences.
Local Open Scope Z_scope.

Definition MAX_IMAGES : nat := 5.
Definition MAX_FILE_SIZE : Z := 4 * 1024 * 1024.

(** The loop over the selected files: the first error, if any. *)
Fixpoint first_error (files : list File) : option string :=
  match files with
  | [] => None
  | file :: rest =>
      if file_size file >? MAX_FILE_SIZE
      then Some (file_name file +:+ " exceeds 4MB limit")
      else if negb (Str.startsWith (file_type file) "image/")
      then Some (file_name file +:+ " is not an image")
      else first_error rest
  end.

(** The checks of [handleFileSelect] on the current [images]: the error it
    sets, or the files it starts to read. *)
Definition handleFileSelect (files : list File) (images : list string)
  : string + list File :=
  let remaining := Z.of_nat MAX_IMAGES - Z.of_nat (length images) in
  if Z.of_nat (length files) >? remaining
  then inl ("Can only add " +:+ pretty remaining +:+ " more image"
            +:+ (if remaining =? 1 then "" else "s"))
  else match first_error files with
       | Some error => inl error
       | None => inr files
       end.

(** The state update of [reader.onload] with the data URL [result]. *)
Definition onload (result : string) (prev : list string) : list string :=
  if (MAX_IMAGES <=? length prev)%nat then prev else prev ++ [result].

(** [removeImage]: [prev.filter((_, i) => i !== index)] *)
Fixpoint removeImage (index : nat) (prev : list string) : list string :=
  match prev, index with
  | [], _ => []
  | _ :: rest, O => rest
  | image :: rest, S i => image :: removeImage i rest
  end.

(** The body [handleAnalyze] posts, or the error it sets without posting. *)
Definition handleAnalyze (images : list string) : string + Json :=
  if (length images =? 0)%nat then inl "Upload at least one sample thumbnail"
  else inr (JObj [("images", JArr (map JStr images))]).

End StyleReferences.

Section AnalyzeVocabulary.
Variable ChannelConfig : Type.
Variable getChannel : string -> option ChannelConfig.
Variable buildSystemPrompt : ChannelConfig -> string.
Variable chat_create : string -> string -> Result (option string).
Variable JSON_parse : string -> Result Json.


End AnalyzeVocabulary.


(** The messages [sanitizeError] can give. *)
Definition sanitized_messages : list string :=
  [ "AI service authentication failed. Contact admin.";
    "AI service rate limit exceeded. Try again in a minute.";
    "AI service temporarily unavailable. Try again.";
    "AI service error. Try again.";
    "Failed to parse AI response. Try again.";
    "Analysis failed. Try again." ].

(** An upload or a removal in the style references component. *)
Inductive ImageOp : Type :=
| loaded (result : string)
| removed (index : nat).

(** The image list after the given state updates, oldest first. *)
Fixpoint images_after (ops : list ImageOp) (images : list string) : list string :=
  match ops with
  | [] => images
  | loaded result :: rest => images_after rest (StyleReferences.onload result images)
  | removed index :: rest =>
      images_after rest (StyleReferences.removeImage index images)
  end.

(** An analyze request, and two answers of the chat model after parsing:
    one without tags and timeline, one complete. *)
Definition sample_analyze_request : Request :=
  mkRequest (Some (sample_nonce +:+ "." +:+ sample_signature))
    (Some sample_ip) None
    (Ok (JObj [("transcript", JStr "hello and welcome back");
               ("channel", JStr "techtony")])).


Definition sample_data_complete : Json :=
  JObj [("titles", JObj []); ("description", JObj []);
        ("thumbnail_concepts", JArr []); ("tags", JArr []);
        ("timeline", JArr [])].

(** A PNG of 1 KiB and a PDF of 1 KiB. *)
Definition sample_png : File := mkFile "me.png" 1024 "image/png" (Ok []).
Definition sample_pdf : File := mkFile "cv.pdf" 1024 "application/pdf" (Ok []).

Definition sample_put (url key content_type : string) (payload : list ascii)
  : Result HttpResponse :=
  Ok (mkHttp true 201 (Ok [])).

(** Login POSTs handled one after the other by the earlier login route; each
    comes with its clock readings. *)
Fixpoint plain_logins (APP_PASSWORD NODE_ENV : option string)
    (posts : list (Request * Clock))
    (attempts : gmap string Attempt) : list Reply * gmap string Attempt :=
  match posts with
  | [] => ([], attempts)
  | (request, clock) :: rest =>
      let '(reply, attempts1) :=
        PlainAuthRoute.POST APP_PASSWORD NODE_ENV request clock attempts in
      let '(replies, attempts2) := plain_logins APP_PASSWORD NODE_ENV rest attempts1 in
      (reply :: replies, attempts2)
  end.

(** The key of the earlier login route:
    [request.headers.get("x-forwarded-for") || "unknown"]. *)
Definition plain_key (request : Request) : string :=
  or_default (x_forwarded_for request) "unknown".

(** All four clock readings of a request fall in the one-hour window opened
    at [t0]. *)
Definition plain_within (t0 : Z) (clock : Clock) : Prop :=
  (at_limit_check clock - t0 <= PlainAuthRoute.RATE_LIMIT_WINDOW /\
   at_lockout clock - t0 < PlainAuthRoute.RATE_LIMIT_WINDOW /\
   at_record clock - t0 <= PlainAuthRoute.RATE_LIMIT_WINDOW /\
   at_delay clock - t0 <= PlainAuthRoute.RATE_LIMIT_WINDOW)%Z.

(** The body can be read and its password is not the configured string. *)
Definition plain_wrong (password : string) (request : Request) : Prop :=
  exists body given,
    json request = Ok body /\ property "password" body = Ok given /\
    given <> Some (JStr password).

(** * Properties *)

(** ** Known answers of the hash functions *)

(** FIPS 180-4, the one-block message "abc". *)
Example sha256_abc :
  Hex.encode (SHA256.sha256 (utf8 "abc"))
  = "ba7816bf8f01cfea414140de5dae2223b00361a396177a9cb410ff61f20015ad".
Proof. vm_compute. reflexivity. Qed.

(** RFC 4231, test case 2. *)
Example hmac_rfc4231_2 :
  hmacSHA256 "Jefe" "what do ya want for nothing?"
  = "5bdcc146bf60754e6a042426089575c75a003f089d2739839dec58b964ec3843".
Proof. vm_compute. reflexivity. Qed.

(** Decoding accepts capitals and stops at what is not a pair of digits. *)
Example decode_lenient :
  Hex.decode "4C" = Hex.decode "4c" /\
  Hex.decode "4czz" = Hex.decode "4c" /\
  Hex.decode "4c6" = Hex.decode "4c".
Proof. repeat split. Qed.

(** ** Hexadecimal encoding *)

Lemma digit_cases (n : N) :
  In (Hex.digit n)
     ["0"; "1"; "2"; "3"; "4"; "5"; "6"; "7"; "8"; "9"; "a"; "b"; "c"; "d"; "e"; "f"]%char.
Proof.
  destruct n as [|p]; [simpl; tauto|].
  do 4 (try destruct p as [p|p|]); simpl; tauto.
Qed.

Lemma unhex_digit (n : N) : (n < 16)%N -> Hex.unhex (Hex.digit n) = Some n.
Proof.
  intros Hn.
  assert (Hc : n ∈ [0;1;2;3;4;5;6;7;8;9;10;11;12;13;14;15]%N).
  { rewrite !elem_of_cons. lia. }
  rewrite !elem_of_cons in Hc.
  repeat (destruct Hc as [->|Hc]; [reflexivity|]).
  by apply elem_of_nil in Hc.
Qed.

Lemma decode_encode (bs : list ascii) : Hex.decode (Hex.encode bs) = bs.
Proof.
  induction bs as [|b bs IH]; [reflexivity|].
  cbn [Hex.encode Hex.decode].
  pose proof (N_ascii_bounded b) as Hb.
  rewrite !unhex_digit.
  - rewrite IH. f_equal.
    rewrite <- (ascii_N_embedding b) at 3. f_equal.
    rewrite (N.div_mod' (N_of_ascii b) 16) at 3. lia.
  - apply N.mod_lt. lia.
  - apply N.Div0.div_lt_upper_bound. lia.
Qed.

Lemma encode_no_dot (bs : list ascii) : Str.has_char "." (Hex.encode bs) = false.
Proof.
  induction bs as [|b bs IH]; [reflexivity|].
  cbn [Hex.encode Str.has_char]. rewrite IH.
  assert (Hd : forall n, Ascii.eqb (Hex.digit n) "." = false).
  { intros n. pose proof (digit_cases n) as H. simpl in H.
    repeat (destruct H as [<-|H]; [reflexivity|]). destruct H. }
  by rewrite !Hd.
Qed.

Lemma encode_falsy (bs : list ascii) : Str.falsy (Hex.encode bs) = false <-> bs <> [].
Proof. destruct bs; simpl; split; congruence. Qed.

(** ** SHA-256 and HMAC produce 32 bytes *)

Lemma sha256_length (msg : list ascii) : length (SHA256.sha256 msg) = 32%nat.
Proof.
  unfold SHA256.sha256. rewrite length_map.
  by destruct (SHA256.blocks _ _ _).
Qed.

Lemma hmac_length (key msg : list ascii) : length (SHA256.hmac key msg) = 32%nat.
Proof. apply sha256_length. Qed.

Lemma hmacSHA256_falsy (key data : string) : Str.falsy (hmacSHA256 key data) = false.
Proof.
  apply encode_falsy. intros E.
  pose proof (hmac_length (utf8 key) (utf8 data)) as H. by rewrite E in H.
Qed.

Lemma hmacSHA256_no_dot (key data : string) :
  Str.has_char "." (hmacSHA256 key data) = false.
Proof. apply encode_no_dot. Qed.

(** ** Splitting on the separator *)

Lemma split_no_sep (c : ascii) (s : string) :
  Str.has_char c s = false -> Str.split c s = [s].
Proof.
  induction s as [|d s IH]; [reflexivity|].
  cbn [Str.has_char Str.split]. intros H.
  apply orb_false_iff in H as [H1 H2].
  by rewrite H1, (IH H2).
Qed.

Lemma append_empty (s : string) : "" +:+ s = s.
Proof. reflexivity. Qed.

Lemma append_String (c : ascii) (a b : string) :
  String c a +:+ b = String c (a +:+ b).
Proof. reflexivity. Qed.

Lemma split_join (c : ascii) (a b : string) :
  Str.has_char c a = false -> Str.has_char c b = false ->
  Str.split c (a +:+ String c b) = [a; b].
Proof.
  intros Ha Hb. induction a as [|d a IH].
  - rewrite append_empty. cbn [Str.split].
    by rewrite Ascii.eqb_refl, split_no_sep.
  - cbn [Str.has_char] in Ha. apply orb_false_iff in Ha as [H1 H2].
    rewrite append_String. cbn [Str.split]. by rewrite H1, (IH H2).
Qed.

(** ** C1: token round trip *)

Lemma timingSafeEqual_refl (a : list ascii) : timingSafeEqual a a = Some true.
Proof.
  unfold timingSafeEqual. rewrite Nat.eqb_refl. by rewrite bool_decide_eq_true_2.
Qed.

(** C1. For every value of APP_PASSWORD (set or not), a token minted by
    [generateSessionToken] from the 32 bytes drawn by [randomBytes(32)] is
    accepted by [verifySessionToken] under the same password. *)
Theorem C1_verify_mint (APP_PASSWORD : option string) (random : list ascii) :
  length random = 32%nat ->
  AuthToken.verifySessionToken APP_PASSWORD
    (AuthToken.generateSessionToken APP_PASSWORD random) = true.
Proof.
  intros Hlen.
  unfold AuthToken.verifySessionToken, AuthToken.generateSessionToken.
  rewrite (append_String "." ""), append_empty.
  rewrite split_join by (apply encode_no_dot || apply hmacSHA256_no_dot).
  assert (Hn : Str.falsy (Hex.encode random) = false).
  { apply encode_falsy. intros ->. discriminate Hlen. }
  rewrite Hn, hmacSHA256_falsy. cbn [orb].
  by rewrite timingSafeEqual_refl.
Qed.

Lemma C1_verify_mint_witness :
  length sample_random = 32%nat /\
  AuthToken.verifySessionToken (Some "hunter2")
    (AuthToken.generateSessionToken (Some "hunter2") sample_random) = true.
Proof.
  split; [reflexivity|].
  apply (C1_verify_mint (Some "hunter2") sample_random). reflexivity.
Defined.

(** ** C5, C6: what the three token checks reject *)

Lemma split_cons (c : ascii) (s : string) : exists h t, Str.split c s = h :: t.
Proof.
  destruct s as [|d s]; cbn [Str.split]; [eauto|].
  destruct (Ascii.eqb d c); [eauto|]. destruct (Str.split c s); eauto.
Qed.

Lemma split_singleton (c : ascii) (s x : string) :
  Str.split c s = [x] -> x = s /\ Str.has_char c s = false.
Proof.
  revert x. induction s as [|d s IH]; intros x; cbn [Str.split Str.has_char].
  - intros [= <-]. done.
  - destruct (Ascii.eqb d c) eqn:E.
    + destruct (split_cons c s) as (h & t & ->). discriminate.
    + destruct (Str.split c s) as [|h [|h' t]] eqn:Es.
      * destruct (split_cons c s) as (h & t & Hs). congruence.
      * intros [= <-]. destruct (IH h eq_refl) as [-> ->]. done.
      * discriminate.
Qed.

Lemma split_prefix (c : ascii) (a b : string) :
  Str.has_char c a = false ->
  Str.split c (a +:+ String c b) = a :: Str.split c b.
Proof.
  intros Ha. induction a as [|d a IH].
  - rewrite append_empty. cbn [Str.split]. by rewrite Ascii.eqb_refl.
  - cbn [Str.has_char] in Ha. apply orb_false_iff in Ha as [H1 H2].
    rewrite append_String. cbn [Str.split]. by rewrite H1, (IH H2).
Qed.

Lemma split_pair (c : ascii) (s a b : string) :
  Str.split c s = [a; b] ->
  s = a +:+ String c b /\ Str.has_char c a = false /\ Str.has_char c b = false.
Proof.
  revert a. induction s as [|d s IH]; intros a; cbn [Str.split]; [discriminate|].
  destruct (Ascii.eqb d c) eqn:E.
  - intros [= <- Hs]. apply Ascii.eqb_eq in E as ->.
    apply split_singleton in Hs as [-> Hb]. by rewrite append_empty.
  - destruct (Str.split c s) as [|h t] eqn:Es; [discriminate|].
    intros [= <- ->]. destruct (IH h eq_refl) as (-> & Hh & Hb).
    rewrite append_String. cbn [Str.has_char]. by rewrite E, Hh.
Qed.

Section Reject.
Variable APP_PASSWORD : option string.

(** The login route's check rejects a token that does not split into
    exactly two parts. *)
Lemma auth_verify_parts (token : string) :
  length (Str.split "." token) <> 2%nat ->
  AuthToken.verifySessionToken APP_PASSWORD token = false.
Proof.
  unfold AuthToken.verifySessionToken.
  destruct (Str.split "." token) as [|a [|b [|c l]]]; cbn [length]; congruence.
Qed.

(** ... and a token one of whose parts is empty. *)
Lemma auth_verify_empty (token nonce signature : string) :
  Str.split "." token = [nonce; signature] ->
  nonce = "" \/ signature = "" ->
  AuthToken.verifySessionToken APP_PASSWORD token = false.
Proof.
  unfold AuthToken.verifySessionToken. intros -> [-> | ->]; [done|].
  by rewrite orb_true_r.
Qed.

(** ... and a token whose signature decodes to other bytes than the
    recomputed signature. *)
Lemma auth_verify_bytes (token nonce signature : string) :
  Str.split "." token = [nonce; signature] ->
  Hex.decode signature <>
    Hex.decode (hmacSHA256 (AuthToken.getSessionSecret APP_PASSWORD) nonce) ->
  AuthToken.verifySessionToken APP_PASSWORD token = false.
Proof.
  unfold AuthToken.verifySessionToken, timingSafeEqual. intros -> Hne.
  destruct (_ || _); [done|]. destruct (_ =? _)%nat; [|done].
  by rewrite bool_decide_eq_false_2.
Qed.

(** The middleware's check fails closed on all three conditions. *)
Lemma middleware_verify_closed (token : string) :
  (length (Str.split "." token) <> 2%nat \/
   exists nonce signature,
     Str.split "." token = [nonce; signature] /\
     (nonce = "" \/ signature = "" \/
      forall password, APP_PASSWORD = Some password ->
        signature <>
          hmacSHA256 (hmacSHA256 password "yva-session-secret") nonce)) ->
  Middleware.verifySessionToken APP_PASSWORD token = false.
Proof.
  unfold Middleware.verifySessionToken.
  destruct APP_PASSWORD as [password|]; [|done].
  destruct (Str.falsy password); [done|].
  intros [Hlen | (nonce & signature & -> & H)].
  - destruct (Str.split "." token) as [|a [|b [|c l]]]; cbn [length] in *;
      congruence.
  - destruct H as [-> | [-> | H]]; [done | by rewrite orb_true_r |].
    destruct (_ || _); [done|]. apply String.eqb_neq. by apply H.
Qed.

(** A valid token whose signature half is replaced by any other string is
    rejected by the middleware. *)
Lemma middleware_verify_tamper (nonce signature signature' : string) :
  Str.split "." (nonce +:+ "." +:+ signature) = [nonce; signature] ->
  Middleware.verifySessionToken APP_PASSWORD (nonce +:+ "." +:+ signature) = true ->
  signature' <> signature ->
  Middleware.verifySessionToken APP_PASSWORD (nonce +:+ "." +:+ signature') = false.
Proof.
  intros Hs Hv Hne.
  apply split_pair in Hs as (_ & Hn & _).
  revert Hv. unfold Middleware.verifySessionToken.
  destruct APP_PASSWORD as [password|]; [|done].
  destruct (Str.falsy password); [done|].
  rewrite !(append_String "." ""), !append_empty, !split_prefix by done.
  destruct (split_cons "." signature) as (h & t & Hh). rewrite Hh.
  destruct t as [|? ?]; [|done].
  apply split_singleton in Hh as [-> _].
  destruct (_ || _); [done|]. intros Hv%String.eqb_eq.
  destruct (Str.split "." signature') as [|h' [|? ?]] eqn:Hs'; [done| |done].
  apply split_singleton in Hs' as [-> _].
  destruct (_ || _); [done|]. apply String.eqb_neq. congruence.
Qed.
(** A token minted by the login route passes the middleware's check, when a
    password is configured. *)
Lemma middleware_verify_mint (password : string) (random : list ascii) :
  APP_PASSWORD = Some password -> Str.falsy password = false ->
  random <> [] ->
  Middleware.verifySessionToken APP_PASSWORD
    (AuthToken.generateSessionToken APP_PASSWORD random) = true.
Proof.
  intros -> Hp Hr.
  unfold Middleware.verifySessionToken, AuthToken.generateSessionToken,
    AuthToken.getSessionSecret, or_default.
  rewrite Hp, (append_String "." ""), append_empty.
  rewrite split_join by (apply encode_no_dot || apply hmacSHA256_no_dot).
  rewrite (proj2 (encode_falsy random) Hr), hmacSHA256_falsy. cbn [orb].
  apply String.eqb_refl.
Qed.

(** The login route's check accepts any valid token with one more character
    appended to it. *)
Lemma auth_verify_appended (nonce : string) (c : ascii) :
  Str.falsy nonce = false -> Str.has_char "." nonce = false ->
  c <> "."%char ->
  AuthToken.verifySessionToken APP_PASSWORD
    (nonce +:+ "." +:+
     hmacSHA256 (AuthToken.getSessionSecret APP_PASSWORD) nonce +:+ String c "")
  = true.
Proof.
  intros Hn Hd Hc. unfold AuthToken.verifySessionToken.
  set (expected := hmacSHA256 _ nonce).
  assert (Hdec : Hex.decode (expected +:+ String c "") = Hex.decode expected).
  { unfold expected, hmacSHA256.
    induction (SHA256.hmac _ _) as [|b bs IH]; [reflexivity|].
    cbn [Hex.encode]. rewrite !append_String. cbn [Hex.decode]. by rewrite IH. }
  assert (Hnd : Str.has_char "." (expected +:+ String c "") = false).
  { unfold expected, hmacSHA256.
    induction (SHA256.hmac _ _) as [|b bs IH].
    - rewrite append_empty. cbn [Hex.encode Str.has_char].
      apply Ascii.eqb_neq in Hc. by rewrite Hc.
    - pose proof (encode_no_dot [b]) as Hb. cbn in Hb.
      apply orb_false_iff in Hb as [Hb1 Hb2].
      apply orb_false_iff in Hb2 as [Hb2 _].
      cbn [Hex.encode]. rewrite !append_String. cbn [Str.has_char].
      by rewrite Hb1, Hb2, IH. }
  rewrite (append_String "." ""), append_empty, split_join by done.
  rewrite Hn. cbn [orb].
  assert (Hne : Str.falsy (expected +:+ String c "") = false).
  { pose proof (hmacSHA256_falsy (AuthToken.getSessionSecret APP_PASSWORD) nonce)
      as He. fold expected in He. by destruct expected. }
  rewrite Hne, Hdec. by rewrite timingSafeEqual_refl.
Qed.
End Reject.

Lemma sample_signature_ok :
  hmacSHA256 (AuthToken.getSessionSecret sample_password) sample_nonce
  = sample_signature.
Proof. vm_compute. reflexivity. Qed.

Lemma sample_token_minted :
  AuthToken.generateSessionToken sample_password sample_random
  = sample_nonce +:+ "." +:+ sample_signature.
Proof. vm_compute. reflexivity. Qed.

(** C5. The login route's [verifySessionToken] does not fail closed on a
    signature mismatch: the token whose signature half is the recomputed
    signature followed by "zz" splits into two non-empty parts, its stored
    signature differs from the recomputed one, and the check returns true.
    The middleware's check rejects the same token. *)
Theorem C5_auth_verify_accepts_mismatch :
  let stored := sample_signature +:+ "zz" in
  let token := sample_nonce +:+ "." +:+ stored in
  Str.split "." token = [sample_nonce; stored] /\
  stored <> hmacSHA256 (AuthToken.getSessionSecret sample_password) sample_nonce /\
  AuthToken.verifySessionToken sample_password token = true /\
  Middleware.verifySessionToken sample_password token = false.
Proof.
  cbv zeta. rewrite sample_signature_ok.
  split; [vm_compute; reflexivity|].
  split; [apply String.eqb_neq; vm_compute; reflexivity|].
  split; vm_compute; reflexivity.
Qed.

(** C6. Replacing the second character of the signature half of a minted
    token, "c", by "C" gives a different token that the login route's
    [verifySessionToken] still accepts. The middleware's check rejects it. *)
Theorem C6_auth_verify_accepts_mutation :
  let token := AuthToken.generateSessionToken sample_password sample_random in
  let mutated :=
    sample_nonce +:+ "." +:+ Str.set_char 1 "C" sample_signature in
  token = sample_nonce +:+ "." +:+ sample_signature /\
  mutated <> token /\
  AuthToken.verifySessionToken sample_password token = true /\
  AuthToken.verifySessionToken sample_password mutated = true /\
  Middleware.verifySessionToken sample_password mutated = false.
Proof.
  cbv zeta. rewrite sample_token_minted.
  split; [reflexivity|].
  split; [apply String.eqb_neq; vm_compute; reflexivity|].
  repeat split; vm_compute; reflexivity.
Qed.

(** ** C2: the fixed-window limiter *)

Section LimiterFacts.
Local Open Scope Z_scope.
Import Limiter.
Variables WINDOW MAX : Z.

Lemma check_stale (now : Z) (ip : string) (m : gmap string RateRecord) :
  stale WINDOW now m ip ->
  check WINDOW MAX now ip m = (true, <[ip := mkRate 1 now]> m).
Proof.
  unfold check. intros [-> | (r & -> & Hr)]; [done|].
  destruct (Z.gtb_spec (now - windowStart r) WINDOW); [done | lia].
Qed.

Lemma check_live (now : Z) (ip : string) (m : gmap string RateRecord) (r : RateRecord) :
  m !! ip = Some r -> now - windowStart r <= WINDOW ->
  check WINDOW MAX now ip m =
    if count r >=? MAX then (false, m)
    else (true, <[ip := mkRate (count r + 1) (windowStart r)]> m).
Proof.
  unfold check. intros -> Hr.
  destruct (Z.gtb_spec (now - windowStart r) WINDOW); [lia | done].
Qed.

Lemma check_other (now : Z) (ip ip' : string) (m : gmap string RateRecord) :
  ip <> ip' -> (check WINDOW MAX now ip m).2 !! ip' = m !! ip'.
Proof.
  intros Hne. unfold check.
  destruct (m !! ip) as [r|]; repeat case_match; cbn [snd];
    by rewrite ?lookup_insert_ne.
Qed.

(** Calls that all fall in the window opened at [t0], from a record that
    counts [c]: call number [i] is allowed exactly when [c + i < MAX], and
    the window start stays. *)
Lemma calls_live (ts : list Z) (ip : string) :
  forall (m : gmap string RateRecord) (c t0 : Z),
  m !! ip = Some (mkRate c t0) ->
  Forall (fun t => t - t0 <= WINDOW) ts ->
  (calls WINDOW MAX ts ip m).1 =
    map (fun i => bool_decide (c + Z.of_nat i < MAX)) (seq 0 (length ts)) /\
  exists c', (calls WINDOW MAX ts ip m).2 !! ip = Some (mkRate c' t0).
Proof.
  induction ts as [|t ts IH]; intros m c t0 Hm Hts.
  - cbn. eauto.
  - apply Forall_cons in Hts as [Ht Hts].
    cbn [calls length seq map]. rewrite (check_live _ _ _ _ Hm Ht).
    cbn [count windowStart].
    rewrite <- seq_shift, map_map.
    destruct (Z.geb_spec c MAX) as [Hc|Hc].
    + destruct (IH m c t0 Hm Hts) as [Hf Hs].
      destruct (calls WINDOW MAX ts ip m) as [flags m2]. cbn [fst snd] in *.
      split; [|done]. rewrite bool_decide_eq_false_2 by lia. f_equal.
      rewrite Hf. apply map_ext_in. intros i _.
      rewrite !bool_decide_eq_false_2 by lia. done.
    + destruct (IH (<[ip := mkRate (c + 1) t0]> m) (c + 1) t0) as [Hf Hs];
        [by rewrite lookup_insert_eq | done |].
      destruct (calls WINDOW MAX ts ip _) as [flags m2]. cbn [fst snd] in *.
      split; [|done]. rewrite bool_decide_eq_true_2 by lia. f_equal.
      rewrite Hf. apply map_ext_in. intros i _.
      apply bool_decide_ext. lia.
Qed.

(** A burst that starts on a stale key. *)
Lemma calls_burst (t0 : Z) (ts : list Z) (ip : string) (m : gmap string RateRecord) :
  0 < MAX ->
  stale WINDOW t0 m ip ->
  Forall (fun t => t - t0 <= WINDOW) ts ->
  (calls WINDOW MAX (t0 :: ts) ip m).1 =
    map (fun i => bool_decide (Z.of_nat i < MAX)) (seq 0 (S (length ts))) /\
  exists c', (calls WINDOW MAX (t0 :: ts) ip m).2 !! ip = Some (mkRate c' t0).
Proof.
  intros Hmax Hstale Hts.
  cbn [calls length seq map]. rewrite (check_stale _ _ _ Hstale).
  destruct (calls_live ts ip (<[ip := mkRate 1 t0]> m) 1 t0) as [Hf Hs];
    [by rewrite lookup_insert_eq | done |].
  destruct (calls WINDOW MAX ts ip _) as [flags m2]. cbn [fst snd] in *.
  split; [|done]. rewrite bool_decide_eq_true_2 by lia. f_equal.
  rewrite Hf, <- seq_shift, map_map. apply map_ext_in. intros i _.
  apply bool_decide_ext. lia.
Qed.
End LimiterFacts.

(** C2. [checkAnalyzeRateLimit]: on a key with no record or an expired
    window the call stores a fresh record with count 1 and returns true; on a
    live record it returns false and leaves the map alone when the count has
    reached the maximum, and otherwise adds one to the count and returns true.
    Hence, of the calls of a burst that starts on such a key and stays within
    the window, exactly the first ANALYZE_RATE_MAX are allowed, and a call
    after the window has elapsed is allowed again and opens a new window. *)
Theorem C2_checkAnalyzeRateLimit
    (ip : string) (m : gmap string Limiter.RateRecord)
    (t0 : Z) (ts : list Z) (t' : Z) :
  Limiter.stale AnalyzeRoute.ANALYZE_RATE_WINDOW t0 m ip ->
  Forall (fun t => t - t0 <= AnalyzeRoute.ANALYZE_RATE_WINDOW)%Z ts ->
  (t' - t0 > AnalyzeRoute.ANALYZE_RATE_WINDOW)%Z ->
  let burst :=
    Limiter.calls AnalyzeRoute.ANALYZE_RATE_WINDOW AnalyzeRoute.ANALYZE_RATE_MAX
      (t0 :: ts) ip m in
  AnalyzeRoute.checkAnalyzeRateLimit t0 ip m
    = (true, <[ip := Limiter.mkRate 1 t0]> m) /\
  (forall now r (m1 : gmap string Limiter.RateRecord),
     m1 !! ip = Some r ->
     (now - Limiter.windowStart r <= AnalyzeRoute.ANALYZE_RATE_WINDOW)%Z ->
     AnalyzeRoute.checkAnalyzeRateLimit now ip m1 =
       if (Limiter.count r >=? AnalyzeRoute.ANALYZE_RATE_MAX)%Z
       then (false, m1)
       else (true,
             <[ip := Limiter.mkRate (Limiter.count r + 1) (Limiter.windowStart r)]> m1)) /\
  burst.1 = map (fun i => bool_decide (i < 10)%nat) (seq 0 (S (length ts))) /\
  AnalyzeRoute.checkAnalyzeRateLimit t' ip burst.2
    = (true, <[ip := Limiter.mkRate 1 t']> burst.2).
Proof.
  intros Hstale Hts Ht' burst.
  split; [by apply check_stale|].
  split; [intros now r m1; apply check_live|].
  destruct (calls_burst AnalyzeRoute.ANALYZE_RATE_WINDOW AnalyzeRoute.ANALYZE_RATE_MAX
              t0 ts ip m) as [Hf (c' & Hs)]; [done..|].
  split.
  - fold burst in Hf. rewrite Hf. apply map_ext_in. intros i _.
    apply bool_decide_ext. unfold AnalyzeRoute.ANALYZE_RATE_MAX. lia.
  - apply check_stale. right. exists (Limiter.mkRate c' t0). done.
Qed.

Lemma C2_checkAnalyzeRateLimit_witness :
  let ts := [1000; 2000; 3000; 4000; 5000; 6000; 7000; 8000; 9000; 60000]%Z in
  let burst :=
    Limiter.calls AnalyzeRoute.ANALYZE_RATE_WINDOW AnalyzeRoute.ANALYZE_RATE_MAX
      (0%Z :: ts) "203.0.113.7" ∅ in
  burst.1 = [true; true; true; true; true; true; true; true; true; true; false] /\
  AnalyzeRoute.checkAnalyzeRateLimit 60001 "203.0.113.7" burst.2
    = (true, <["203.0.113.7" := Limiter.mkRate 1 60001]> burst.2).
Proof.
  intros ts burst.
  destruct (C2_checkAnalyzeRateLimit "203.0.113.7" ∅ 0 ts 60001)
    as (_ & _ & Hflags & Hafter).
  - left. reflexivity.
  - repeat constructor; vm_compute; discriminate.
  - reflexivity.
  - split; [exact Hflags | exact Hafter].
Defined.

(** ** C4: the delay of the login route *)

(** C4 as stated fails: after one failed attempt the count is 1 and
    [getDelay] is 0, while the formula gives 1000. *)
Lemma C4_getDelay_counterexample :
  ~ (forall now ip attempts,
       AuthRoute.getDelay now ip attempts =
       Z.min (1000 * 2 ^ (AuthRoute.getAttemptCount now ip attempts - 1)) 8000).
Proof.
  intros H.
  specialize (H 0%Z "203.0.113.7" (AuthRoute.recordAttempt 0 "203.0.113.7" ∅)).
  vm_compute in H. discriminate H.
Qed.

(** C4 (amended). With [count] the attempt count of the key in the current
    window, [getDelay] is 0 when [count <= 1] and
    [min (1000 * 2^(count-1)) 8000] when [count >= 2]; it lies between 0 and
    8000 and does not decrease when the count grows. *)
Theorem C4_getDelay
    (now : Z) (ip : string) (attempts : gmap string Attempt)
    (now' : Z) (ip' : string) (attempts' : gmap string Attempt) :
  let count := AuthRoute.getAttemptCount now ip attempts in
  let count' := AuthRoute.getAttemptCount now' ip' attempts' in
  ((count <= 1)%Z -> AuthRoute.getDelay now ip attempts = 0%Z) /\
  ((2 <= count)%Z ->
     AuthRoute.getDelay now ip attempts = Z.min (1000 * 2 ^ (count - 1)) 8000) /\
  (0 <= AuthRoute.getDelay now ip attempts <= 8000)%Z /\
  ((count <= count')%Z ->
     (AuthRoute.getDelay now ip attempts <= AuthRoute.getDelay now' ip' attempts')%Z).
Proof.
  intros count count'. unfold AuthRoute.getDelay. fold count count'.
  assert (Hpow : forall c, (2 <= c)%Z -> (0 < 2 ^ (c - 1))%Z).
  { intros c Hc. apply Z.pow_pos_nonneg; lia. }
  repeat split.
  - intros Hc. destruct (Z.leb_spec count 1); [done | lia].
  - intros Hc. destruct (Z.leb_spec count 1); [lia | done].
  - destruct (Z.leb_spec count 1); [lia|]. pose proof (Hpow count). lia.
  - destruct (Z.leb_spec count 1); lia.
  - intros Hle.
    destruct (Z.leb_spec count 1), (Z.leb_spec count' 1); try lia.
    assert (2 ^ (count - 1) <= 2 ^ (count' - 1))%Z
      by (apply Z.pow_le_mono_r; lia).
    lia.
Qed.

(** The delays of the first attempts of a window. *)
Lemma getDelay_table (ip : string) :
  map (fun c => AuthRoute.getDelay 0 ip {[ ip := mkAttempt c 0 ]}) [1; 2; 3; 4; 5; 6]%Z
  = [0; 2000; 4000; 8000; 8000; 8000]%Z.
Proof.
  unfold AuthRoute.getDelay, AuthRoute.getAttemptCount. cbn [map].
  rewrite !lookup_singleton_eq. reflexivity.
Qed.

(** ** C7: no password configured *)

(** C7. When APP_PASSWORD is unset (undefined or empty), the login POST
    answers 500 "Authentication not configured", performs no cookie
    operation (so no token is minted into a cookie), awaits no delay and
    leaves the attempts map as it was. *)
Theorem C7_login_not_configured
    (APP_PASSWORD NODE_ENV : option string) (request : Request) (clock : Clock)
    (random : list ascii) (attempts : gmap string Attempt) :
  unset APP_PASSWORD = true ->
  AuthRoute.POST APP_PASSWORD NODE_ENV request clock random attempts
  = (mkReply (failure "Authentication not configured" 500) None None, attempts).
Proof.
  unfold AuthRoute.POST, unset.
  destruct APP_PASSWORD as [password|]; [|done]. by intros ->.
Qed.

Lemma C7_login_not_configured_witness :
  unset None = true /\
  AuthRoute.POST None None sample_login sample_clock sample_random ∅
  = (mkReply (failure "Authentication not configured" 500) None None, ∅).
Proof.
  split; [reflexivity|].
  apply (C7_login_not_configured None None sample_login sample_clock
           sample_random ∅).
  reflexivity.
Defined.

(** ** C8: what removes a rate-limit record *)

(** C8 as stated fails: a successful login removes the record of its
    client from the attempts map. *)
Lemma C8_record_removed_counterexample :
  ~ (forall APP_PASSWORD NODE_ENV request clock random
            (attempts : gmap string Attempt) key,
       is_Some (attempts !! key) ->
       is_Some ((AuthRoute.POST APP_PASSWORD NODE_ENV request clock random
                   attempts).2 !! key)).
Proof.
  intros H.
  specialize (H sample_password None sample_login sample_clock sample_random
                {[ sample_ip := mkAttempt 2 0 ]} sample_ip).
  assert (Hgone :
    (AuthRoute.POST sample_password None sample_login sample_clock sample_random
       {[ sample_ip := mkAttempt 2 0 ]}).2 !! sample_ip = None)
    by (vm_compute; reflexivity).
  rewrite Hgone in H. destruct H as [x Hx]; [|discriminate Hx].
  rewrite lookup_singleton_eq. eauto.
Qed.

Lemma recordAttempt_other (now : Z) (ip key : string) (attempts : gmap string Attempt) :
  key <> ip -> AuthRoute.recordAttempt now ip attempts !! key = attempts !! key.
Proof.
  intros Hne. unfold AuthRoute.recordAttempt.
  repeat case_match; by rewrite lookup_insert_ne.
Qed.

Lemma plain_recordAttempt_other (now : Z) (ip key : string)
    (attempts : gmap string Attempt) :
  key <> ip ->
  (PlainAuthRoute.recordAttempt now ip attempts).2 !! key = attempts !! key.
Proof.
  intros Hne. unfold PlainAuthRoute.recordAttempt.
  repeat case_match; cbn [snd]; by rewrite lookup_insert_ne.
Qed.

(** [recordAttempt] leaves the records of other clients and increments or
    restarts the record of its own. *)
Lemma recordAttempt_kept (now : Z) (ip key : string)
    (attempts : gmap string Attempt) (record : Attempt) :
  attempts !! key = Some record ->
  attempt_kept AuthRoute.RATE_LIMIT_WINDOW now record
    (AuthRoute.recordAttempt now ip attempts !! key).
Proof.
  intros Hk. destruct (decide (key = ip)) as [->|Hne].
  - unfold AuthRoute.recordAttempt. rewrite Hk.
    destruct (Z.gtb_spec (now - firstAttempt record) AuthRoute.RATE_LIMIT_WINDOW);
      rewrite lookup_insert_eq.
    + right. right. split; [lia | done].
    + right. left. split; [lia | done].
  - left. by rewrite recordAttempt_other.
Qed.

Lemma plain_recordAttempt_kept (now : Z) (ip key : string)
    (attempts : gmap string Attempt) (record : Attempt) :
  attempts !! key = Some record ->
  attempt_kept PlainAuthRoute.RATE_LIMIT_WINDOW now record
    ((PlainAuthRoute.recordAttempt now ip attempts).2 !! key).
Proof.
  intros Hk. destruct (decide (key = ip)) as [->|Hne].
  - unfold PlainAuthRoute.recordAttempt. rewrite Hk.
    destruct (Z.gtb_spec (now - firstAttempt record)
                PlainAuthRoute.RATE_LIMIT_WINDOW);
      cbn [snd]; rewrite lookup_insert_eq.
    + right. right. split; [lia | done].
    + right. left. split; [lia | done].
  - left. by rewrite plain_recordAttempt_other.
Qed.

(** A limiter call leaves the records of other clients and leaves,
    increments or restarts the record of its own. *)
Lemma check_kept (WINDOW MAX now : Z) (ip key : string)
    (m : gmap string Limiter.RateRecord) (rate : Limiter.RateRecord) :
  m !! key = Some rate ->
  rate_kept WINDOW now rate ((Limiter.check WINDOW MAX now ip m).2 !! key).
Proof.
  intros Hk. destruct (decide (key = ip)) as [->|Hne].
  - unfold Limiter.check. rewrite Hk.
    destruct (Z.gtb_spec (now - Limiter.windowStart rate) WINDOW).
    + cbn [snd]. rewrite lookup_insert_eq. right. right. split; [lia | done].
    + destruct (Limiter.count rate >=? MAX)%Z; cbn [snd].
      * by left.
      * rewrite lookup_insert_eq. right. left. split; [lia | done].
  - left. by rewrite check_other by done.
Qed.

(** The [try] block of the login POST either succeeds and deletes the
    client's record, or answers 401 and leaves or updates the map. *)
Lemma attempt_outcome (APP_PASSWORD NODE_ENV : option string) (password : string)
    (request : Request) (clock : Clock) (random : list ascii) (ip : string)
    (attempts attempts' : gmap string Attempt) (reply : Reply) :
  AuthRoute.attempt APP_PASSWORD NODE_ENV password request clock random ip attempts
    = Ok (reply, attempts') ->
  (status (response reply) = 200%Z /\ attempts' = delete ip attempts) \/
  (status (response reply) = 401%Z /\
   (attempts' = attempts \/
    attempts' = AuthRoute.recordAttempt (at_record clock) ip attempts)).
Proof.
  unfold AuthRoute.attempt, mbind, Result_bind.
  destruct (json request) as [body|]; [|done].
  destruct (property "password" body) as [given|]; [|done].
  destruct given as [[| | |given| |]|];
    try (intros [= <- <-]; right; split; [done | by left]).
  destruct (_ || _); [intros [= <- <-]; right; split; [done | by left]|].
  destruct (AuthRoute.verifyPassword given password) as [[|]|]; [| |done].
  - intros [= <- <-]. by left.
  - intros [= <- <-]. right. split; [done | by right].
Qed.

Lemma plain_attempt_outcome (NODE_ENV : option string) (password : string)
    (request : Request) (clock : Clock) (ip : string)
    (attempts attempts' : gmap string Attempt) (reply : Reply) :
  PlainAuthRoute.attempt NODE_ENV password request clock ip attempts
    = Ok (reply, attempts') ->
  (status (response reply) = 200%Z /\ attempts' = delete ip attempts) \/
  (status (response reply) = 401%Z /\
   attempts' = (PlainAuthRoute.recordAttempt (at_record clock) ip attempts).2).
Proof.
  unfold PlainAuthRoute.attempt, mbind, Result_bind.
  destruct (json request) as [body|]; [|done].
  destruct (property "password" body) as [given|]; [|done].
  case_match; intros [= <- <-]; [by left | by right].
Qed.

(** What a POST of the login route does to a record of the attempts map. *)
Lemma login_POST_kept (APP_PASSWORD NODE_ENV : option string)
    (request : Request) (clock : Clock) (random : list ascii)
    (attempts : gmap string Attempt) (key : string) (record : Attempt) :
  let result := AuthRoute.POST APP_PASSWORD NODE_ENV request clock random attempts in
  attempts !! key = Some record ->
  (key <> getClientIP request -> result.2 !! key = Some record) /\
  (status (response result.1) <> 200%Z ->
   attempt_kept AuthRoute.RATE_LIMIT_WINDOW (at_record clock) record
     (result.2 !! key)) /\
  (status (response result.1) = 200%Z ->
   result.2 = delete (getClientIP request) attempts).
Proof.
  cbv zeta. unfold AuthRoute.POST. intros Hk.
  assert (Hstay : forall text code, code <> 200%Z ->
    let result := (mkReply (failure text code) None None, attempts) in
    (key <> getClientIP request -> result.2 !! key = Some record) /\
    (status (response result.1) <> 200%Z ->
     attempt_kept AuthRoute.RATE_LIMIT_WINDOW (at_record clock) record
       (result.2 !! key)) /\
    (status (response result.1) = 200%Z ->
     result.2 = delete (getClientIP request) attempts)).
  { intros text code Hcode. cbn [fst snd response status failure].
    repeat split; [done | by left | done]. }
  destruct APP_PASSWORD as [password|]; [|by apply Hstay].
  destruct (Str.falsy password); [by apply Hstay|].
  destruct (AuthRoute.locked _ _ _).
  { cbn [fst snd response status failure]. repeat split; [done | by left | done]. }
  destruct (AuthRoute.attempt _ _ _ _ _ _ _ _) as [[reply attempts']|e] eqn:E;
    [|by apply Hstay].
  apply attempt_outcome in E as [[Hs ->] | [Hs [-> | ->]]]; cbn [fst snd].
  - repeat split; [by intros; rewrite lookup_delete_ne | done..].
  - repeat split; [done | by left | by rewrite Hs].
  - repeat split; [by intros; rewrite recordAttempt_other
                  | by intros; apply recordAttempt_kept | by rewrite Hs].
Qed.

(** ... and a POST of the earlier login route. *)
Lemma plain_POST_kept (APP_PASSWORD NODE_ENV : option string)
    (request : Request) (clock : Clock)
    (attempts : gmap string Attempt) (key : string) (record : Attempt) :
  let result := PlainAuthRoute.POST APP_PASSWORD NODE_ENV request clock attempts in
  attempts !! key = Some record ->
  (key <> plain_key request -> result.2 !! key = Some record) /\
  (status (response result.1) <> 200%Z ->
   attempt_kept PlainAuthRoute.RATE_LIMIT_WINDOW (at_record clock) record
     (result.2 !! key)) /\
  (status (response result.1) = 200%Z ->
   result.2 = delete (plain_key request) attempts).
Proof.
  cbv zeta. unfold PlainAuthRoute.POST. fold (plain_key request). intros Hk.
  assert (Hstay : forall text code slept, code <> 200%Z ->
    let result := (mkReply (failure text code) None slept, attempts) in
    (key <> plain_key request -> result.2 !! key = Some record) /\
    (status (response result.1) <> 200%Z ->
     attempt_kept PlainAuthRoute.RATE_LIMIT_WINDOW (at_record clock) record
       (result.2 !! key)) /\
    (status (response result.1) = 200%Z ->
     result.2 = delete (plain_key request) attempts)).
  { intros text code slept Hcode. cbn [fst snd response status failure].
    repeat split; [done | by left | done]. }
  destruct APP_PASSWORD as [password|]; [|by apply Hstay].
  destruct (Str.falsy password); [by apply Hstay|].
  destruct (PlainAuthRoute.locked _ _ _); [by apply Hstay|].
  destruct (PlainAuthRoute.attempt _ _ _ _ _ _) as [[reply attempts']|e] eqn:E;
    [|by apply Hstay].
  apply plain_attempt_outcome in E as [[Hs ->] | [Hs ->]]; cbn [fst snd].
  - repeat split; [by intros; rewrite lookup_delete_ne | done..].
  - repeat split; [by intros; rewrite plain_recordAttempt_other
                  | by intros; apply plain_recordAttempt_kept | by rewrite Hs].
Qed.

(** C8 (amended). A record of the rate-limit maps of the analyze,
    analyze-style and thumbnail routes is never removed by a request: a
    request leaves it, increments it, or restarts it once its window is over.
    A record of the attempts map of a login route is removed by a successful
    login POST (status 200) from its own client, which deletes exactly that
    client's record, and by no other POST: every other login POST leaves the
    records of other clients as they are and leaves, increments or restarts
    the record of its own client. *)
Theorem C8_records_persist
    (APP_PASSWORD NODE_ENV OPENAI_API_KEY : option string)
    (request : Request) (clock : Clock) (random : list ascii) (now : Z)
    (analysis : Request -> Response)
    (attempts : gmap string Attempt) (limiter : gmap string Limiter.RateRecord)
    (key : string) (record : Attempt) (rate : Limiter.RateRecord) :
  attempts !! key = Some record ->
  limiter !! key = Some rate ->
  let login := AuthRoute.POST APP_PASSWORD NODE_ENV request clock random attempts in
  let plain := PlainAuthRoute.POST APP_PASSWORD NODE_ENV request clock attempts in
  ((key <> getClientIP request -> login.2 !! key = Some record) /\
   (status (response login.1) <> 200%Z ->
    attempt_kept AuthRoute.RATE_LIMIT_WINDOW (at_record clock) record
      (login.2 !! key)) /\
   (status (response login.1) = 200%Z ->
    login.2 = delete (getClientIP request) attempts)) /\
  ((key <> or_default (x_forwarded_for request) "unknown" ->
    plain.2 !! key = Some record) /\
   (status (response plain.1) <> 200%Z ->
    attempt_kept PlainAuthRoute.RATE_LIMIT_WINDOW (at_record clock) record
      (plain.2 !! key)) /\
   (status (response plain.1) = 200%Z ->
    plain.2 = delete (or_default (x_forwarded_for request) "unknown") attempts)) /\
  rate_kept AnalyzeRoute.ANALYZE_RATE_WINDOW now rate
    ((AnalyzeRoute.POST APP_PASSWORD OPENAI_API_KEY analysis request now
        limiter).2 !! key) /\
  rate_kept StyleRoute.RATE_WINDOW now rate
    ((StyleRoute.POST APP_PASSWORD OPENAI_API_KEY analysis request now
        limiter).2 !! key) /\
  (forall zone access host ChannelConfig getChannel buildDallePrompt crafterSystem
          crafterMessage chat_create images_generate fetch_get fetch_put
          sharp_resize_cover sharp_resize_inside sharp_height sharp_composite
          stamp rand,
     rate_kept ThumbnailRoute.RATE_WINDOW now rate
       ((@ThumbnailRoute.POST APP_PASSWORD OPENAI_API_KEY zone access host
           ChannelConfig getChannel buildDallePrompt crafterSystem
           crafterMessage chat_create images_generate fetch_get fetch_put
           sharp_resize_cover sharp_resize_inside sharp_height
           sharp_composite request now stamp rand limiter).2 !! key)).
Proof.
  intros Ha Hl login plain.
  split; [by apply login_POST_kept|].
  split; [by apply plain_POST_kept|].
  split; [|split].
  - unfold AnalyzeRoute.POST.
    destruct (ApiToken.unauthenticated _ _); [by left|].
    destruct (unset _); [by left|].
    destruct (AnalyzeRoute.checkAnalyzeRateLimit _ _ _) as [allowed m'] eqn:E.
    replace m' with
      (AnalyzeRoute.checkAnalyzeRateLimit now (getClientIP request) limiter).2
      by (by rewrite E).
    destruct (negb allowed); by apply check_kept.
  - unfold StyleRoute.POST.
    destruct (ApiToken.unauthenticated _ _); [by left|].
    destruct (unset _); [by left|].
    destruct (StyleRoute.checkRateLimit _ _ _) as [allowed m'] eqn:E.
    replace m' with
      (StyleRoute.checkRateLimit now (getClientIP request) limiter).2
      by (by rewrite E).
    destruct (negb allowed); by apply check_kept.
  - intros. unfold ThumbnailRoute.POST.
    destruct (ApiToken.unauthenticated _ _); [by left|].
    destruct (unset _); [by left|].
    destruct (ThumbnailRoute.checkRateLimit _ _ _) as [allowed m'] eqn:E.
    replace m' with
      (ThumbnailRoute.checkRateLimit now (getClientIP request) limiter).2
      by (by rewrite E).
    repeat case_match; cbn [snd]; by apply check_kept.
Qed.

Lemma C8_records_persist_witness :
  let attempts : gmap string Attempt := {[ sample_ip := mkAttempt 2 0 ]} in
  let limiter : gmap string Limiter.RateRecord :=
    {[ sample_ip := Limiter.mkRate 10 0 ]} in
  attempts !! sample_ip = Some (mkAttempt 2 0) /\
  limiter !! sample_ip = Some (Limiter.mkRate 10 0) /\
  attempt_kept AuthRoute.RATE_LIMIT_WINDOW (at_record sample_clock)
    (mkAttempt 2 0)
    ((AuthRoute.POST sample_password None sample_failed_login sample_clock
        sample_random attempts).2 !! sample_ip) /\
  rate_kept AnalyzeRoute.ANALYZE_RATE_WINDOW 1000 (Limiter.mkRate 10 0)
    ((AnalyzeRoute.POST sample_password (Some "sk-test")
        (fun _ => mkResponse 200 JNull) sample_failed_login 1000
        limiter).2 !! sample_ip).
Proof.
  intros attempts limiter.
  assert (Ha : attempts !! sample_ip = Some (mkAttempt 2 0))
    by (subst attempts; by rewrite lookup_singleton_eq).
  assert (Hl : limiter !! sample_ip = Some (Limiter.mkRate 10 0))
    by (subst limiter; by rewrite lookup_singleton_eq).
  destruct (C8_records_persist sample_password None (Some "sk-test")
              sample_failed_login sample_clock sample_random 1000
              (fun _ => mkResponse 200 JNull) attempts limiter sample_ip
              (mkAttempt 2 0) (Limiter.mkRate 10 0) Ha Hl)
    as ((_ & Hlogin & _) & _ & Hanalyze & _).
  split; [exact Ha|]. split; [exact Hl|]. split; [|exact Hanalyze].
  apply Hlogin. vm_compute. discriminate.
Defined.

(** ** C3: the auth gate *)

Lemma startsWith_cons (a b : ascii) (s p : string) :
  Str.startsWith (String a s) (String b p) = true <->
  a = b /\ Str.startsWith s p = true.
Proof.
  unfold Str.startsWith. cbn [String.prefix].
  destruct (ascii_dec b a) as [->|Hne]; [tauto|].
  split; [done | intros [-> _]; done].
Qed.

Lemma startsWith_empty (s : string) : Str.startsWith s "" = true.
Proof. by destruct s. Qed.

Lemma startsWith_slash (s : string) :
  Str.startsWith s "/" = true <-> exists rest, s = String "/" rest.
Proof.
  destruct s as [|c s].
  - split; [done | intros [? [=]]].
  - rewrite startsWith_cons. split.
    + intros [-> _]. eauto.
    + intros [rest [= -> ->]]. split; [done | apply startsWith_empty].
Qed.

Lemma startsWith_slash2 (s : string) :
  Str.startsWith s "//" = true <-> exists rest, s = String "/" (String "/" rest).
Proof.
  destruct s as [|c s].
  - split; [done | intros [? [=]]].
  - rewrite startsWith_cons, startsWith_slash. split.
    + intros [-> [rest ->]]. eauto.
    + intros [rest [= -> ->]]. eauto.
Qed.

Lemma from_cases (searchParams : list (string * string)) :
  (LoginPage.same_origin_relative (LoginPage.rawFrom searchParams) ->
   LoginPage.from searchParams = LoginPage.rawFrom searchParams) /\
  (~ LoginPage.same_origin_relative (LoginPage.rawFrom searchParams) ->
   LoginPage.from searchParams = "/").
Proof.
  unfold LoginPage.from, LoginPage.same_origin_relative.
  generalize (LoginPage.rawFrom searchParams). intros raw.
  destruct (Str.startsWith raw "/") eqn:E1; cbn [andb].
  - apply startsWith_slash in E1 as [rest ->].
    destruct (Str.startsWith (String "/" rest) "//") eqn:E2; cbn [negb].
    + apply startsWith_slash2 in E2 as [rest' [= ->]].
      split; [|done]. intros (r & [= <-] & Hr). by destruct (Hr rest').
    + split; [done|]. intros Hn. destruct Hn. exists rest. split; [done|].
      intros rest' ->.
      assert (Str.startsWith (String "/" (String "/" rest')) "//" = true)
        by (apply startsWith_slash2; eauto).
      congruence.
  - split; [|done]. intros (rest & -> & _).
    assert (Str.startsWith (String "/" rest) "/" = true)
      by (apply startsWith_slash; eauto).
    congruence.
Qed.

Lemma from_safe (searchParams : list (string * string)) :
  LoginPage.same_origin_relative (LoginPage.from searchParams).
Proof.
  assert (Hroot : LoginPage.same_origin_relative "/") by (by exists "").
  unfold LoginPage.from.
  destruct (_ && _) eqn:E; [|done].
  apply andb_true_iff in E as [E1 E2%negb_true_iff].
  apply startsWith_slash in E1 as [rest Hr]. rewrite Hr in *.
  exists rest. split; [done|]. intros rest' ->.
  assert (Str.startsWith (String "/" (String "/" rest')) "//" = true)
    by (apply startsWith_slash2; eauto).
  congruence.
Qed.

(** The middleware half of the contract. *)
Lemma middleware_redirects
    (APP_PASSWORD : option string) (request_origin path : string)
    (cookie : option string) :
  ~ Middleware.public_path path ->
  (cookie = None \/
   exists value, cookie = Some value /\
                 Middleware.verifySessionToken APP_PASSWORD value = false) ->
  Middleware.middleware APP_PASSWORD request_origin path cookie
    = Middleware.redirect
        (Middleware.mkURL request_origin "/login" [("from", path)]).
Proof.
  intros Hpub Hcookie. unfold Middleware.middleware.
  destruct (existsb _ _) eqn:E1.
  { destruct Hpub. left. apply existsb_exists in E1 as (route & Hin & Hr). eauto. }
  destruct (_ || _) eqn:E2.
  { destruct Hpub. right. unfold Middleware.public_path.
    apply orb_true_iff in E2 as [E2 | E2]; [|tauto].
    apply orb_true_iff in E2 as [E2 | E2]; tauto. }
  destruct Hcookie as [-> | (value & -> & Hv)]; [done|].
  rewrite Hv. by rewrite orb_true_r.
Qed.

Lemma tab_or_newline_chars (c : ascii) :
  ReturnTarget.tab_or_newline c
  = Ascii.eqb c "009" || Ascii.eqb c "010" || Ascii.eqb c "013".
Proof. by destruct c as [[] [] [] [] [] [] [] []]. Qed.

(** Nothing is taken out of a value without tabs and newlines. *)
Lemma remove_tab_newline_none (s : string) :
  Str.has_char "009" s = false -> Str.has_char "010" s = false ->
  Str.has_char "013" s = false ->
  ReturnTarget.remove_tab_newline s = s.
Proof.
  induction s as [|c s IH]; [done|].
  cbn [Str.has_char ReturnTarget.remove_tab_newline].
  intros [H1 H1']%orb_false_iff [H2 H2']%orb_false_iff [H3 H3']%orb_false_iff.
  rewrite tab_or_newline_chars, H1, H2, H3. cbn [orb]. by rewrite IH.
Qed.

Lemma rawFrom_single (value : string) :
  LoginPage.rawFrom [("from", value)] = if Str.falsy value then "/" else value.
Proof. reflexivity. Qed.

(** What the page keeps: the value of [from] when the test of the page
    accepts it. *)
Lemma from_kept (value : string) :
  LoginPage.from [("from", value)] <> "/" ->
  LoginPage.from [("from", value)] = value /\
  exists rest, value = String "/" rest /\ Str.startsWith rest "/" = false.
Proof.
  unfold LoginPage.from. rewrite rawFrom_single.
  destruct value as [|a rest]; [done|]. cbn [Str.falsy].
  destruct (Str.startsWith (String a rest) "/") eqn:E1; [|done].
  destruct (Str.startsWith (String a rest) "//") eqn:E2; [done|].
  intros _. split; [done|].
  apply startsWith_slash in E1 as [rest' [= -> ->]].
  exists rest'. split; [done|].
  destruct (Str.startsWith rest' "/") eqn:E3; [|done].
  apply startsWith_slash in E3 as [r ->].
  assert (Str.startsWith (String "/" (String "/" r)) "//" = true)
    by (apply startsWith_slash2; eauto).
  congruence.
Qed.

(** C3 (a defect of the code). The middleware half of the contract holds:
    for a path that is not public, a request whose session cookie is absent
    or fails [verifySessionToken] is redirected to /login on the request's
    origin with the path as the [from] parameter. The login page half does
    not hold. The page keeps every value of [from] that a browser resolves
    as a path on the origin of the page and that starts with a slash, and it
    maps //evil.com to "/"; but its test reads only the text of the first two
    characters, so it also keeps /\evil.com and /<TAB>/evil.com, which are no
    same-origin relative paths (a browser reads the backslash as a slash and
    drops the tab, and goes to the host evil.com), and navigates to them
    after a successful login. Values without backslash, tab and newline that
    the page keeps are same-origin relative paths. *)
Theorem C3_return_target_not_validated :
  (forall (APP_PASSWORD : option string) (request_origin path : string)
          (cookie : option string),
     ~ Middleware.public_path path ->
     (cookie = None \/
      exists value, cookie = Some value /\
                    Middleware.verifySessionToken APP_PASSWORD value = false) ->
     Middleware.middleware APP_PASSWORD request_origin path cookie
     = Middleware.redirect
         (Middleware.mkURL request_origin "/login" [("from", path)])) /\
  LoginPage.handleSubmit [("from", "//evil.com")] true = Some "/" /\
  (forall value,
     Str.startsWith value "/" = true ->
     ReturnTarget.same_origin_relative_path value = true ->
     LoginPage.handleSubmit [("from", value)] true = Some value) /\
  (forall value,
     LoginPage.from [("from", value)] <> "/" ->
     Str.has_char "\" value = false ->
     Str.has_char "009" value = false ->
     Str.has_char "010" value = false ->
     Str.has_char "013" value = false ->
     ReturnTarget.same_origin_relative_path value = true) /\
  (ReturnTarget.same_origin_relative_path "/\evil.com" = false /\
   LoginPage.handleSubmit [("from", "/\evil.com")] true = Some "/\evil.com") /\
  (ReturnTarget.same_origin_relative_path (String "/" (String "009" "/evil.com"))
   = false /\
   LoginPage.handleSubmit [("from", String "/" (String "009" "/evil.com"))] true
   = Some (String "/" (String "009" "/evil.com"))).
Proof.
  split; [intros; by apply middleware_redirects|].
  split; [reflexivity|].
  split; [|split; [|split; split; reflexivity]].
  - intros value Hslash Hpath. cbn [LoginPage.handleSubmit]. f_equal.
    apply startsWith_slash in Hslash as [rest ->].
    destruct (string_dec (LoginPage.from [("from", String "/" rest)]) "/")
      as [Hroot|Hkept]; [|by apply from_kept].
    rewrite Hroot. revert Hroot Hpath.
    unfold LoginPage.from. rewrite rawFrom_single. cbn [Str.falsy].
    destruct rest as [|b rest]; [done|].
    destruct (Str.startsWith (String "/" (String b rest)) "//") eqn:E.
    + apply startsWith_slash2 in E as [r [= -> ->]]. intros _.
      unfold ReturnTarget.same_origin_relative_path, ReturnTarget.parser_input.
      cbn [ReturnTarget.strip_start].
      change (ReturnTarget.c0_or_space "/") with false. cbv iota.
      cbn [ReturnTarget.remove_tab_newline].
      change (ReturnTarget.tab_or_newline "/") with false. cbv iota.
      done.
    + assert (Str.startsWith (String "/" (String b rest)) "/" = true) as ->
        by (apply startsWith_slash; eauto).
      done.
  - intros value Hkept Hb Ht Hn Hr.
    apply from_kept in Hkept as (_ & rest & -> & Hrest).
    cbn [Str.has_char] in Hb, Ht, Hn, Hr.
    apply orb_false_iff in Hb as [_ Hb]. apply orb_false_iff in Ht as [_ Ht].
    apply orb_false_iff in Hn as [_ Hn]. apply orb_false_iff in Hr as [_ Hr].
    unfold ReturnTarget.same_origin_relative_path, ReturnTarget.parser_input.
    cbn [ReturnTarget.strip_start].
    change (ReturnTarget.c0_or_space "/") with false. cbv iota.
    cbn [ReturnTarget.remove_tab_newline].
    change (ReturnTarget.tab_or_newline "/") with false. cbv iota.
    rewrite remove_tab_newline_none by done.
    destruct rest as [|b rest]; [done|].
    cbn [Str.has_char] in Hb. apply orb_false_iff in Hb as [Hb _].
    unfold ReturnTarget.slash. rewrite Hb, orb_false_r.
    destruct (Ascii.eqb_spec b "/") as [->|]; [|done].
    exfalso. revert Hrest.
    assert (Str.startsWith (String "/" rest) "/" = true) as ->
      by (apply startsWith_slash; eauto).
    done.
Qed.

(** ** C10: an unauthenticated request does not reach the limiter *)

Lemma unauthenticated_intro (APP_PASSWORD : option string) (request : Request) :
  (session request = None \/
   exists value, session request = Some value /\
                 ApiToken.verifySessionToken APP_PASSWORD value = false) ->
  ApiToken.unauthenticated APP_PASSWORD request = true.
Proof.
  unfold ApiToken.unauthenticated. intros [-> | (value & -> & ->)]; [done|].
  apply orb_true_r.
Qed.

(** C10. A POST to the analyze, the analyze-style or the thumbnail route
    whose session cookie is missing or fails [verifySessionToken] is answered
    401 "Not authenticated", and the route's rate-limit map is the same map
    after the request as before. *)
Theorem C10_unauthenticated_leaves_limiter
    (APP_PASSWORD OPENAI_API_KEY : option string)
    (analysis : Request -> Response) (request : Request) (now : Z)
    (limiter : gmap string Limiter.RateRecord) :
  (session request = None \/
   exists value, session request = Some value /\
                 ApiToken.verifySessionToken APP_PASSWORD value = false) ->
  AnalyzeRoute.POST APP_PASSWORD OPENAI_API_KEY analysis request now limiter
    = (failure "Not authenticated" 401, limiter) /\
  StyleRoute.POST APP_PASSWORD OPENAI_API_KEY analysis request now limiter
    = (failure "Not authenticated" 401, limiter) /\
  (forall zone access host ChannelConfig getChannel buildDallePrompt crafterSystem
          crafterMessage chat_create images_generate fetch_get fetch_put
          sharp_resize_cover sharp_resize_inside sharp_height sharp_composite
          stamp rand,
     @ThumbnailRoute.POST APP_PASSWORD OPENAI_API_KEY zone access host
        ChannelConfig getChannel buildDallePrompt crafterSystem
        crafterMessage chat_create images_generate fetch_get fetch_put
        sharp_resize_cover sharp_resize_inside sharp_height
        sharp_composite request now stamp rand limiter
     = (failure "Not authenticated" 401, limiter)).
Proof.
  intros H%unauthenticated_intro.
  unfold AnalyzeRoute.POST, StyleRoute.POST, ThumbnailRoute.POST.
  rewrite H. done.
Qed.

Lemma C10_unauthenticated_leaves_limiter_witness :
  let limiter : gmap string Limiter.RateRecord :=
    {[ sample_ip := Limiter.mkRate 3 0 ]} in
  session sample_anonymous = None /\
  AnalyzeRoute.POST sample_password (Some "sk-test")
    (fun _ => mkResponse 200 JNull) sample_anonymous 1000 limiter
    = (failure "Not authenticated" 401, limiter).
Proof.
  intros limiter. split; [reflexivity|].
  apply (C10_unauthenticated_leaves_limiter sample_password (Some "sk-test")
           (fun _ => mkResponse 200 JNull) sample_anonymous 1000 limiter).
  left. reflexivity.
Defined.

(** ** C9: the thumbnail route when the CDN upload fails *)

Section ThumbnailFacts.
Variables APP_PASSWORD OPENAI_API_KEY : option string.
Variables BUNNY_STORAGE_ZONE BUNNY_ACCESS_KEY BUNNY_CDN_HOST : option string.
Variable ChannelConfig : Type.
Variable getChannel : string -> option ChannelConfig.
Variable buildDallePrompt :
  string -> ChannelConfig -> option string -> string -> bool -> string.
Variable buildPromptCrafterSystem : string.
Variable crafterMessage :
  string -> string -> option Json -> ChannelConfig -> option Json -> string -> string.
Variable chat_create : string -> string -> Result (option string).
Variable images_generate : string -> Result (option string).
Variable fetch_get : string -> Result HttpResponse.
Variable fetch_put : string -> string -> list ascii -> Result HttpResponse.
Variable sharp_resize_cover : list ascii -> Z -> Z -> Result (list ascii).
Variable sharp_resize_inside : list ascii -> Z -> Result (list ascii).
Variable sharp_height : list ascii -> Result (option Z).
Variable sharp_composite : list ascii -> list ascii -> Z -> Z -> Result (list ascii).

Let POST :=
  ThumbnailRoute.POST APP_PASSWORD OPENAI_API_KEY BUNNY_STORAGE_ZONE
    BUNNY_ACCESS_KEY BUNNY_CDN_HOST ChannelConfig getChannel buildDallePrompt
    buildPromptCrafterSystem crafterMessage chat_create images_generate
    fetch_get fetch_put sharp_resize_cover sharp_resize_inside sharp_height
    sharp_composite.
Let uploadToBunnyCDN :=
  ThumbnailRoute.uploadToBunnyCDN BUNNY_STORAGE_ZONE BUNNY_ACCESS_KEY
    BUNNY_CDN_HOST fetch_put.
Let compositeHeadshot :=
  ThumbnailRoute.compositeHeadshot fetch_get sharp_resize_inside sharp_height
    sharp_composite.

End ThumbnailFacts.


(** * Further properties of the modelled code *)

(** ** Tokens across the three checks *)

Lemma api_verify_mint (APP_PASSWORD : option string) (random : list ascii) :
  random <> [] ->
  ApiToken.verifySessionToken APP_PASSWORD
    (AuthToken.generateSessionToken APP_PASSWORD random) = true.
Proof.
  intros Hr.
  unfold ApiToken.verifySessionToken, AuthToken.generateSessionToken,
    AuthToken.getSessionSecret.
  rewrite (append_String "." ""), append_empty.
  rewrite split_join by (apply encode_no_dot || apply hmacSHA256_no_dot).
  rewrite (proj2 (encode_falsy random) Hr), hmacSHA256_falsy. cbn [orb].
  apply String.eqb_refl.
Qed.

(** X1. A token minted by the login route is accepted by the check of the
    API routes under the same APP_PASSWORD, whatever its value, and by the
    middleware whenever a password is configured. *)
Theorem X1_minted_token_accepted
    (APP_PASSWORD : option string) (random : list ascii) :
  random <> [] ->
  let token := AuthToken.generateSessionToken APP_PASSWORD random in
  ApiToken.verifySessionToken APP_PASSWORD token = true /\
  (unset APP_PASSWORD = false ->
   Middleware.verifySessionToken APP_PASSWORD token = true).
Proof.
  intros Hr token. split; [by apply api_verify_mint|].
  unfold unset. destruct APP_PASSWORD as [password|] eqn:E; [|done].
  intros Hp. by apply (middleware_verify_mint (Some password) password).
Qed.

Lemma X1_minted_token_accepted_witness :
  sample_random <> [] /\
  ApiToken.verifySessionToken None
    (AuthToken.generateSessionToken None sample_random) = true.
Proof.
  assert (H : sample_random <> []) by discriminate.
  split; [exact H|]. apply (X1_minted_token_accepted None sample_random H).
Defined.

Lemma auth_accepts_api_accepted (APP_PASSWORD : option string) (token : string) :
  ApiToken.verifySessionToken APP_PASSWORD token = true ->
  AuthToken.verifySessionToken APP_PASSWORD token = true.
Proof.
  unfold ApiToken.verifySessionToken, AuthToken.verifySessionToken,
    AuthToken.getSessionSecret.
  destruct (Str.split "." token) as [|nonce [|signature [|? ?]]]; try done.
  destruct (_ || _); [done|]. intros ->%String.eqb_eq.
  by rewrite timingSafeEqual_refl.
Qed.

(** X2. With a password configured the middleware and the API routes decide
    every token alike; with none, the middleware rejects every token; and a
    token the API routes accept is accepted by the login route's check. *)
Theorem X2_checks_compared (APP_PASSWORD : option string) (token : string) :
  (unset APP_PASSWORD = false ->
   Middleware.verifySessionToken APP_PASSWORD token
   = ApiToken.verifySessionToken APP_PASSWORD token) /\
  (unset APP_PASSWORD = true ->
   Middleware.verifySessionToken APP_PASSWORD token = false) /\
  (ApiToken.verifySessionToken APP_PASSWORD token = true ->
   AuthToken.verifySessionToken APP_PASSWORD token = true).
Proof.
  split; [|split; [|apply auth_accepts_api_accepted]];
    unfold Middleware.verifySessionToken, ApiToken.verifySessionToken,
      unset, or_default;
    (destruct APP_PASSWORD as [password|]; [|done]); by intros ->.
Qed.

(** ** The password comparison of the login route *)

(** No string has more code units than bytes. *)
Lemma units_le (need : nat) (pair : bool) (s : string) :
  (Str.units need pair s <= String.length s)%nat.
Proof.
  revert need pair. induction s as [|b s IH]; intros need pair; [done|].
  cbn [Str.units String.length].
  destruct (Str.continuation b).
  - destruct need as [|need'].
    + specialize (IH 0%nat false). lia.
    + specialize (IH need' false). destruct pair; lia.
  - pose proof (IH 0%nat false). pose proof (IH 1%nat false).
    pose proof (IH 2%nat false). pose proof (IH 3%nat true).
    repeat case_match; lia.
Qed.

Lemma length_le (s : string) : (Str.length s <= String.length s)%nat.
Proof. apply units_le. Qed.

(** Only the empty string has no code unit. *)
Lemma length_zero (s : string) : (Str.length s =? 0)%nat = Str.falsy s.
Proof.
  destruct s as [|b s]; [done|].
  unfold Str.length. cbn [Str.units Str.falsy].
  destruct (Str.continuation b); [done|]. by repeat case_match.
Qed.

(** NUL characters at the end count one unit each, whatever comes before. *)
Lemma units_nuls (need : nat) (pair : bool) (s : string) (k : nat) :
  Str.units need pair (s +:+ string_of_list_ascii (repeat zero k))
  = (Str.units need pair s + k)%nat.
Proof.
  revert need pair. induction s as [|b s IH]; intros need pair.
  - rewrite append_empty. cbn [Str.units]. clear.
    revert need pair. induction k as [|k IH]; intros need pair; [done|].
    cbn [repeat string_of_list_ascii Str.units]. cbn. by rewrite IH.
  - rewrite append_String. cbn [Str.units].
    destruct (Str.continuation b).
    + destruct need; rewrite IH; lia.
    + repeat case_match; rewrite IH; lia.
Qed.

Lemma length_snoc_nul (s : string) :
  Str.length (s +:+ String zero "") = S (Str.length s).
Proof.
  unfold Str.length.
  change (String zero "") with (string_of_list_ascii (repeat zero 1)).
  rewrite units_nuls. lia.
Qed.

(** Known values: characters of two, three and four bytes. *)
Example length_known :
  Str.length ("a" +:+ e_acute) = 2%nat /\
  Str.length ideographic_space = 1%nat /\
  Str.length grinning_face = 2%nat /\
  Str.length (repeat_string e_acute 200) = 200%nat /\
  String.length (repeat_string e_acute 200) = 400%nat.
Proof. repeat split; vm_compute; reflexivity. Qed.

Example trim_known :
  trim (no_break_space +:+ " bold, blue" +:+ ideographic_space +:+ String "010" "")
  = "bold, blue" /\
  trim (no_break_space +:+ ideographic_space) = "" /\
  trim (e_acute +:+ " " +:+ e_acute) = e_acute +:+ " " +:+ e_acute.
Proof. repeat split; vm_compute; reflexivity. Qed.

Lemma utf8_length (s : string) : length (utf8 s) = String.length s.
Proof.
  unfold utf8. induction s as [|c s IH]; [done|].
  cbn [list_ascii_of_string length String.length]. by rewrite IH.
Qed.

Lemma utf8_inj (s t : string) : utf8 s = utf8 t -> s = t.
Proof.
  intros H. rewrite <- (string_of_list_ascii_of_string s),
    <- (string_of_list_ascii_of_string t). unfold utf8 in H. by rewrite H.
Qed.

(** A string followed by [n] NUL characters. *)
Lemma padded_eq (s t : string) (n m : nat) :
  Str.has_char zero s = false -> Str.has_char zero t = false ->
  s +:+ string_of_list_ascii (repeat zero n)
  = t +:+ string_of_list_ascii (repeat zero m) ->
  s = t.
Proof.
  revert t. induction s as [|c s IH]; intros [|d t] Hs Ht.
  - done.
  - rewrite append_empty, append_String. destruct n; [done|].
    cbn [repeat string_of_list_ascii]. intros [= <- _].
    cbn [Str.has_char] in Ht. by rewrite Ascii.eqb_refl in Ht.
  - rewrite append_empty, append_String. destruct m; [done|].
    cbn [repeat string_of_list_ascii]. intros [= -> _].
    cbn [Str.has_char] in Hs. by rewrite Ascii.eqb_refl in Hs.
  - rewrite !append_String. intros [= -> H].
    cbn [Str.has_char] in Hs, Ht.
    apply orb_false_iff in Hs as [_ Hs]. apply orb_false_iff in Ht as [_ Ht].
    f_equal. by apply IH.
Qed.

Lemma padEnd_self_nul (s : string) :
  (Str.length s < 256)%nat ->
  Str.padEnd (s +:+ String zero "") 256 zero = Str.padEnd s 256 zero.
Proof.
  unfold Str.padEnd. intros Hlen.
  pose proof (length_snoc_nul s) as Hl.
  rewrite Hl.
  replace (256 - Str.length s)%nat with (S (256 - S (Str.length s)))
    by lia.
  generalize (256 - S (Str.length s))%nat. intros k. clear Hl Hlen.
  induction s as [|c s IH]; [done|].
  rewrite !append_String. by f_equal.
Qed.

Lemma verifyPassword_padded (input expected : string) :
  AuthRoute.verifyPassword input expected
  = Ok (bool_decide (Str.padEnd input 256 zero = Str.padEnd expected 256 zero)).
Proof.
  unfold AuthRoute.verifyPassword, timingSafeEqual.
  destruct (_ =? _)%nat eqn:E.
  - f_equal. apply bool_decide_ext. split; [apply utf8_inj | by intros ->].
  - f_equal. symmetry. apply bool_decide_eq_false_2. intros H.
    rewrite H, Nat.eqb_refl in E. done.
Qed.

(** The padding counts code units, not bytes: a password of 255 characters
    that holds a character of two bytes is padded with one NUL, and the same
    password followed by a NUL is accepted for it. *)
Example verifyPassword_two_bytes :
  let password := e_acute +:+ repeat_string "a" 254 in
  Str.length password = 255%nat /\
  String.length password = 256%nat /\
  AuthRoute.verifyPassword (password +:+ String zero "") password = Ok true.
Proof. repeat split; vm_compute; reflexivity. Qed.

(** X3. [verifyPassword] never throws and accepts exactly when the two
    strings, each padded with NUL characters to 256 UTF-16 code units as
    [padEnd] does, are equal. For strings without NUL characters that is
    equality of the strings, that is, of the bytes [Buffer.from] compares;
    an input that is the expected password, of less than 256 code units,
    followed by one NUL character is accepted as well. *)
Theorem X3_verifyPassword (input expected : string) :
  AuthRoute.verifyPassword input expected
  = Ok (bool_decide (Str.padEnd input 256 zero = Str.padEnd expected 256 zero)) /\
  (Str.has_char zero input = false -> Str.has_char zero expected = false ->
   (AuthRoute.verifyPassword input expected = Ok true <-> input = expected)) /\
  ((Str.length expected < 256)%nat ->
   AuthRoute.verifyPassword (expected +:+ String zero "") expected = Ok true).
Proof.
  pose proof (verifyPassword_padded input expected) as Hmain.
  split; [exact Hmain|]. split.
  - intros Hi He. rewrite Hmain. split.
    + intros [= H]. apply bool_decide_eq_true_1 in H.
      by apply (padded_eq _ _ _ _ Hi He H).
    + intros ->. by rewrite bool_decide_eq_true_2.
  - intros Hlen. clear Hmain.
    unfold AuthRoute.verifyPassword. rewrite (padEnd_self_nul _ Hlen).
    by rewrite Nat.eqb_refl, timingSafeEqual_refl.
Qed.

(** ** The login POST *)

Lemma auth_verify_mint (APP_PASSWORD : option string) (random : list ascii) :
  random <> [] ->
  AuthToken.verifySessionToken APP_PASSWORD
    (AuthToken.generateSessionToken APP_PASSWORD random) = true.
Proof.
  intros Hr. apply auth_accepts_api_accepted. by apply api_verify_mint.
Qed.

Lemma middleware_valid_cookie (APP_PASSWORD : option string)
    (request_origin path token : string) :
  Middleware.verifySessionToken APP_PASSWORD token = true ->
  Middleware.middleware APP_PASSWORD request_origin path (Some token)
  = Middleware.next.
Proof.
  intros Hv. unfold Middleware.middleware.
  destruct (existsb _ _); [done|]. destruct (_ || _); [done|].
  rewrite Hv. cbn [negb]. rewrite orb_false_r.
  destruct token; [|done].
  revert Hv. unfold Middleware.verifySessionToken.
  destruct APP_PASSWORD as [password|]; [|done]. by destruct (Str.falsy password).
Qed.

Lemma minted_token_truthy (APP_PASSWORD : option string) (random : list ascii) :
  Str.falsy (AuthToken.generateSessionToken APP_PASSWORD random) = false.
Proof.
  unfold AuthToken.generateSessionToken. by destruct (Hex.encode random).
Qed.

Lemma length_falsy (s : string) :
  Str.falsy s = false -> (Str.length s =? 0)%nat = false.
Proof. intros H. by rewrite length_zero. Qed.

Lemma attempt_offered (APP_PASSWORD NODE_ENV : option string) (password : string)
    (request : Request) (clock : Clock) (random : list ascii) (ip : string)
    (attempts : gmap string Attempt) (given : string) :
  offers request given ->
  (Str.length given =? 0)%nat || (256 <? Str.length given)%nat = false ->
  AuthRoute.attempt APP_PASSWORD NODE_ENV password request clock random ip attempts
  = (matched ← AuthRoute.verifyPassword given password;
     if matched : bool then
       Ok (mkReply (mkResponse 200 (JObj [("success", JBool true)]))
             (Some (AuthRoute.session_cookie NODE_ENV
                      (AuthToken.generateSessionToken APP_PASSWORD random)))
             None,
           delete ip attempts)
     else
       let attempts' := AuthRoute.recordAttempt (at_record clock) ip attempts in
       let delay := AuthRoute.getDelay (at_delay clock) ip attempts' in
       Ok (mkReply (failure "Invalid credentials" 401) None
             (if (delay >? 0)%Z then Some delay else None),
           attempts')).
Proof.
  intros (body & Hb & Hp) Hlen. unfold AuthRoute.attempt.
  rewrite Hb. cbn [mbind Result_bind]. rewrite Hp. cbn [mbind Result_bind].
  by rewrite Hlen.
Qed.

(** X4. When the client is not locked out and the body carries exactly the
    configured password (at most 256 characters), the login POST answers 200,
    deletes the client's attempt record and sets the http-only, same-site
    strict, 7-day session cookie; the cookie's token makes GET report
    authenticated and passes the middleware on every path. *)
Theorem X4_login_success
    (password : string) (NODE_ENV : option string) (request : Request)
    (clock : Clock) (random : list ascii) (attempts : gmap string Attempt) :
  Str.falsy password = false ->
  (Str.length password <= 256)%nat ->
  offers request password ->
  AuthRoute.locked clock (getClientIP request) attempts = false ->
  random <> [] ->
  let token := AuthToken.generateSessionToken (Some password) random in
  AuthRoute.POST (Some password) NODE_ENV request clock random attempts
  = (mkReply (mkResponse 200 (JObj [("success", JBool true)]))
       (Some (cookie_set "yva_session" token true
                (bool_decide (NODE_ENV = Some "production")) "strict"
                604800 "/"))
       None,
     delete (getClientIP request) attempts) /\
  (forall ip forwarded body,
     AuthRoute.GET (Some password) (mkRequest (Some token) ip forwarded body)
     = mkResponse 200 (JObj [("authenticated", JBool true)])) /\
  (forall request_origin path,
     Middleware.middleware (Some password) request_origin path (Some token)
     = Middleware.next).
Proof.
  intros Hp Hlen Hoff Hlock Hr token. split; [|split].
  - unfold AuthRoute.POST. rewrite Hp, Hlock.
    rewrite (attempt_offered _ _ _ _ _ _ _ _ password Hoff).
    + rewrite verifyPassword_padded, bool_decide_eq_true_2 by done. done.
    + rewrite (length_falsy _ Hp). cbn [orb]. apply Nat.ltb_ge. lia.
  - intros. unfold AuthRoute.GET. cbn [session].
    subst token. by rewrite minted_token_truthy, auth_verify_mint.
  - intros. apply middleware_valid_cookie.
    by apply (middleware_verify_mint (Some password) password).
Qed.

Lemma X4_login_success_witness :
  (AuthRoute.POST sample_password None sample_login sample_clock sample_random
     ∅).1.(response).(status) = 200%Z.
Proof.
  assert (Hoff : offers sample_login "hunter2")
    by (eexists; split; reflexivity).
  assert (Hr : sample_random <> []) by discriminate.
  assert (Hlen : (Str.length "hunter2" <= 256)%nat) by (vm_compute; lia).
  assert (Hlock : AuthRoute.locked sample_clock (getClientIP sample_login) ∅
                  = false) by reflexivity.
  destruct (X4_login_success "hunter2" None sample_login sample_clock
              sample_random ∅ eq_refl Hlen Hoff Hlock Hr)
    as [H _].
  unfold sample_password. rewrite H. reflexivity.
Defined.

Lemma POST_locked
    (password : string) (NODE_ENV : option string) (request : Request)
    (clock : Clock) (random : list ascii) (attempts : gmap string Attempt)
    (record : Attempt) :
  Str.falsy password = false ->
  attempts !! getClientIP request = Some record ->
  (AuthRoute.RATE_LIMIT_MAX <= count record)%Z ->
  (at_limit_check clock - firstAttempt record <= AuthRoute.RATE_LIMIT_WINDOW)%Z ->
  (at_lockout clock - firstAttempt record < AuthRoute.RATE_LIMIT_WINDOW)%Z ->
  AuthRoute.POST (Some password) NODE_ENV request clock random attempts
  = (mkReply (failure "Too many attempts. Try again later." 429) None
       (Some 4000%Z),
     attempts).
Proof.
  intros Hp Hrec Hc Ht1 Ht2. unfold AuthRoute.POST. rewrite Hp.
  assert (Hl : AuthRoute.locked clock (getClientIP request) attempts = true).
  { unfold AuthRoute.locked, AuthRoute.getAttemptCount. rewrite Hrec.
    destruct (Z.gtb_spec (at_limit_check clock - firstAttempt record)
                AuthRoute.RATE_LIMIT_WINDOW); [lia|].
    apply andb_true_iff. split; [apply Z.geb_le|apply Z.ltb_lt]; lia. }
  by rewrite Hl.
Qed.

(** X5. A client whose record counts five or more attempts in the running
    window is answered 429 after a 4000 ms delay, whatever the body carries,
    the configured password included; no cookie is set and the map stays. *)
Theorem X5_lockout
    (password : string) (NODE_ENV : option string) (request : Request)
    (clock : Clock) (random : list ascii) (attempts : gmap string Attempt)
    (record : Attempt) :
  Str.falsy password = false ->
  attempts !! getClientIP request = Some record ->
  (AuthRoute.RATE_LIMIT_MAX <= count record)%Z ->
  (at_limit_check clock - firstAttempt record <= AuthRoute.RATE_LIMIT_WINDOW)%Z ->
  (at_lockout clock - firstAttempt record < AuthRoute.RATE_LIMIT_WINDOW)%Z ->
  AuthRoute.POST (Some password) NODE_ENV request clock random attempts
  = (mkReply (failure "Too many attempts. Try again later." 429) None
       (Some 4000%Z),
     attempts).
Proof. apply POST_locked. Qed.

Lemma X5_lockout_witness :
  AuthRoute.POST sample_password None sample_login sample_clock sample_random
    {[ sample_ip := mkAttempt 5 0 ]}
  = (mkReply (failure "Too many attempts. Try again later." 429) None
       (Some 4000%Z),
     {[ sample_ip := mkAttempt 5 0 ]}).
Proof.
  apply (X5_lockout "hunter2" None sample_login sample_clock sample_random
           {[ sample_ip := mkAttempt 5 0 ]} (mkAttempt 5 0));
    [reflexivity | apply lookup_singleton_eq | | | ]; vm_compute; congruence.
Defined.

Lemma count_after_record (now : Z) (ip : string) (attempts : gmap string Attempt) :
  AuthRoute.getAttemptCount now ip (AuthRoute.recordAttempt now ip attempts)
  = (AuthRoute.getAttemptCount now ip attempts + 1)%Z.
Proof.
  unfold AuthRoute.getAttemptCount, AuthRoute.recordAttempt.
  destruct (attempts !! ip) as [record|] eqn:E.
  - destruct (Z.gtb_spec (now - firstAttempt record) AuthRoute.RATE_LIMIT_WINDOW)
      as [Hw|Hw]; rewrite lookup_insert_eq; cbn [firstAttempt count].
    + rewrite Z.sub_diag. reflexivity.
    + destruct (Z.gtb_spec (now - firstAttempt record)
                  AuthRoute.RATE_LIMIT_WINDOW); [lia | done].
  - rewrite lookup_insert_eq. cbn [firstAttempt count].
    rewrite Z.sub_diag. reflexivity.
Qed.

Lemma POST_wrong_password (password : string) (NODE_ENV : option string)
    (request : Request) (clock : Clock) (random : list ascii)
    (attempts : gmap string Attempt) (given : string) :
  Str.falsy password = false ->
  offers request given ->
  (1 <= Str.length given <= 256)%nat ->
  AuthRoute.verifyPassword given password = Ok false ->
  AuthRoute.locked clock (getClientIP request) attempts = false ->
  AuthRoute.POST (Some password) NODE_ENV request clock random attempts
  = let attempts' :=
      AuthRoute.recordAttempt (at_record clock) (getClientIP request) attempts in
    let delay := AuthRoute.getDelay (at_delay clock) (getClientIP request) attempts' in
    (mkReply (failure "Invalid credentials" 401) None
       (if (delay >? 0)%Z then Some delay else None),
     attempts').
Proof.
  intros Hp Hoff Hlen Hv Hlock. unfold AuthRoute.POST. rewrite Hp, Hlock.
  rewrite (attempt_offered _ _ _ _ _ _ _ _ given Hoff).
  - by rewrite Hv.
  - apply orb_false_iff. split; [apply Nat.eqb_neq | apply Nat.ltb_ge]; lia.
Qed.

(** X6. A POST with a well-formed but wrong password from a client that is
    not locked out is answered 401 without a cookie; the client's attempt
    count, read at the time of recording, goes up by one (a missing or expired
    record restarts at 1), the awaited delay is the one [getDelay] gives for
    the new map, and the records of all other clients stay as they were. *)
Theorem X6_failed_login
    (password : string) (NODE_ENV : option string) (request : Request)
    (clock : Clock) (random : list ascii) (attempts : gmap string Attempt)
    (given : string) :
  Str.falsy password = false ->
  offers request given ->
  (1 <= Str.length given <= 256)%nat ->
  AuthRoute.verifyPassword given password = Ok false ->
  AuthRoute.locked clock (getClientIP request) attempts = false ->
  let ip := getClientIP request in
  let result := AuthRoute.POST (Some password) NODE_ENV request clock random attempts in
  status (response result.1) = 401%Z /\
  cookie result.1 = None /\
  AuthRoute.getAttemptCount (at_record clock) ip result.2
  = (AuthRoute.getAttemptCount (at_record clock) ip attempts + 1)%Z /\
  slept result.1
  = (let delay := AuthRoute.getDelay (at_delay clock) ip result.2 in
     if (delay >? 0)%Z then Some delay else None) /\
  (forall key, key <> ip -> result.2 !! key = attempts !! key).
Proof.
  intros Hp Hoff Hlen Hv Hlock ip result. subst result.
  rewrite (POST_wrong_password _ _ _ _ _ _ given Hp Hoff Hlen Hv Hlock).
  cbv zeta. cbn [fst snd response status cookie slept]. fold ip.
  repeat split; [apply count_after_record|].
  intros key Hk. by apply recordAttempt_other.
Qed.

Lemma wrong_sample : AuthRoute.verifyPassword "letmein" "hunter2" = Ok false.
Proof. vm_compute. reflexivity. Qed.

Lemma X6_failed_login_witness :
  AuthRoute.getAttemptCount 1000 sample_ip
    (AuthRoute.POST sample_password None sample_failed_login sample_clock
       sample_random {[ sample_ip := mkAttempt 2 0 ]}).2 = 3%Z.
Proof.
  assert (Hoff : offers sample_failed_login "letmein")
    by (eexists; split; reflexivity).
  assert (Hlen : (1 <= Str.length "letmein" <= 256)%nat) by (vm_compute; lia).
  assert (Hlock : AuthRoute.locked sample_clock (getClientIP sample_failed_login)
                    {[ sample_ip := mkAttempt 2 0 ]} = false) by reflexivity.
  destruct (X6_failed_login "hunter2" None sample_failed_login sample_clock
              sample_random {[ sample_ip := mkAttempt 2 0 ]} "letmein"
              eq_refl Hoff Hlen wrong_sample Hlock)
    as (_ & _ & H & _).
  unfold sample_password. etransitivity; [exact H|]. reflexivity.
Defined.

(** X7. A POST from a client that is not locked out whose body cannot be
    read (or is null) is answered 400, and one whose password is missing, not
    a string, empty or longer than 256 UTF-16 code units, which is what
    [password.length] counts, is answered 401; in both cases no attempt is
    recorded, no delay is awaited and no cookie is set. *)
Theorem X7_rejected_unrecorded
    (password : string) (NODE_ENV : option string) (request : Request)
    (clock : Clock) (random : list ascii) (attempts : gmap string Attempt) :
  Str.falsy password = false ->
  AuthRoute.locked clock (getClientIP request) attempts = false ->
  ((exists e, json request = Throw e) \/ json request = Ok JNull ->
   AuthRoute.POST (Some password) NODE_ENV request clock random attempts
   = (mkReply (failure "Invalid request" 400) None None, attempts)) /\
  (forall body given,
     json request = Ok body ->
     property "password" body = Ok given ->
     (forall s, given = Some (JStr s) ->
                s = "" \/ (256 < Str.length s)%nat) ->
     AuthRoute.POST (Some password) NODE_ENV request clock random attempts
     = (mkReply (failure "Invalid credentials" 401) None None, attempts)).
Proof.
  intros Hp Hlock. unfold AuthRoute.POST, AuthRoute.attempt. rewrite Hp, Hlock.
  split.
  - intros [[e ->] | ->]; done.
  - intros body given -> Hg Hbad. cbn [mbind Result_bind]. rewrite Hg.
    cbn [mbind Result_bind].
    destruct given as [[| | |s| |]|]; try done.
    destruct (Hbad s eq_refl) as [-> | Hlong]; [done|].
    apply Nat.ltb_lt in Hlong. rewrite Hlong. by rewrite orb_true_r.
Qed.

Lemma X7_rejected_unrecorded_witness :
  AuthRoute.POST sample_password None
    (mkRequest None (Some sample_ip) None (Ok (JObj [("password", JNum 7)])))
    sample_clock sample_random ∅
  = (mkReply (failure "Invalid credentials" 401) None None, ∅).
Proof.
  assert (Hl : AuthRoute.locked sample_clock
            (getClientIP (mkRequest None (Some sample_ip) None
                 (Ok (JObj [("password", JNum 7)])))) ∅ = false)
    by (vm_compute; reflexivity).
  pose proof (X7_rejected_unrecorded "hunter2" None
              (mkRequest None (Some sample_ip) None
                 (Ok (JObj [("password", JNum 7)])))
              sample_clock sample_random ∅ eq_refl Hl) as [_ H].
  refine (H (JObj [("password", JNum 7)]) (Some (JNum 7)) eq_refl eq_refl _).
  intros s [=].
Defined.

(** The limit of 256 is one of code units: a password of 200 characters of
    two bytes each is compared, so it logs in when it is the configured one
    and is recorded as a failed attempt when it is not. *)
Example long_password_compared :
  let password := repeat_string e_acute 200 in
  let request :=
    mkRequest None (Some sample_ip) None (Ok (JObj [("password", JStr password)])) in
  status (response (AuthRoute.POST (Some password) None request sample_clock
                      sample_random ∅).1) = 200%Z /\
  (AuthRoute.POST sample_password None request sample_clock sample_random ∅).2
    !! sample_ip = Some (mkAttempt 1 1000).
Proof. split; vm_compute; reflexivity. Qed.


Lemma first_failure (password : string) (NODE_ENV : option string)
    (request : Request) (clock : Clock) (random : list ascii)
    (attempts : gmap string Attempt) :
  Str.falsy password = false ->
  wrong_password password request ->
  attempts !! getClientIP request = None ->
  AuthRoute.POST (Some password) NODE_ENV request clock random attempts
  = (mkReply (failure "Invalid credentials" 401) None None,
     <[getClientIP request := mkAttempt 1 (at_record clock)]> attempts).
Proof.
  intros Hp (given & Hoff & Hlen & Hv) Hnone.
  rewrite (POST_wrong_password _ _ _ _ _ _ given Hp Hoff Hlen Hv).
  - cbv zeta. unfold AuthRoute.recordAttempt, AuthRoute.getDelay,
      AuthRoute.getAttemptCount. rewrite Hnone, lookup_insert_eq.
    cbn [firstAttempt count].
    by destruct (at_delay clock - at_record clock >? AuthRoute.RATE_LIMIT_WINDOW)%Z.
  - unfold AuthRoute.locked, AuthRoute.getAttemptCount. by rewrite Hnone.
Qed.

Lemma next_failure (password : string) (NODE_ENV : option string)
    (request : Request) (clock : Clock) (random : list ascii)
    (attempts : gmap string Attempt) (c t0 : Z) :
  Str.falsy password = false ->
  wrong_password password request ->
  attempts !! getClientIP request = Some (mkAttempt c t0) ->
  (1 <= c < AuthRoute.RATE_LIMIT_MAX)%Z ->
  within t0 clock ->
  AuthRoute.POST (Some password) NODE_ENV request clock random attempts
  = (mkReply (failure "Invalid credentials" 401) None
       (Some (Z.min (1000 * 2 ^ c) 8000)),
     <[getClientIP request := mkAttempt (c + 1) t0]> attempts).
Proof.
  intros Hp (given & Hoff & Hlen & Hv) Hrec Hc (Ht1 & Ht2 & Ht3 & Ht4).
  unfold AuthRoute.RATE_LIMIT_MAX in Hc.
  rewrite (POST_wrong_password _ _ _ _ _ _ given Hp Hoff Hlen Hv).
  - cbv zeta. unfold AuthRoute.recordAttempt, AuthRoute.getDelay,
      AuthRoute.getAttemptCount. rewrite Hrec. cbn [firstAttempt count].
    destruct (Z.gtb_spec (at_record clock - t0) AuthRoute.RATE_LIMIT_WINDOW);
      [lia|].
    rewrite lookup_insert_eq. cbn [firstAttempt count].
    destruct (Z.gtb_spec (at_delay clock - t0) AuthRoute.RATE_LIMIT_WINDOW);
      [lia|].
    destruct (Z.leb_spec (c + 1) 1); [lia|].
    replace (c + 1 - 1)%Z with c by lia.
    assert (0 < 2 ^ c)%Z by (apply Z.pow_pos_nonneg; lia).
    destruct (Z.gtb_spec (Z.min (1000 * 2 ^ c) 8000) 0); [done | lia].
  - unfold AuthRoute.locked, AuthRoute.getAttemptCount. rewrite Hrec.
    cbn [firstAttempt count]. unfold AuthRoute.RATE_LIMIT_MAX.
    destruct (Z.gtb_spec (at_limit_check clock - t0) AuthRoute.RATE_LIMIT_WINDOW);
      [done|].
    destruct (Z.geb_spec c 5); [lia | done].
Qed.

(** X8. Five POSTs with wrong passwords from one client that has no
    record, all within the window opened by the first, are answered 401 after
    delays of none, 2000, 4000, 8000 and 8000 ms; the next POST in the window
    from that client is answered 429 after 4000 ms, whatever it carries. No
    reply sets a cookie. *)
Theorem X8_five_failures_then_locked
    (password : string) (NODE_ENV : option string) (ip : string)
    (first : Request * Clock * list ascii)
    (middle : list (Request * Clock * list ascii))
    (last : Request * Clock * list ascii)
    (attempts : gmap string Attempt) :
  Str.falsy password = false ->
  attempts !! ip = None ->
  length middle = 4%nat ->
  Forall (fun p => getClientIP p.1.1 = ip) (first :: middle ++ [last]) ->
  Forall (fun p => wrong_password password p.1.1) (first :: middle) ->
  Forall (fun p => within (at_record first.1.2) p.1.2) (middle ++ [last]) ->
  let replies :=
    (logins (Some password) NODE_ENV (first :: middle ++ [last]) attempts).1 in
  map (fun r => status (response r)) replies = [401; 401; 401; 401; 401; 429]%Z /\
  map slept replies
  = [None; Some 2000; Some 4000; Some 8000; Some 8000; Some 4000]%Z /\
  Forall (fun r => cookie r = None) replies.
Proof.
  intros Hp Hnone Hlen Hip Hwrong Hwin.
  destruct middle as [|p2 [|p3 [|p4 [|p5 [|? ?]]]]]; try discriminate Hlen.
  destruct first as [[r1 c1] x1], p2 as [[r2 c2] x2], p3 as [[r3 c3] x3],
    p4 as [[r4 c4] x4], p5 as [[r5 c5] x5], last as [[r6 c6] x6].
  cbn [app fst snd] in *.
  apply Forall_cons in Hip as [E1 Hip]. apply Forall_cons in Hip as [E2 Hip].
  apply Forall_cons in Hip as [E3 Hip]. apply Forall_cons in Hip as [E4 Hip].
  apply Forall_cons in Hip as [E5 Hip]. apply Forall_cons in Hip as [E6 _].
  apply Forall_cons in Hwrong as [W1 Hwrong].
  apply Forall_cons in Hwrong as [W2 Hwrong].
  apply Forall_cons in Hwrong as [W3 Hwrong].
  apply Forall_cons in Hwrong as [W4 Hwrong].
  apply Forall_cons in Hwrong as [W5 _].
  apply Forall_cons in Hwin as [T2 Hwin]. apply Forall_cons in Hwin as [T3 Hwin].
  apply Forall_cons in Hwin as [T4 Hwin]. apply Forall_cons in Hwin as [T5 Hwin].
  apply Forall_cons in Hwin as [T6 _].
  cbn [fst snd] in *. subst ip.
  cbn [logins].
  rewrite first_failure by done.
  rewrite (next_failure _ _ r2 _ _ _ 1 (at_record c1)); try done;
    [|by rewrite E2, lookup_insert_eq].
  rewrite (next_failure _ _ r3 _ _ _ 2 (at_record c1)); try done;
    [|by rewrite E3, E2, lookup_insert_eq].
  rewrite (next_failure _ _ r4 _ _ _ 3 (at_record c1)); try done;
    [|by rewrite E4, E3, lookup_insert_eq].
  rewrite (next_failure _ _ r5 _ _ _ 4 (at_record c1)); try done;
    [|by rewrite E5, E4, lookup_insert_eq].
  destruct T6 as (Ht1 & Ht2 & _ & _).
  rewrite (POST_locked _ _ r6 _ _ _ (mkAttempt 5 (at_record c1)));
    [ | done | by rewrite E6, E5, lookup_insert_eq | done
      | cbn [firstAttempt]; lia | cbn [firstAttempt]; lia ].
  cbn [fst map response status slept cookie failure].
  repeat split; repeat constructor.
Qed.

Lemma X8_five_failures_then_locked_witness :
  map (fun r => status (response r))
    (logins sample_password None
       (repeat (sample_failed_login, sample_clock, sample_random) 5
        ++ [(sample_login, sample_clock, sample_random)]) ∅).1
  = [401; 401; 401; 401; 401; 429]%Z.
Proof.
  assert (Hw : wrong_password "hunter2" sample_failed_login).
  { exists "letmein". split; [eexists; split; reflexivity|].
    split; [vm_compute; lia | exact wrong_sample]. }
  assert (Hin : within 1000 sample_clock)
    by (unfold within, AuthRoute.RATE_LIMIT_WINDOW; cbn; lia).
  pose (f := (sample_failed_login, sample_clock, sample_random)).
  pose (l := (sample_login, sample_clock, sample_random)).
  assert (H1 : Forall (fun p => getClientIP p.1.1 = sample_ip)
                 (f :: [f; f; f; f] ++ [l]))
    by (cbn [app]; repeat (constructor; [reflexivity|]); constructor).
  assert (H2 : Forall (fun p => wrong_password "hunter2" p.1.1)
                 (f :: [f; f; f; f]))
    by (repeat (constructor; [exact Hw|]); constructor).
  assert (H3 : Forall (fun p => within (at_record f.1.2) p.1.2)
                 ([f; f; f; f] ++ [l]))
    by (cbn [app]; repeat (constructor; [exact Hin|]); constructor).
  destruct (X8_five_failures_then_locked "hunter2" None sample_ip
              f [f; f; f; f] l ∅ eq_refl (lookup_empty _) eq_refl H1 H2 H3)
    as [H _].
  exact H.
Defined.

(** ** The client key *)

(** X9. [getClientIP] never returns the empty string; a non-empty x-real-ip
    header is returned as it is, whatever x-forwarded-for says; without it the
    key is the trimmed first entry of x-forwarded-for, and "unknown" when that
    is missing or blank. *)
Theorem X9_getClientIP (request : Request) :
  Str.falsy (getClientIP request) = false /\
  (forall ip, x_real_ip request = Some ip -> Str.falsy ip = false ->
              getClientIP request = ip) /\
  (unset (x_real_ip request) = true ->
   forall forwarded, x_forwarded_for request = Some forwarded ->
     exists first rest,
       Str.split "," forwarded = first :: rest /\
       getClientIP request
       = if Str.falsy (trim first) then "unknown" else trim first) /\
  (unset (x_real_ip request) = true -> x_forwarded_for request = None ->
   getClientIP request = "unknown").
Proof.
  assert (Hd : forall a b, Str.falsy b = false -> Str.falsy (or_default a b) = false).
  { intros [s|] b Hb; cbn; [|done]. by destruct (Str.falsy s) eqn:E. }
  unfold getClientIP. split; [by apply Hd, Hd|]. split; [|split].
  - intros ip -> Hip. cbn. by rewrite Hip.
  - intros Hu forwarded ->.
    destruct (split_cons "," forwarded) as (first & rest & Hs). rewrite Hs.
    exists first, rest. split; [done|].
    unfold unset in Hu. destruct (x_real_ip request) as [s|]; cbn; by rewrite ?Hu.
  - intros Hu ->. unfold unset in Hu.
    destruct (x_real_ip request) as [s|]; cbn; by rewrite ?Hu.
Qed.

(** A first entry of x-forwarded-for that is only white space of several
    bytes is blank. *)
Example getClientIP_blank_entry :
  getClientIP (mkRequest None None
                 (Some (no_break_space +:+ ideographic_space +:+ ", 10.0.0.1"))
                 (Ok JNull))
  = "unknown".
Proof. vm_compute. reflexivity. Qed.

(** ** The limiter on several keys *)

Section LimiterRuns.
Local Open Scope Z_scope.
Variables WINDOW MAX : Z.

Lemma check_bounded (now : Z) (ip : string) (m : gmap string Limiter.RateRecord) :
  0 < MAX -> counts_bounded MAX m ->
  counts_bounded MAX (Limiter.check WINDOW MAX now ip m).2.
Proof.
  intros Hmax Hm key record. unfold Limiter.check.
  destruct (m !! ip) as [r|] eqn:E.
  - pose proof (Hm ip r E) as Hr.
    destruct (_ >? _); [|destruct (Z.geb_spec (Limiter.count r) MAX)];
      cbn [snd]; try apply Hm;
      (destruct (decide (key = ip)) as [->|Hne];
       [rewrite lookup_insert_eq; intros [= <-]; cbn; lia
       |rewrite lookup_insert_ne by done; apply Hm]).
  - cbn [snd]. destruct (decide (key = ip)) as [->|Hne].
    + rewrite lookup_insert_eq. intros [= <-]. cbn. lia.
    + rewrite lookup_insert_ne by done. apply Hm.
Qed.

Lemma run_bounded (ops : list (string * Z)) :
  forall m, 0 < MAX -> counts_bounded MAX m ->
  counts_bounded MAX (limiter_run WINDOW MAX ops m).2.
Proof.
  induction ops as [|[ip now] ops IH]; intros m Hmax Hm; [done|].
  cbn [limiter_run].
  pose proof (check_bounded now ip m Hmax Hm) as Hc.
  destruct (Limiter.check WINDOW MAX now ip m) as [allowed m1].
  specialize (IH m1 Hmax Hc).
  by destruct (limiter_run WINDOW MAX ops m1) as [log m2].
Qed.

(** Calls for one key see only that key's record. *)
Lemma calls_agree (ts : list Z) (ip : string) :
  forall m1 m2 : gmap string Limiter.RateRecord,
  m1 !! ip = m2 !! ip ->
  (Limiter.calls WINDOW MAX ts ip m1).1 = (Limiter.calls WINDOW MAX ts ip m2).1 /\
  (Limiter.calls WINDOW MAX ts ip m1).2 !! ip
  = (Limiter.calls WINDOW MAX ts ip m2).2 !! ip.
Proof.
  induction ts as [|t ts IH]; intros m1 m2 Hm; [done|].
  cbn [Limiter.calls].
  assert (Hc : (Limiter.check WINDOW MAX t ip m1).1
               = (Limiter.check WINDOW MAX t ip m2).1 /\
               (Limiter.check WINDOW MAX t ip m1).2 !! ip
               = (Limiter.check WINDOW MAX t ip m2).2 !! ip).
  { unfold Limiter.check. rewrite <- Hm.
    destruct (m1 !! ip) as [r|] eqn:E; repeat case_match; cbn [fst snd];
      rewrite ?lookup_insert_eq; try done. by rewrite E. }
  destruct Hc as [Hf Hl].
  destruct (Limiter.check WINDOW MAX t ip m1) as [a1 n1],
    (Limiter.check WINDOW MAX t ip m2) as [a2 n2]. cbn [fst snd] in *.
  destruct (IH n1 n2 Hl) as [Hf' Hl'].
  destruct (Limiter.calls WINDOW MAX ts ip n1) as [f1 k1],
    (Limiter.calls WINDOW MAX ts ip n2) as [f2 k2]. cbn [fst snd] in *.
  by subst.
Qed.

Lemma run_projection (ops : list (string * Z)) (ip : string) :
  forall m,
  let mine := map snd (filter (fun op => op.1 = ip) ops) in
  map snd (filter (fun e => e.1 = ip) (limiter_run WINDOW MAX ops m).1)
  = (Limiter.calls WINDOW MAX mine ip m).1 /\
  (limiter_run WINDOW MAX ops m).2 !! ip
  = (Limiter.calls WINDOW MAX mine ip m).2 !! ip.
Proof.
  induction ops as [|[key now] ops IH]; intros m; [done|].
  cbn [limiter_run]. cbv zeta.
  destruct (Limiter.check WINDOW MAX now key m) as [allowed m1] eqn:E.
  specialize (IH m1). cbv zeta in IH. destruct IH as [IHf IHl].
  destruct (limiter_run WINDOW MAX ops m1) as [log m2]. cbn [fst snd] in *.
  rewrite !filter_cons. cbn [fst].
  destruct (decide (key = ip)) as [->|Hne].
  - cbn [map snd Limiter.calls]. rewrite E.
    destruct (Limiter.calls WINDOW MAX _ ip m1) as [flags m3]. cbn [fst snd] in *.
    by rewrite IHf.
  - assert (Hm1 : m1 !! ip = m !! ip).
    { replace m1 with (Limiter.check WINDOW MAX now key m).2 by (by rewrite E).
      by apply check_other. }
    destruct (calls_agree (map snd (filter (fun op => op.1 = ip) ops)) ip m1 m Hm1)
      as [Hf Hl].
    rewrite IHf, IHl. done.
Qed.
End LimiterRuns.

(** X10. Starting from the empty map, after any calls of a limiter with a
    positive maximum, for any keys at any clock readings, every record counts
    at least 1 and at most the maximum. *)
Theorem X10_counts_bounded (WINDOW MAX : Z) (ops : list (string * Z)) :
  (0 < MAX)%Z ->
  counts_bounded MAX (limiter_run WINDOW MAX ops ∅).2.
Proof.
  intros Hmax. apply run_bounded; [done|]. intros ip record H.
  by rewrite lookup_empty in H.
Qed.

Lemma X10_counts_bounded_witness :
  counts_bounded 10
    (limiter_run 60000 10 [(sample_ip, 0%Z); ("198.51.100.2", 5%Z); (sample_ip, 7%Z)] ∅).2.
Proof.
  apply (X10_counts_bounded 60000 10
           [(sample_ip, 0%Z); ("198.51.100.2", 5%Z); (sample_ip, 7%Z)]).
  reflexivity.
Defined.

(** X11. Clients do not affect each other: in any interleaving of calls,
    the flags returned to one key, and that key's final record, are those of
    the key's own calls made alone in the same order. *)
Theorem X11_keys_independent
    (WINDOW MAX : Z) (ops : list (string * Z)) (ip : string)
    (m : gmap string Limiter.RateRecord) :
  let mine := map snd (filter (fun op => op.1 = ip) ops) in
  map snd (filter (fun e => e.1 = ip) (limiter_run WINDOW MAX ops m).1)
  = (Limiter.calls WINDOW MAX mine ip m).1 /\
  (limiter_run WINDOW MAX ops m).2 !! ip
  = (Limiter.calls WINDOW MAX mine ip m).2 !! ip.
Proof. apply run_projection. Qed.

(** ** The middleware and the way back from the login page *)

Lemma middleware_public (APP_PASSWORD : option string)
    (request_origin path : string) (cookie : option string) :
  Middleware.public_path path ->
  Middleware.middleware APP_PASSWORD request_origin path cookie = Middleware.next.
Proof.
  unfold Middleware.middleware.
  intros [(route & Hin & Hr) | [H | [H | H]]].
  - assert (E : existsb (fun route => Str.startsWith path route)
                  Middleware.publicRoutes = true)
      by (apply existsb_exists; eauto).
    by rewrite E.
  - destruct (existsb _ _); [done|]. by rewrite H.
  - destruct (existsb _ _); [done|]. rewrite H. by rewrite orb_true_r.
  - destruct (existsb _ _); [done|]. rewrite H. by rewrite !orb_true_r.
Qed.

(** X12. The middleware lets a request through without looking at the
    cookie when its path starts with /login, /api/auth, /_next or /favicon or
    contains a dot; it lets every path through when the cookie verifies; and
    with no password configured no cookie gets a non-public path through. *)
Theorem X12_middleware_passes
    (APP_PASSWORD : option string) (request_origin path : string)
    (cookie : option string) (token : string) :
  (Middleware.public_path path ->
   Middleware.middleware APP_PASSWORD request_origin path cookie
   = Middleware.next) /\
  (Str.includes path "." = true ->
   Middleware.middleware APP_PASSWORD request_origin path None
   = Middleware.next) /\
  (Middleware.verifySessionToken APP_PASSWORD token = true ->
   Middleware.middleware APP_PASSWORD request_origin path (Some token)
   = Middleware.next) /\
  (unset APP_PASSWORD = true -> ~ Middleware.public_path path ->
   Middleware.middleware APP_PASSWORD request_origin path cookie
   = Middleware.redirect
       (Middleware.mkURL request_origin "/login" [("from", path)])).
Proof.
  split; [apply middleware_public|].
  split; [intros H; apply middleware_public; unfold Middleware.public_path; tauto|].
  split; [apply middleware_valid_cookie|].
  intros Hu Hpub. unfold Middleware.middleware.
  destruct (existsb _ _) eqn:E1.
  { destruct Hpub. left. apply existsb_exists in E1 as (route & Hin & Hr). eauto. }
  destruct (_ || _) eqn:E2.
  { destruct Hpub. right. unfold Middleware.public_path.
    apply orb_true_iff in E2 as [E2 | E2]; [|tauto].
    apply orb_true_iff in E2 as [E2 | E2]; tauto. }
  destruct cookie as [value|]; [|done].
  assert (Hv : Middleware.verifySessionToken APP_PASSWORD value = false).
  { unfold Middleware.verifySessionToken, unset in *.
    destruct APP_PASSWORD as [password|]; [|done]. by rewrite Hu. }
  rewrite Hv. by rewrite orb_true_r.
Qed.

(** X13. The redirect of the middleware brings the user back: for a
    non-public path that starts with one slash, the parameters of the login
    URL the middleware redirects to make the login page navigate to that very
    path after a successful login. *)
Theorem X13_redirect_round_trip
    (APP_PASSWORD : option string) (request_origin path : string) :
  ~ Middleware.public_path path ->
  LoginPage.same_origin_relative path ->
  exists url,
    Middleware.middleware APP_PASSWORD request_origin path None
    = Middleware.redirect url /\
    Middleware.pathname url = "/login" /\
    LoginPage.handleSubmit (Middleware.searchParams url) true = Some path.
Proof.
  intros Hpub Hrel.
  exists (Middleware.mkURL request_origin "/login" [("from", path)]).
  split; [|split; [done|]].
  - unfold Middleware.middleware.
    destruct (existsb _ _) eqn:E1.
    { destruct Hpub. left. apply existsb_exists in E1 as (route & Hin & Hr). eauto. }
    destruct (_ || _) eqn:E2; [|done].
    destruct Hpub. right. unfold Middleware.public_path.
    apply orb_true_iff in E2 as [E2 | E2]; [|tauto].
    apply orb_true_iff in E2 as [E2 | E2]; tauto.
  - unfold LoginPage.handleSubmit. cbn [Middleware.searchParams]. f_equal.
    assert (Hraw : LoginPage.rawFrom [("from", path)] = path).
    { destruct Hrel as (rest & -> & _). reflexivity. }
    destruct (from_cases [("from", path)]) as [Hyes _].
    rewrite Hraw in Hyes. by apply Hyes.
Qed.

Lemma X13_redirect_round_trip_witness :
  exists url,
    Middleware.middleware sample_password "https://app.example" "/dashboard" None
    = Middleware.redirect url /\
    Middleware.pathname url = "/login" /\
    LoginPage.handleSubmit (Middleware.searchParams url) true = Some "/dashboard".
Proof.
  apply (X13_redirect_round_trip sample_password "https://app.example" "/dashboard").
  - intros [(route & Hin & Hr) | [H | [H | H]]]; try discriminate H.
    cbn in Hin. destruct Hin as [<- | [<- | []]]; discriminate Hr.
  - exists "dashboard". split; [reflexivity|]. intros rest' [=].
Defined.

(** ** More of the thumbnail route *)

Lemma property_field (name : string) (body : Json) :
  body <> JNull -> property name body = Ok (field name body).
Proof. unfold field. by destruct body. Qed.

Section ThumbnailMore.
Variables APP_PASSWORD OPENAI_API_KEY : option string.
Variables BUNNY_STORAGE_ZONE BUNNY_ACCESS_KEY BUNNY_CDN_HOST : option string.
Variable ChannelConfig : Type.
Variable getChannel : string -> option ChannelConfig.
Variable buildDallePrompt :
  string -> ChannelConfig -> option string -> string -> bool -> string.
Variable buildPromptCrafterSystem : string.
Variable crafterMessage :
  string -> string -> option Json -> ChannelConfig -> option Json -> string -> string.
Variable chat_create : string -> string -> Result (option string).
Variable images_generate : string -> Result (option string).
Variable fetch_get : string -> Result HttpResponse.
Variable fetch_put : string -> string -> list ascii -> Result HttpResponse.
Variable sharp_resize_cover : list ascii -> Z -> Z -> Result (list ascii).
Variable sharp_resize_inside : list ascii -> Z -> Result (list ascii).
Variable sharp_height : list ascii -> Result (option Z).
Variable sharp_composite : list ascii -> list ascii -> Z -> Z -> Result (list ascii).

Let POST :=
  ThumbnailRoute.POST APP_PASSWORD OPENAI_API_KEY BUNNY_STORAGE_ZONE
    BUNNY_ACCESS_KEY BUNNY_CDN_HOST ChannelConfig getChannel buildDallePrompt
    buildPromptCrafterSystem crafterMessage chat_create images_generate
    fetch_get fetch_put sharp_resize_cover sharp_resize_inside sharp_height
    sharp_composite.
Let generate :=
  ThumbnailRoute.generate BUNNY_STORAGE_ZONE
    BUNNY_ACCESS_KEY BUNNY_CDN_HOST ChannelConfig getChannel buildDallePrompt
    buildPromptCrafterSystem crafterMessage chat_create images_generate
    fetch_get fetch_put sharp_resize_cover sharp_resize_inside sharp_height
    sharp_composite.
Let uploadToBunnyCDN :=
  ThumbnailRoute.uploadToBunnyCDN BUNNY_STORAGE_ZONE BUNNY_ACCESS_KEY
    BUNNY_CDN_HOST fetch_put.
Let compositeHeadshot :=
  ThumbnailRoute.compositeHeadshot fetch_get sharp_resize_inside sharp_height
    sharp_composite.
Let generated :=
  generated ChannelConfig getChannel buildDallePrompt buildPromptCrafterSystem
    crafterMessage chat_create images_generate fetch_get sharp_resize_cover.

(** The image that is uploaded: the composite when a headshot is asked for
    and compositing succeeds, the resized image otherwise. *)
Let imageBuffer (fields : list (string * Json)) (resized : list ascii) :=
  match nonempty_string (lookup_last "headshot_url" fields) with
  | Some headshot_url =>
      match compositeHeadshot resized headshot_url with
      | Ok composed => composed
      | Throw _ => resized
      end
  | None => resized
  end.


Lemma POST_generate (request : Request) (now : Z) (stamp rand : string)
    (rateLimiter : gmap string Limiter.RateRecord) :
  ApiToken.unauthenticated APP_PASSWORD request = false ->
  unset OPENAI_API_KEY = false ->
  (ThumbnailRoute.checkRateLimit now (getClientIP request) rateLimiter).1 = true ->
  (POST request now stamp rand rateLimiter).1
  = match generate request stamp rand with
    | Ok response => response
    | Throw error => ThumbnailRoute.rescue error
    end.
Proof.
  intros Hauth Hkey Hrate. subst POST generate. unfold ThumbnailRoute.POST.
  rewrite Hauth, Hkey.
  destruct (ThumbnailRoute.checkRateLimit _ _ _) as [allowed m'].
  cbn [fst] in Hrate. subst allowed. cbn [negb].
  by destruct (ThumbnailRoute.generate _ _ _ _ _ _ _ _ _ _ _ _ _ _ _ _ _ _ _).
Qed.




(** X16. Validation of the thumbnail body, for an authenticated request
    that the limiter allows: an unreadable body is answered by the catch
    block, a null body with 500; a body without a non-empty string concept
    with 400 "Concept is required", then one without a non-empty string
    channel with 400 "Channel is required", then an unknown channel with 400
    "Unknown channel". *)
Theorem X16_thumbnail_validation
    (request : Request) (now : Z) (stamp rand : string)
    (rateLimiter : gmap string Limiter.RateRecord) :
  ApiToken.unauthenticated APP_PASSWORD request = false ->
  unset OPENAI_API_KEY = false ->
  (ThumbnailRoute.checkRateLimit now (getClientIP request) rateLimiter).1 = true ->
  let response := (POST request now stamp rand rateLimiter).1 in
  (forall error, json request = Throw error ->
                 response = ThumbnailRoute.rescue error) /\
  (json request = Ok JNull ->
   response = failure "Thumbnail generation failed. Try again." 500) /\
  (forall body, json request = Ok body -> body <> JNull ->
     (nonempty_string (field "concept" body) = None ->
      response = failure "Concept is required" 400) /\
     (nonempty_string (field "concept" body) <> None ->
      nonempty_string (field "channel" body) = None ->
      response = failure "Channel is required" 400) /\
     (forall channelId,
        nonempty_string (field "concept" body) <> None ->
        nonempty_string (field "channel" body) = Some channelId ->
        getChannel channelId = None ->
        response = failure "Unknown channel" 400)).
Proof.
  intros Hauth Hkey Hrate response. subst response.
  rewrite POST_generate by done. subst generate.
  unfold ThumbnailRoute.generate, mbind, Result_bind.
  split; [by intros error ->|]. split; [by intros ->|].
  intros body -> Hbody. rewrite !property_field by done.
  split; [by intros ->|]. split.
  - intros Hc ->. by destruct (nonempty_string (field "concept" body)).
  - intros channelId Hc -> ->.
    by destruct (nonempty_string (field "concept" body)).
Qed.
End ThumbnailMore.

Lemma sample_thumbnail_authenticated :
  ApiToken.unauthenticated sample_password sample_thumbnail_request = false /\
  ApiToken.unauthenticated sample_password sample_headshot_request = false.
Proof. split; vm_compute; reflexivity. Qed.



Lemma X16_thumbnail_validation_witness :
  (sample_thumbnail_POST sample_fetch_get sample_fetch_put
     sample_array_request 1000%Z "1700000000000" "k3x9qa" ∅).1
  = failure "Concept is required" 400.
Proof.
  assert (Hauth : ApiToken.unauthenticated sample_password sample_array_request
                  = false) by (vm_compute; reflexivity).
  pose proof (X16_thumbnail_validation sample_password (Some "sk-test")
                (Some "zone") (Some "key") (Some " cdn.example ")
                unit sample_getChannel (fun concept _ _ _ _ => concept) "system"
                (fun _ _ _ _ _ base => base)
                (fun _ _ => Ok (Some "a robot, bold colours"))
                (fun _ => Ok (Some "https://images.example/t.png"))
                sample_fetch_get sample_fetch_put
                (fun b _ _ => Ok b) (fun b _ => Ok b) (fun _ => Ok None)
                (fun b _ _ _ => Ok b)
                sample_array_request 1000%Z "1700000000000" "k3x9qa" ∅
                Hauth eq_refl eq_refl) as (_ & _ & H).
  destruct (H (JArr []) eq_refl) as [Hconcept _]; [discriminate|].
  apply Hconcept. reflexivity.
Defined.

Ltac listed :=
  unfold thumbnail_failures; cbn [In];
  repeat (first [left; reflexivity | right]).

Lemma rescue_listed (error : Exn) :
  In (ThumbnailRoute.rescue error) thumbnail_failures.
Proof.
  unfold ThumbnailRoute.rescue. destruct error as [status message| |];
    [|listed..].
  destruct (_ && _); [listed|]. destruct (bool_decide _); listed.
Qed.

(** X17. Whatever the request, the environment and the collaborators do,
    the thumbnail route answers either with its success response or with one
    of eleven failure responses whose texts are fixed in the code: no text of
    a collaborator's error reaches the client. *)
Theorem X17_thumbnail_responses_closed
    (APP_PASSWORD OPENAI_API_KEY : option string)
    (BUNNY_STORAGE_ZONE BUNNY_ACCESS_KEY BUNNY_CDN_HOST : option string)
    (ChannelConfig : Type) (getChannel : string -> option ChannelConfig)
    (buildDallePrompt :
       string -> ChannelConfig -> option string -> string -> bool -> string)
    (buildPromptCrafterSystem : string)
    (crafterMessage :
       string -> string -> option Json -> ChannelConfig -> option Json ->
       string -> string)
    (chat_create : string -> string -> Result (option string))
    (images_generate : string -> Result (option string))
    (fetch_get : string -> Result HttpResponse)
    (fetch_put : string -> string -> list ascii -> Result HttpResponse)
    (sharp_resize_cover : list ascii -> Z -> Z -> Result (list ascii))
    (sharp_resize_inside : list ascii -> Z -> Result (list ascii))
    (sharp_height : list ascii -> Result (option Z))
    (sharp_composite : list ascii -> list ascii -> Z -> Z -> Result (list ascii))
    (request : Request) (now : Z) (stamp rand : string)
    (rateLimiter : gmap string Limiter.RateRecord) :
  let response :=
    (ThumbnailRoute.POST APP_PASSWORD OPENAI_API_KEY BUNNY_STORAGE_ZONE
       BUNNY_ACCESS_KEY BUNNY_CDN_HOST ChannelConfig getChannel buildDallePrompt
       buildPromptCrafterSystem crafterMessage chat_create images_generate
       fetch_get fetch_put sharp_resize_cover sharp_resize_inside sharp_height
       sharp_composite request now stamp rand rateLimiter).1 in
  In response thumbnail_failures \/
  exists url prompt_used text_overlay,
    response = thumbnail_success url prompt_used text_overlay.
Proof.
  cbv zeta. unfold ThumbnailRoute.POST.
  destruct (ApiToken.unauthenticated _ _); [left; listed|].
  destruct (unset _); [left; listed|].
  destruct (ThumbnailRoute.checkRateLimit _ _ _) as [allowed m'].
  destruct allowed; cbn [negb fst]; [|left; listed].
  unfold ThumbnailRoute.generate, mbind, Result_bind.
  destruct (json request) as [body|e]; [|left; apply rescue_listed].
  destruct (property "concept" body) as [concept|e];
    [|left; apply rescue_listed].
  destruct (property "text_overlay" body) as [text_overlay|e];
    [|left; apply rescue_listed].
  destruct (property "emotion" body) as [emotion|e];
    [|left; apply rescue_listed].
  destruct (property "channel" body) as [channelId|e];
    [|left; apply rescue_listed].
  destruct (property "style_guide" body) as [style_guide|e];
    [|left; apply rescue_listed].
  destruct (property "headshot_url" body) as [headshot_url|e];
    [|left; apply rescue_listed].
  destruct (property "video_title" body) as [video_title|e];
    [|left; apply rescue_listed].
  destruct (nonempty_string concept) as [concept'|]; [|left; listed].
  destruct (nonempty_string channelId) as [channelId'|]; [|left; listed].
  destruct (getChannel channelId') as [channel|]; [|left; listed].
  destruct (chat_create _ _) as [content|e]; [|left; apply rescue_listed].
  destruct (images_generate _) as [[imageUrl|]|e];
    [|left; listed|left; apply rescue_listed].
  destruct (Str.falsy imageUrl); [left; listed|].
  destruct (fetch_get imageUrl) as [imageDownload|e];
    [|left; apply rescue_listed].
  destruct (ok imageDownload); cbn [negb]; [|left; listed].
  destruct (arrayBuffer imageDownload) as [downloadedBytes|e];
    [|left; apply rescue_listed].
  destruct (sharp_resize_cover _ _ _) as [resized|e];
    [|left; apply rescue_listed].
  right. cbn [fst]. eauto.
Qed.

(** ** The body of the analyze route *)


Lemma null_or_not (v : Json) : v = JNull \/ v <> JNull.
Proof. destruct v; (by left) || (by right). Qed.


Section AnalyzeFacts.
Variable ChannelConfig : Type.
Variable getChannel : string -> option ChannelConfig.
Variable buildSystemPrompt : ChannelConfig -> string.
Variable chat_create : string -> string -> Result (option string).
Variable JSON_parse : string -> Result Json.
Variable toLocaleString : Z -> string.

Let analyse :=
  AnalyzeBody.analyse ChannelConfig getChannel buildSystemPrompt chat_create
    JSON_parse toLocaleString.
Let analysis :=
  AnalyzeBody.analysis ChannelConfig getChannel buildSystemPrompt chat_create
    JSON_parse toLocaleString.



(** X19. Whatever is thrown inside the try block of the analyze route, the
    client gets status 500 with one of six fixed messages. An unreadable
    request body is among the cases: its SyntaxError is answered with
    "Failed to parse AI response. Try again.", and a null body with
    "Analysis failed. Try again.". *)
Theorem X19_analyze_errors_sanitized (request : Request) :
  (forall error, analyse request = Throw error ->
     analysis request = failure (AnalyzeBody.sanitizeError error) 500 /\
     In (AnalyzeBody.sanitizeError error) sanitized_messages) /\
  (json request = Throw SyntaxError ->
   analysis request = failure "Failed to parse AI response. Try again." 500) /\
  (json request = Ok JNull ->
   analysis request = failure "Analysis failed. Try again." 500).
Proof.
  subst analysis analyse. unfold AnalyzeBody.analysis. split; [|split].
  - intros error ->. split; [done|].
    unfold AnalyzeBody.sanitizeError, sanitized_messages.
    destruct error as [status message| |]; cbn [In]; [|tauto..].
    repeat (destruct (bool_decide _); [tauto|]). tauto.
  - unfold AnalyzeBody.analyse. by intros ->.
  - unfold AnalyzeBody.analyse. by intros ->.
Qed.

End AnalyzeFacts.



(** The transcript is measured in code units and trimmed of all white
    space: a transcript that is one no-break space is refused as blank, and
    one of 50001 characters of two bytes each, 100002 bytes, is within the
    limit. *)
Example transcript_measured :
  let analysis :=
    AnalyzeBody.analysis unit sample_getChannel (fun _ => "system")
      (fun _ _ => Ok (Some "{}")) (fun _ => Ok sample_data_complete)
      (fun _ => "100,000") in
  let request transcript :=
    mkRequest None None None
      (Ok (JObj [("transcript", JStr transcript); ("channel", JStr "techtony")])) in
  analysis (request no_break_space) = failure "Transcript is required" 400 /\
  status (analysis (request (repeat_string e_acute (Z.to_nat 50001)))) = 200%Z.
Proof. split; vm_compute; reflexivity. Qed.


(** ** The body of the analyze-style route and the style references
    component *)

Lemma urls_of_strings (urls : list string) :
  StyleBody.urls_of (map JStr urls) = Ok urls.
Proof.
  induction urls as [|u urls IH]; [done|].
  cbn [map StyleBody.urls_of]. by rewrite IH.
Qed.

Lemma urls_of_inv (images : list Json) (urls : list string) :
  StyleBody.urls_of images = Ok urls -> images = map JStr urls.
Proof.
  revert urls. induction images as [|img images IH]; intros urls.
  - by intros [= <-].
  - cbn [StyleBody.urls_of]. destruct img; try done.
    unfold mbind, Result_bind.
    destruct (StyleBody.urls_of images) as [rest|]; [|done].
    intros [= <-]. cbn [map]. by rewrite (IH rest).
Qed.

Section StyleFacts.
Variable buildStyleAnalysisPrompt : string.
Variable chat_create : string -> string -> list string -> Result (option string).

Let analysis := StyleBody.analysis buildStyleAnalysisPrompt chat_create.
Let ask :=
  chat_create buildStyleAnalysisPrompt
    "Analyze these YouTube thumbnail samples and describe the unified visual style:".

(** X21. The analyze-style body answers 200 only when the body's images
    are an array of one to five strings and the vision model, asked about
    exactly these, answers a non-empty text; the style guide in the response
    is that text trimmed. *)
Theorem X21_style_success_only_if (request : Request) (response : Response) :
  analysis request = response ->
  status response = 200%Z ->
  exists body urls guide,
    json request = Ok body /\
    field "images" body = Some (JArr (map JStr urls)) /\
    (1 <= length urls <= 5)%nat /\
    ask urls = Ok (Some guide) /\
    Str.falsy guide = false /\
    response = mkResponse 200
                 (JObj [("success", JBool true);
                        ("style_guide", JStr (trim guide))]).
Proof.
  subst analysis ask. unfold StyleBody.analysis, StyleBody.analyse.
  intros <-. unfold mbind, Result_bind.
  destruct (json request) as [body|]; [|done].
  destruct (null_or_not body) as [->|Hbody]; [done|].
  rewrite property_field by done.
  destruct (field "images" body) as [[| | | |images|]|] eqn:Ei; try done.
  destruct (length images =? 0)%nat eqn:E0; [done|].
  destruct (5 <? length images)%nat eqn:E5; [done|]. cbn [orb].
  destruct (StyleBody.urls_of images) as [urls|] eqn:Eu; [|done].
  apply urls_of_inv in Eu as ->. rewrite length_map in E0, E5.
  destruct (chat_create _ _ urls) as [[guide|]|] eqn:Ec; [|done..].
  destruct (Str.falsy guide) eqn:Eg; [done|]. intros _.
  exists body, urls, guide. apply Nat.eqb_neq in E0. apply Nat.ltb_ge in E5.
  repeat split; try done; lia.
Qed.

(** X22. What the analyze-style body rejects: images that are missing, not
    an array, empty or more than five are answered 400 "Provide 1-5 sample
    images"; one to five images of which one is not a string are answered
    500 "Style analysis failed. Try again.", as is an unreadable or null
    body. *)
Theorem X22_style_rejections (request : Request) :
  (forall body, json request = Ok body -> body <> JNull ->
     (forall images, field "images" body = Some (JArr images) ->
                     (1 <= length images <= 5)%nat -> False) ->
     analysis request = failure "Provide 1-5 sample images" 400) /\
  (forall body images,
     json request = Ok body -> body <> JNull ->
     field "images" body = Some (JArr images) ->
     (1 <= length images <= 5)%nat ->
     (exists image, In image images /\ forall s, image <> JStr s) ->
     analysis request = failure "Style analysis failed. Try again." 500) /\
  ((exists error, json request = Throw error) \/ json request = Ok JNull ->
   analysis request = failure "Style analysis failed. Try again." 500).
Proof.
  subst analysis. unfold StyleBody.analysis, StyleBody.analyse.
  split; [|split].
  - intros body -> Hbody Hbad. cbn [mbind Result_bind].
    rewrite property_field by done. cbn [mbind Result_bind].
    destruct (field "images" body) as [[| | | |images|]|] eqn:Ei; try done.
    destruct (length images =? 0)%nat eqn:E0; [done|].
    destruct (5 <? length images)%nat eqn:E5; [done|].
    destruct (Hbad images eq_refl).
    apply Nat.eqb_neq in E0. apply Nat.ltb_ge in E5. lia.
  - intros body images -> Hbody Hi Hlen (image & Hin & Hns).
    cbn [mbind Result_bind]. rewrite property_field by done.
    cbn [mbind Result_bind]. rewrite Hi.
    destruct (length images =? 0)%nat eqn:E0; [apply Nat.eqb_eq in E0; lia|].
    destruct (5 <? length images)%nat eqn:E5; [apply Nat.ltb_lt in E5; lia|].
    cbn [orb].
    assert (Hu : exists e, StyleBody.urls_of images = Throw e).
    { clear -Hin Hns. induction images as [|img images IH]; [done|].
      cbn [StyleBody.urls_of]. destruct Hin as [->|Hin].
      - destruct image; eauto. by destruct (Hns s).
      - destruct (IH Hin) as [e He]. destruct img; eauto.
        rewrite He. eauto. }
    destruct Hu as [e ->]. done.
  - intros [[error ->] | ->]; done.
Qed.
End StyleFacts.

Lemma X21_style_success_only_if_witness :
  exists body urls guide,
    json (mkRequest None None None
            (Ok (JObj [("images", JArr [JStr "data:image/png;base64,AAAA"])])))
    = Ok body /\
    field "images" body = Some (JArr (map JStr urls)) /\
    (1 <= length urls <= 5)%nat /\
    Ok (Some "  bold, blue  ") = Ok (Some guide) /\
    Str.falsy guide = false /\
    mkResponse 200
      (JObj [("success", JBool true); ("style_guide", JStr "bold, blue")])
    = mkResponse 200
        (JObj [("success", JBool true); ("style_guide", JStr (trim guide))]).
Proof.
  apply (X21_style_success_only_if "prompt"
           (fun _ _ _ => Ok (Some "  bold, blue  "))
           (mkRequest None None None
              (Ok (JObj [("images", JArr [JStr "data:image/png;base64,AAAA"])]))));
    reflexivity.
Defined.

(** The style guide is trimmed of white space of several bytes too. *)
Example style_guide_trimmed :
  StyleBody.analysis "prompt"
    (fun _ _ _ =>
       Ok (Some (no_break_space +:+ "bold, blue" +:+ ideographic_space)))
    (mkRequest None None None
       (Ok (JObj [("images", JArr [JStr "data:image/png;base64,AAAA"])])))
  = mkResponse 200
      (JObj [("success", JBool true); ("style_guide", JStr "bold, blue")]).
Proof. vm_compute. reflexivity. Qed.


Lemma removeImage_length (index : nat) (images : list string) :
  (length (StyleReferences.removeImage index images) <= length images)%nat.
Proof.
  revert index. induction images as [|image images IH]; intros [|i];
    cbn [StyleReferences.removeImage length]; try lia.
  specialize (IH i). lia.
Qed.

Lemma onload_length (result : string) (images : list string) :
  (length images <= StyleReferences.MAX_IMAGES)%nat ->
  (length (StyleReferences.onload result images) <= StyleReferences.MAX_IMAGES)%nat.
Proof.
  unfold StyleReferences.onload, StyleReferences.MAX_IMAGES. intros H.
  destruct (Nat.leb_spec 5 (length images)); [done|].
  rewrite length_app. cbn. lia.
Qed.

(** X23. The style references component never holds more than five
    images, whatever uploads complete and whatever removals are made,
    starting from the empty list; a removal at an index in range takes out
    exactly the image at that index, and one out of range changes nothing. *)
Theorem X23_images_bounded (ops : list ImageOp) (index : nat) (images : list string) :
  (length (images_after ops []) <= StyleReferences.MAX_IMAGES)%nat /\
  StyleReferences.removeImage index images
  = take index images ++ drop (S index) images.
Proof.
  split.
  - assert (H : forall images,
               (length images <= StyleReferences.MAX_IMAGES)%nat ->
               (length (images_after ops images) <= StyleReferences.MAX_IMAGES)%nat).
    { induction ops as [|[result|i] ops IH]; intros imgs Hl; [done|..];
        cbn [images_after]; apply IH.
      - by apply onload_length.
      - pose proof (removeImage_length i imgs). lia. }
    apply H. cbn. unfold StyleReferences.MAX_IMAGES. lia.
  - revert index. induction images as [|image images IH]; intros [|i];
      cbn [StyleReferences.removeImage take drop app]; try done.
    by rewrite IH.
Qed.

Lemma first_error_none (files : list File) :
  StyleReferences.first_error files = None ->
  Forall (fun file =>
            (file_size file <= StyleReferences.MAX_FILE_SIZE)%Z /\
            Str.startsWith (file_type file) "image/" = true) files.
Proof.
  induction files as [|file files IH]; [constructor|].
  cbn [StyleReferences.first_error].
  destruct (Z.gtb_spec (file_size file) StyleReferences.MAX_FILE_SIZE); [done|].
  destruct (Str.startsWith (file_type file) "image/") eqn:E; [|done].
  cbn [negb]. intros Hrest. constructor; [split; [lia | done] | by apply IH].
Qed.

(** X24. When [handleFileSelect] of the style references component starts
    reading a selection, it is the whole selection, it fits in what is left
    of the five places, and every file in it is at most 4 MiB and has an
    image type; otherwise nothing is read. *)
Theorem X24_selection_checked
    (files : list File) (images : list string) (accepted : list File) :
  StyleReferences.handleFileSelect files images = inr accepted ->
  accepted = files /\
  (length images + length files <= StyleReferences.MAX_IMAGES)%nat /\
  Forall (fun file =>
            (file_size file <= 4194304)%Z /\
            Str.startsWith (file_type file) "image/" = true) files.
Proof.
  unfold StyleReferences.handleFileSelect.
  destruct (Z.gtb_spec (Z.of_nat (length files))
              (Z.of_nat StyleReferences.MAX_IMAGES - Z.of_nat (length images)));
    [done|].
  destruct (StyleReferences.first_error files) eqn:E; [done|].
  intros [= <-]. split; [done|]. split; [lia|].
  apply first_error_none in E. exact E.
Qed.

Lemma X24_selection_checked_witness :
  StyleReferences.handleFileSelect [sample_png] ["data:a"; "data:b"] = inr [sample_png] /\
  (2 + 1 <= StyleReferences.MAX_IMAGES)%nat.
Proof.
  split; [reflexivity|].
  destruct (X24_selection_checked [sample_png] ["data:a"; "data:b"] [sample_png]
              eq_refl) as (_ & H & _).
  exact H.
Defined.

(** X25. What the component posts is what the route accepts: for one to
    five images held by the component, [handleAnalyze] posts a body that the
    analyze-style route does not answer with 400; the vision model is asked
    about exactly these images, and the response is decided by its answer. *)
Theorem X25_client_body_accepted
    (buildStyleAnalysisPrompt : string)
    (chat_create : string -> string -> list string -> Result (option string))
    (images : list string) (request : Request) (body : Json) :
  (1 <= length images <= StyleReferences.MAX_IMAGES)%nat ->
  StyleReferences.handleAnalyze images = inr body ->
  json request = Ok body ->
  StyleBody.analysis buildStyleAnalysisPrompt chat_create request
  = match chat_create buildStyleAnalysisPrompt
            "Analyze these YouTube thumbnail samples and describe the unified visual style:"
            images with
    | Ok (Some guide) =>
        if Str.falsy guide then failure "No response from AI" 500
        else mkResponse 200
               (JObj [("success", JBool true); ("style_guide", JStr (trim guide))])
    | Ok None => failure "No response from AI" 500
    | Throw _ => failure "Style analysis failed. Try again." 500
    end.
Proof.
  unfold StyleReferences.MAX_IMAGES, StyleReferences.handleAnalyze.
  intros Hlen Hbody Hjson.
  destruct (length images =? 0)%nat eqn:E0; [done|].
  injection Hbody as <-.
  unfold StyleBody.analysis, StyleBody.analyse. rewrite Hjson.
  cbn [mbind Result_bind].
  change (property "images" (JObj [("images", JArr (map JStr images))]))
    with (Ok (Some (JArr (map JStr images)))).
  cbn [mbind Result_bind]. rewrite length_map, E0.
  destruct (5 <? length images)%nat eqn:E5; [apply Nat.ltb_lt in E5; lia|].
  cbn [orb]. rewrite urls_of_strings. cbn [mbind Result_bind].
  destruct (chat_create _ _ images) as [[guide|]|];
    unfold mbind, Result_bind; try done.
  by destruct (Str.falsy guide).
Qed.

Lemma X25_client_body_accepted_witness :
  StyleBody.analysis "prompt" (fun _ _ _ => Ok (Some " warm tones "))
    (mkRequest None None None
       (Ok (JObj [("images", JArr [JStr "data:a"; JStr "data:b"])])))
  = mkResponse 200
      (JObj [("success", JBool true); ("style_guide", JStr "warm tones")]).
Proof.
  apply (X25_client_body_accepted "prompt" (fun _ _ _ => Ok (Some " warm tones "))
           ["data:a"; "data:b"]
           (mkRequest None None None
              (Ok (JObj [("images", JArr [JStr "data:a"; JStr "data:b"])])))
           (JObj [("images", JArr [JStr "data:a"; JStr "data:b"])]));
    [cbn; unfold StyleReferences.MAX_IMAGES; lia | reflexivity | reflexivity].
Defined.

(** ** The headshot upload route and component *)

Section UploadFacts.
Variable APP_PASSWORD : option string.
Variables BUNNY_STORAGE_ZONE BUNNY_ACCESS_KEY BUNNY_CDN_HOST : option string.
Variable fetch_put : string -> string -> string -> list ascii -> Result HttpResponse.

Let POST :=
  UploadRoute.POST APP_PASSWORD BUNNY_STORAGE_ZONE BUNNY_ACCESS_KEY
    BUNNY_CDN_HOST fetch_put.

(** X26. The upload route answers 200 only to an authenticated request
    that carries a file of at most 4 MiB whose type starts with image/; the
    url it returns is https://<CDN host, trimmed>/headshot-<stamp>-<rand>.<ext>
    where the extension is png for the type image/png and webp for every other
    image type. *)
Theorem X26_upload_success_only_if
    (request : Request) (formData : Result FormEntry) (stamp rand : string)
    (response : Response) :
  POST request formData stamp rand = response ->
  status response = 200%Z ->
  exists file cdnHost,
    ApiToken.unauthenticated APP_PASSWORD request = false /\
    formData = Ok (file_entry file) /\
    (file_size file <= 4194304)%Z /\
    Str.startsWith (file_type file) "image/" = true /\
    BUNNY_CDN_HOST = Some cdnHost /\
    response
    = mkResponse 200
        (JObj [("success", JBool true);
               ("url",
                JStr ("https://" +:+ trim cdnHost +:+ "/" +:+ "headshot-"
                      +:+ stamp +:+ "-" +:+ rand +:+ "."
                      +:+ (if String.eqb (file_type file) "image/png"
                           then "png" else "webp")))]).
Proof.
  subst POST. unfold UploadRoute.POST. intros <-.
  destruct (ApiToken.unauthenticated _ _) eqn:Ea; [done|].
  destruct BUNNY_STORAGE_ZONE as [zone|]; [|done].
  destruct BUNNY_ACCESS_KEY as [key|]; [|done].
  destruct BUNNY_CDN_HOST as [host|]; [|done].
  cbn [fmap option_fmap option_map].
  destruct (_ || _); [done|].
  unfold UploadRoute.upload, mbind, Result_bind.
  destruct formData as [[|value|file]|]; try done.
  { by destruct (Str.falsy value). }
  destruct (Z.gtb_spec (file_size file) UploadRoute.MAX_FILE_SIZE) as [|Hs];
    [done|].
  destruct (Str.startsWith (file_type file) "image/") eqn:Et; [|done].
  cbn [negb]. destruct (file_arrayBuffer file) as [bytes|]; [|done].
  destruct (fetch_put _ _ _ _) as [uploadResponse|]; [|done].
  destruct (ok uploadResponse); [|done]. cbn [negb]. intros _.
  exists file, host. unfold UploadRoute.MAX_FILE_SIZE in Hs.
  repeat split; try done; lia.
Qed.

(** X27. The component and the route check a file alike: for an
    authenticated request to a configured route that carries a file, the
    answer is 400 exactly when [handleFileSelect] of the headshot component
    would have refused the file before uploading it. *)
Theorem X27_upload_checks_agree
    (request : Request) (file : File) (stamp rand : string)
    (storageZone accessKey cdnHost : string) :
  ApiToken.unauthenticated APP_PASSWORD request = false ->
  BUNNY_STORAGE_ZONE = Some storageZone -> Str.falsy (trim storageZone) = false ->
  BUNNY_ACCESS_KEY = Some accessKey -> Str.falsy (trim accessKey) = false ->
  BUNNY_CDN_HOST = Some cdnHost -> Str.falsy (trim cdnHost) = false ->
  (status (POST request (Ok (file_entry file)) stamp rand) = 400%Z <->
   HeadshotUpload.rejects file <> None).
Proof.
  intros Ha Hz Hzt Hk Hkt Hh Hht. subst POST. unfold UploadRoute.POST.
  rewrite Ha, Hz, Hk, Hh. cbn [fmap option_fmap option_map].
  rewrite Hzt, Hkt, Hht. cbn [orb].
  unfold UploadRoute.upload, HeadshotUpload.rejects, mbind, Result_bind.
  change HeadshotUpload.MAX_FILE_SIZE with UploadRoute.MAX_FILE_SIZE.
  destruct (file_size file >? UploadRoute.MAX_FILE_SIZE)%Z; [done|].
  destruct (Str.startsWith (file_type file) "image/"); cbn [negb]; [|done].
  destruct (file_arrayBuffer file) as [bytes|]; [|done].
  destruct (fetch_put _ _ _ _) as [uploadResponse|]; [|done].
  by destruct (ok uploadResponse).
Qed.
End UploadFacts.

Lemma X26_upload_success_only_if_witness :
  exists file cdnHost,
    ApiToken.unauthenticated sample_password sample_thumbnail_request = false /\
    Ok (file_entry sample_png) = Ok (file_entry file) /\
    (file_size file <= 4194304)%Z /\
    Str.startsWith (file_type file) "image/" = true /\
    Some " cdn.example " = Some cdnHost /\
    mkResponse 200
      (JObj [("success", JBool true);
             ("url", JStr "https://cdn.example/headshot-1700000000000-k3x9qa.png")])
    = mkResponse 200
        (JObj [("success", JBool true);
               ("url",
                JStr ("https://" +:+ trim cdnHost +:+ "/" +:+ "headshot-"
                      +:+ "1700000000000" +:+ "-" +:+ "k3x9qa" +:+ "."
                      +:+ (if String.eqb (file_type file) "image/png"
                           then "png" else "webp")))]).
Proof.
  apply (X26_upload_success_only_if sample_password (Some "zone") (Some "key")
           (Some " cdn.example ") sample_put sample_thumbnail_request
           (Ok (file_entry sample_png)) "1700000000000" "k3x9qa"
           (mkResponse 200
              (JObj [("success", JBool true);
                     ("url", JStr "https://cdn.example/headshot-1700000000000-k3x9qa.png")])));
    [|reflexivity].
  unfold UploadRoute.POST.
  rewrite (proj1 sample_thumbnail_authenticated). reflexivity.
Defined.

Lemma X27_upload_checks_agree_witness :
  status (UploadRoute.POST sample_password (Some "zone") (Some "key")
            (Some " cdn.example ") sample_put sample_thumbnail_request
            (Ok (file_entry sample_pdf)) "1700000000000" "k3x9qa") = 400%Z.
Proof.
  apply (X27_upload_checks_agree sample_password (Some "zone") (Some "key")
           (Some " cdn.example ") sample_put sample_thumbnail_request
           sample_pdf "1700000000000" "k3x9qa" "zone" "key" " cdn.example ");
    try reflexivity; discriminate.
Defined.

(** ** The routes and their limiters *)

(** Case analysis on a scrutinee that holds no further case analysis. *)
Ltac innermost_case :=
  match goal with
  | |- context [match ?x with _ => _ end] =>
      lazymatch x with
      | context [match _ with _ => _ end] => fail
      | _ => destruct x
      end
  end.

Section RouteLimits.
Variables APP_PASSWORD OPENAI_API_KEY : option string.
Variable ChannelConfig : Type.
Variable getChannel : string -> option ChannelConfig.
Variable buildSystemPrompt : ChannelConfig -> string.
Variable chat_create : string -> string -> Result (option string).
Variable JSON_parse : string -> Result Json.
Variable toLocaleString : Z -> string.
Variable buildStyleAnalysisPrompt : string.
Variable vision_create : string -> string -> list string -> Result (option string).

Lemma analysis_status (request : Request) :
  In (status (AnalyzeBody.analysis ChannelConfig getChannel buildSystemPrompt
                chat_create JSON_parse toLocaleString request))
     [200; 400; 500]%Z.
Proof.
  unfold AnalyzeBody.analysis, AnalyzeBody.analyse, mbind, Result_bind.
  repeat innermost_case; cbn [status failure In]; auto.
Qed.

Lemma style_status (request : Request) :
  In (status (StyleBody.analysis buildStyleAnalysisPrompt vision_create request))
     [200; 400; 500]%Z.
Proof.
  unfold StyleBody.analysis, StyleBody.analyse, mbind, Result_bind.
  repeat innermost_case; cbn [status failure In]; auto.
Qed.

(** X28. An authenticated request to the analyze or the analyze-style
    route with the API key configured always takes a place in the route's
    limiter, whatever becomes of it afterwards, and it is answered 429
    exactly when the limiter refuses it: no failure of the body or of the
    model, a 429 of the model included, is passed on as a 429. *)
Theorem X28_limiter_decides_429
    (request : Request) (now : Z)
    (analyzeAttempts rateLimiter : gmap string Limiter.RateRecord) :
  ApiToken.unauthenticated APP_PASSWORD request = false ->
  unset OPENAI_API_KEY = false ->
  let ip := getClientIP request in
  let analyze :=
    AnalyzeRoute.POST APP_PASSWORD OPENAI_API_KEY
      (AnalyzeBody.analysis ChannelConfig getChannel buildSystemPrompt
         chat_create JSON_parse toLocaleString)
      request now analyzeAttempts in
  let style :=
    StyleRoute.POST APP_PASSWORD OPENAI_API_KEY
      (StyleBody.analysis buildStyleAnalysisPrompt vision_create)
      request now rateLimiter in
  (analyze.2 = (AnalyzeRoute.checkAnalyzeRateLimit now ip analyzeAttempts).2 /\
   (status analyze.1 = 429%Z <->
    (AnalyzeRoute.checkAnalyzeRateLimit now ip analyzeAttempts).1 = false)) /\
  (style.2 = (StyleRoute.checkRateLimit now ip rateLimiter).2 /\
   (status style.1 = 429%Z <->
    (StyleRoute.checkRateLimit now ip rateLimiter).1 = false)).
Proof.
  intros Hauth Hkey. cbv zeta.
  unfold AnalyzeRoute.POST, StyleRoute.POST. rewrite Hauth, Hkey.
  split.
  - destruct (AnalyzeRoute.checkAnalyzeRateLimit _ _ _) as [[] m];
      cbn [negb fst snd status failure]; (split; [done|]).
    + pose proof (analysis_status request) as H. cbn [In] in H.
      split; [lia | done].
    + done.
  - destruct (StyleRoute.checkRateLimit _ _ _) as [[] m];
      cbn [negb fst snd status failure]; (split; [done|]).
    + pose proof (style_status request) as H. cbn [In] in H.
      split; [lia | done].
    + done.
Qed.
End RouteLimits.

Lemma X28_limiter_decides_429_witness :
  status (AnalyzeRoute.POST sample_password (Some "sk-test")
            (AnalyzeBody.analysis unit sample_getChannel (fun _ => "system")
               (fun _ _ => Throw (APIError (Some 429%Z) None))
               (fun _ => Ok JNull) (fun _ => "100,000"))
            sample_analyze_request 1000%Z ∅).1 = 429%Z <->
  (AnalyzeRoute.checkAnalyzeRateLimit 1000%Z
     (getClientIP sample_analyze_request) ∅).1 = false.
Proof.
  assert (Hauth : ApiToken.unauthenticated sample_password sample_analyze_request
                  = false) by (vm_compute; reflexivity).
  exact (proj2 (proj1 (X28_limiter_decides_429 sample_password (Some "sk-test")
                         unit sample_getChannel (fun _ => "system")
                         (fun _ _ => Throw (APIError (Some 429%Z) None))
                         (fun _ => Ok JNull) (fun _ => "100,000")
                         "prompt" (fun _ _ _ => Ok None)
                         sample_analyze_request 1000%Z ∅ ∅ Hauth eq_refl))).
Defined.

(** ** The earlier login route *)

Lemma middleware_rejects
    (APP_PASSWORD : option string) (request_origin path value : string) :
  ~ Middleware.public_path path ->
  Middleware.verifySessionToken APP_PASSWORD value = false ->
  Middleware.middleware APP_PASSWORD request_origin path (Some value)
  = Middleware.redirect
      (Middleware.mkURL request_origin "/login" [("from", path)]).
Proof.
  intros Hpub Hv. unfold Middleware.middleware.
  destruct (existsb _ _) eqn:E1.
  { destruct Hpub. left. apply existsb_exists in E1 as (route & Hin & Hr). eauto. }
  destruct (_ || _) eqn:E2.
  { destruct Hpub. right. unfold Middleware.public_path.
    apply orb_true_iff in E2 as [E2 | E2]; [|tauto].
    apply orb_true_iff in E2 as [E2 | E2]; tauto. }
  rewrite Hv. by rewrite orb_true_r.
Qed.

Lemma plain_word_parts : Str.split "." "authenticated" = ["authenticated"].
Proof. reflexivity. Qed.

(** X29. A session opened by the earlier login route is not a session for
    the rest of the application: whenever that route answers 200, the cookie
    it sets is rejected by the token checks of the middleware, of the API
    routes and of the login route under every APP_PASSWORD, so the middleware
    redirects its bearer to the login page on every non-public path and the
    login route's GET reports it as not authenticated. *)
Theorem X29_plain_session_rejected
    (PASSWORD NODE_ENV : option string) (request : Request) (clock : Clock)
    (attempts : gmap string Attempt) :
  let reply := (PlainAuthRoute.POST PASSWORD NODE_ENV request clock attempts).1 in
  status (response reply) = 200%Z ->
  exists value secure,
    cookie reply
    = Some (cookie_set "yva_session" value true secure "strict" 604800 "/") /\
    forall APP_PASSWORD : option string,
      Middleware.verifySessionToken APP_PASSWORD value = false /\
      ApiToken.verifySessionToken APP_PASSWORD value = false /\
      AuthToken.verifySessionToken APP_PASSWORD value = false /\
      (forall request_origin path,
         ~ Middleware.public_path path ->
         Middleware.middleware APP_PASSWORD request_origin path (Some value)
         = Middleware.redirect
             (Middleware.mkURL request_origin "/login" [("from", path)])) /\
      (forall ip forwarded body,
         AuthRoute.GET APP_PASSWORD (mkRequest (Some value) ip forwarded body)
         = mkResponse 200 (JObj [("authenticated", JBool false)])).
Proof.
  cbv zeta. unfold PlainAuthRoute.POST, PlainAuthRoute.attempt, mbind, Result_bind.
  intros Hstatus.
  repeat innermost_case; try discriminate Hstatus.
  all: eexists "authenticated", _; (split; [reflexivity|]).
  all: intros APP_PASSWORD.
  all: assert (Hm : Middleware.verifySessionToken APP_PASSWORD "authenticated" = false)
         by (apply middleware_verify_closed; left; rewrite plain_word_parts;
             cbn [length]; lia).
  all: assert (Ha : AuthToken.verifySessionToken APP_PASSWORD "authenticated" = false)
         by (apply auth_verify_parts; rewrite plain_word_parts; cbn [length]; lia).
  all: repeat split; try done.
  all: try (unfold ApiToken.verifySessionToken; cbv zeta;
            by rewrite plain_word_parts).
  all: try (intros; by apply middleware_rejects).
  all: intros; unfold AuthRoute.GET; cbn [session]; rewrite Ha;
    by rewrite andb_false_r.
Qed.

Lemma X29_plain_session_rejected_witness :
  exists value secure,
    cookie (PlainAuthRoute.POST sample_password None sample_login sample_clock ∅).1
    = Some (cookie_set "yva_session" value true secure "strict" 604800 "/") /\
    forall APP_PASSWORD : option string,
      Middleware.verifySessionToken APP_PASSWORD value = false /\
      ApiToken.verifySessionToken APP_PASSWORD value = false /\
      AuthToken.verifySessionToken APP_PASSWORD value = false /\
      (forall request_origin path,
         ~ Middleware.public_path path ->
         Middleware.middleware APP_PASSWORD request_origin path (Some value)
         = Middleware.redirect
             (Middleware.mkURL request_origin "/login" [("from", path)])) /\
      (forall ip forwarded body,
         AuthRoute.GET APP_PASSWORD (mkRequest (Some value) ip forwarded body)
         = mkResponse 200 (JObj [("authenticated", JBool false)])).
Proof.
  apply (X29_plain_session_rejected sample_password None sample_login
           sample_clock ∅).
  reflexivity.
Defined.

Lemma plain_POST_wrong (password : string) (NODE_ENV : option string)
    (request : Request) (clock : Clock) (attempts : gmap string Attempt) :
  Str.falsy password = false ->
  plain_wrong password request ->
  PlainAuthRoute.locked clock (plain_key request) attempts = false ->
  PlainAuthRoute.POST (Some password) NODE_ENV request clock attempts
  = (let attempts' :=
       (PlainAuthRoute.recordAttempt (at_record clock) (plain_key request)
          attempts).2 in
     let delay :=
       PlainAuthRoute.getDelay (at_delay clock) (plain_key request) attempts' in
     (mkReply (failure "Invalid credentials" 401) None
        (if (delay >? 0)%Z then Some delay else None),
      attempts')).
Proof.
  intros Hp (body & given & Hbody & Hgiven & Hneq) Hlocked.
  unfold PlainAuthRoute.POST. fold (plain_key request).
  rewrite Hp, Hlocked.
  unfold PlainAuthRoute.attempt, mbind, Result_bind. rewrite Hbody, Hgiven.
  destruct given as [[| | | s | |]|]; try reflexivity.
  destruct (String.eqb_spec s password) as [->|]; [done | reflexivity].
Qed.

Lemma plain_first_failure (password : string) (NODE_ENV : option string)
    (request : Request) (clock : Clock) (attempts : gmap string Attempt) :
  Str.falsy password = false ->
  plain_wrong password request ->
  attempts !! plain_key request = None ->
  PlainAuthRoute.POST (Some password) NODE_ENV request clock attempts
  = (mkReply (failure "Invalid credentials" 401) None None,
     <[plain_key request := mkAttempt 1 (at_record clock)]> attempts).
Proof.
  intros Hp Hw Hnone.
  rewrite (plain_POST_wrong _ _ _ _ _ Hp Hw).
  - cbv zeta. unfold PlainAuthRoute.recordAttempt, PlainAuthRoute.getDelay,
      PlainAuthRoute.getAttemptCount. rewrite Hnone. cbn [snd].
    rewrite lookup_insert_eq. cbn [firstAttempt count].
    by destruct (at_delay clock - at_record clock
                 >? PlainAuthRoute.RATE_LIMIT_WINDOW)%Z.
  - unfold PlainAuthRoute.locked, PlainAuthRoute.getAttemptCount.
    by rewrite Hnone.
Qed.

Lemma plain_next_failure (password : string) (NODE_ENV : option string)
    (request : Request) (clock : Clock) (attempts : gmap string Attempt)
    (c t0 : Z) :
  Str.falsy password = false ->
  plain_wrong password request ->
  attempts !! plain_key request = Some (mkAttempt c t0) ->
  (1 <= c < PlainAuthRoute.RATE_LIMIT_MAX)%Z ->
  plain_within t0 clock ->
  PlainAuthRoute.POST (Some password) NODE_ENV request clock attempts
  = (mkReply (failure "Invalid credentials" 401) None
       (Some (Z.min (1000 * 2 ^ c) 8000)),
     <[plain_key request := mkAttempt (c + 1) t0]> attempts).
Proof.
  intros Hp Hw Hrec Hc (Ht1 & Ht2 & Ht3 & Ht4).
  unfold PlainAuthRoute.RATE_LIMIT_MAX in Hc.
  rewrite (plain_POST_wrong _ _ _ _ _ Hp Hw).
  - cbv zeta. unfold PlainAuthRoute.recordAttempt, PlainAuthRoute.getDelay,
      PlainAuthRoute.getAttemptCount. rewrite Hrec. cbn [firstAttempt count].
    destruct (Z.gtb_spec (at_record clock - t0) PlainAuthRoute.RATE_LIMIT_WINDOW);
      [lia|].
    cbn [snd]. rewrite lookup_insert_eq. cbn [firstAttempt count].
    destruct (Z.gtb_spec (at_delay clock - t0) PlainAuthRoute.RATE_LIMIT_WINDOW);
      [lia|].
    destruct (Z.leb_spec (c + 1) 1); [lia|].
    replace (c + 1 - 1)%Z with c by lia.
    assert (0 < 2 ^ c)%Z by (apply Z.pow_pos_nonneg; lia).
    destruct (Z.gtb_spec (Z.min (1000 * 2 ^ c) 8000) 0); [done | lia].
  - unfold PlainAuthRoute.locked, PlainAuthRoute.getAttemptCount. rewrite Hrec.
    cbn [firstAttempt count]. unfold PlainAuthRoute.RATE_LIMIT_MAX.
    destruct (Z.gtb_spec (at_limit_check clock - t0)
                PlainAuthRoute.RATE_LIMIT_WINDOW); [done|].
    destruct (Z.geb_spec c 3); [lia | done].
Qed.

Lemma plain_POST_locked (password : string) (NODE_ENV : option string)
    (request : Request) (clock : Clock) (attempts : gmap string Attempt)
    (record : Attempt) :
  Str.falsy password = false ->
  attempts !! plain_key request = Some record ->
  (PlainAuthRoute.RATE_LIMIT_MAX <= count record)%Z ->
  plain_within (firstAttempt record) clock ->
  PlainAuthRoute.POST (Some password) NODE_ENV request clock attempts
  = (mkReply (failure "Invalid credentials" 401) None (Some 4000%Z), attempts).
Proof.
  intros Hp Hrec Hc (Ht1 & Ht2 & _ & _).
  unfold PlainAuthRoute.POST. fold (plain_key request). rewrite Hp.
  unfold PlainAuthRoute.locked, PlainAuthRoute.getAttemptCount. rewrite Hrec.
  destruct (Z.gtb_spec (at_limit_check clock - firstAttempt record)
              PlainAuthRoute.RATE_LIMIT_WINDOW); [lia|].
  destruct (Z.geb_spec (count record) PlainAuthRoute.RATE_LIMIT_MAX); [|lia].
  destruct (Z.ltb_spec (at_lockout clock - firstAttempt record)
              PlainAuthRoute.RATE_LIMIT_WINDOW); [done | lia].
Qed.

(** X30. In the earlier login route, three POSTs with wrong passwords from
    one client that has no record, all within the hour opened by the first,
    are answered 401 "Invalid credentials" after delays of none, 2000 and
    4000 ms; the next POST in that hour from the client gets the very same
    answer after 4000 ms whatever it carries, the configured password
    included. No reply sets a cookie, and the client's record ends at three
    attempts. *)
Theorem X30_plain_three_failures_then_locked
    (password : string) (NODE_ENV : option string) (ip : string)
    (first : Request * Clock) (middle : list (Request * Clock))
    (last : Request * Clock) (attempts : gmap string Attempt) :
  Str.falsy password = false ->
  attempts !! ip = None ->
  length middle = 2%nat ->
  Forall (fun p => plain_key p.1 = ip) (first :: middle ++ [last]) ->
  Forall (fun p => plain_wrong password p.1) (first :: middle) ->
  Forall (fun p => plain_within (at_record first.2) p.2) (middle ++ [last]) ->
  let result :=
    plain_logins (Some password) NODE_ENV (first :: middle ++ [last]) attempts in
  Forall (fun r => response r = failure "Invalid credentials" 401 /\
                   cookie r = None) result.1 /\
  map slept result.1 = [None; Some 2000; Some 4000; Some 4000]%Z /\
  result.2 !! ip = Some (mkAttempt 3 (at_record first.2)).
Proof.
  intros Hp Hnone Hlen Hip Hwrong Hwin.
  destruct middle as [|p2 [|p3 [|? ?]]]; try discriminate Hlen.
  destruct first as [r1 c1], p2 as [r2 c2], p3 as [r3 c3], last as [r4 c4].
  cbn [app fst snd] in *.
  apply Forall_cons in Hip as [E1 Hip]. apply Forall_cons in Hip as [E2 Hip].
  apply Forall_cons in Hip as [E3 Hip]. apply Forall_cons in Hip as [E4 _].
  apply Forall_cons in Hwrong as [W1 Hwrong].
  apply Forall_cons in Hwrong as [W2 Hwrong].
  apply Forall_cons in Hwrong as [W3 _].
  apply Forall_cons in Hwin as [T2 Hwin]. apply Forall_cons in Hwin as [T3 Hwin].
  apply Forall_cons in Hwin as [T4 _].
  cbn [fst snd] in *. subst ip.
  cbn [plain_logins].
  rewrite plain_first_failure by done.
  rewrite (plain_next_failure _ _ r2 _ _ 1 (at_record c1)); try done;
    [|by rewrite E2, lookup_insert_eq].
  rewrite (plain_next_failure _ _ r3 _ _ 2 (at_record c1)); try done;
    [|by rewrite E3, E2, lookup_insert_eq].
  rewrite (plain_POST_locked _ _ r4 _ _ (mkAttempt 3 (at_record c1)));
    [ | done | by rewrite E4, E3, lookup_insert_eq | done | done ].
  cbn [fst snd map response slept cookie].
  split; [repeat constructor|]. split; [reflexivity|].
  by rewrite <- E3, lookup_insert_eq.
Qed.

Lemma X30_plain_three_failures_then_locked_witness :
  map slept
    (plain_logins sample_password None
       (repeat (sample_failed_login, sample_clock) 3
        ++ [(sample_login, sample_clock)]) ∅).1
  = [None; Some 2000; Some 4000; Some 4000]%Z.
Proof.
  assert (Hw : plain_wrong "hunter2" sample_failed_login).
  { exists (JObj [("password", JStr "letmein")]), (Some (JStr "letmein")).
    repeat split; first [reflexivity | discriminate]. }
  assert (Ht : plain_within 1000 sample_clock) by (repeat split; vm_compute; done).
  refine (proj1 (proj2 (X30_plain_three_failures_then_locked "hunter2" None "unknown"
            (sample_failed_login, sample_clock)
            (repeat (sample_failed_login, sample_clock) 2)
            (sample_login, sample_clock) ∅ eq_refl _ eq_refl _ _ _))).
  - apply lookup_empty.
  - cbn [repeat app]. repeat (constructor; [reflexivity|]). constructor.
  - cbn [repeat]. repeat (constructor; [exact Hw|]). constructor.
  - cbn [repeat app]. repeat (constructor; [exact Ht|]). constructor.
Defined.
